(** * Card generator and debit-card selector: Luhn check digits, BIN
      resolution, account numbers, expiry dates, CVVs, names and addresses
      of [scripts/data/card_generator.py], and the row validation and the
      output dictionary of [scripts/data/select-random-debit-cards.py]

    The Python programs are embedded shallowly.  Python [str] values are
    [string]s of ASCII characters, Python [int]s are [Z], Python [float]s
    are IEEE binary64 [float]s, dictionaries keyed by strings are [gmap]s
    (association lists where the order of the keys is read), exceptions are
    the [Raise] results of an error monad, and the [random] module is an
    explicit stream of raw draws threaded through the generator. *)

From Stdlib Require Import ZArith Lia List Bool Ascii String Floats Uint63.
From stdpp Require Import gmap strings.

Set Warnings "-inexact-float".

(** [lia] also decides goals with [/] and [mod] by constants. *)
Ltac Zify.zify_post_hook ::= Z.to_euclidean_division_equations.

Local Open Scope string_scope.
Local Open Scope Z_scope.

(* ===================================================================== *)
(** * The Python built-ins the program uses *)
(* ===================================================================== *)

Module Py.

(** Exceptions the modelled code can raise. *)
Inductive exn : Set :=
| ValueError
| IndexError
| KeyError
| OverflowError
| RecursionError.

Inductive result (A : Type) : Type :=
| Ok (a : A)
| Raise (e : exn).
Arguments Ok {A} a.
Arguments Raise {A} e.

Definition bind {A B : Type} (r : result A) (k : A -> result B) : result B :=
  match r with
  | Ok a => k a
  | Raise e => Raise e
  end.

(** ** Strings *)

Definition chars (s : string) : list ascii := list_ascii_of_string s.
Definition of_chars (l : list ascii) : string := string_of_list_ascii l.

(** [len(s)]: on an ASCII string, the number of its characters. *)
Definition len (s : string) : Z := Z.of_nat (String.length s).

(** [s.isascii()].  The model follows Python on ASCII strings; where a
    statement depends on what Python does with other characters (a decimal
    digit or a space outside ASCII, a letter whose case mapping leaves
    ASCII, a character with no UTF-8 encoding), it asks for [isascii]. *)
Definition is_ascii_char (c : ascii) : bool := (N_of_ascii c <? 128)%N.

Definition isascii (s : string) : bool := forallb is_ascii_char (chars s).

(** Slice bounds as Python normalises them: a negative index counts from
    the end, and everything is clamped to [0, len]. *)
Definition clamp_index (n i : Z) : Z :=
  if i <? 0 then Z.max 0 (n + i) else Z.min i n.

(** [s[lo:hi]], either bound possibly omitted. *)
Definition slice (lo hi : option Z) (s : string) : string :=
  let n := len s in
  let a := match lo with None => 0 | Some i => clamp_index n i end in
  let b := match hi with None => n | Some j => clamp_index n j end in
  substring (Z.to_nat a) (Z.to_nat (b - a)) s.

(** [s[:n]], [s[n:]] and [s[a:b]] *)
Definition upto (n : Z) (s : string) : string := slice None (Some n) s.
Definition from (n : Z) (s : string) : string := slice (Some n) None s.
Definition between (a b : Z) (s : string) : string := slice (Some a) (Some b) s.

(** [s[i]]: a one-character string, [IndexError] outside the string. *)
Definition item (i : Z) (s : string) : result string :=
  let n := len s in
  let j := if i <? 0 then n + i else i in
  if (0 <=? j) && (j <? n) then
    match String.get (Z.to_nat j) s with
    | Some c => Ok (String c EmptyString)
    | None => Raise IndexError
    end
  else Raise IndexError.

(** [s.startswith(p)] *)
Definition startswith (p s : string) : bool := String.prefix p s.

(** [s.replace(c, '')] for a one-character [c]. *)
Definition remove_char (c : ascii) (s : string) : string :=
  of_chars (List.filter (fun x => negb (Ascii.eqb x c)) (chars s)).

(** [reversed(s)], the characters from last to first. *)
Definition reversed (s : string) : list ascii := rev (chars s).

(** ** [int(s)] on ASCII strings

    Surrounding white space is stripped, one sign is allowed, and the
    digits may be separated by single underscores.  The digits and spaces
    beyond ASCII that Python also accepts are outside this model of
    strings, and so is the limit CPython puts on the number of digits. *)

Definition is_space (c : ascii) : bool :=
  let n := Z.of_N (N_of_ascii c) in
  ((9 <=? n) && (n <=? 13)) || (n =? 32).

Definition digit_value (c : ascii) : option Z :=
  let n := Z.of_N (N_of_ascii c) in
  if (48 <=? n) && (n <=? 57) then Some (n - 48) else None.

Definition is_digit (c : ascii) : bool :=
  match digit_value c with Some _ => true | None => false end.

Fixpoint lstrip (l : list ascii) : list ascii :=
  match l with
  | c :: r => if is_space c then lstrip r else l
  | [] => []
  end.

Definition strip (l : list ascii) : list ascii :=
  rev (lstrip (rev (lstrip l))).

(** [underscore_or_end_forbidden] holds at the start and right after an
    underscore: there a digit must follow. *)
Fixpoint int_digits (l : list ascii) (acc : Z)
    (underscore_or_end_forbidden : bool) : option Z :=
  match l with
  | [] => if underscore_or_end_forbidden then None else Some acc
  | c :: r =>
      if Ascii.eqb c "_"%char then
        if underscore_or_end_forbidden then None else int_digits r acc true
      else
        match digit_value c with
        | Some d => int_digits r (10 * acc + d) false
        | None => None
        end
  end.

Definition int_literal (l : list ascii) : option Z :=
  match l with
  | c :: r =>
      if Ascii.eqb c "+"%char then int_digits r 0 true
      else if Ascii.eqb c "-"%char then option_map Z.opp (int_digits r 0 true)
      else int_digits l 0 true
  | [] => None
  end.

Definition int (s : string) : result Z :=
  match int_literal (strip (chars s)) with
  | Some z => Ok z
  | None => Raise ValueError
  end.

(** ** [int(s, 16)]

    As [int(s)], with hexadecimal digits of either case and an optional
    [0x] prefix, after which one underscore may come. *)

Definition hex_value (c : ascii) : option Z :=
  let n := Z.of_N (N_of_ascii c) in
  if (48 <=? n) && (n <=? 57) then Some (n - 48)
  else if (97 <=? n) && (n <=? 102) then Some (n - 87)
  else if (65 <=? n) && (n <=? 70) then Some (n - 55)
  else None.

Fixpoint hex_digits (l : list ascii) (acc : Z)
    (underscore_or_end_forbidden : bool) : option Z :=
  match l with
  | [] => if underscore_or_end_forbidden then None else Some acc
  | c :: r =>
      if Ascii.eqb c "_"%char then
        if underscore_or_end_forbidden then None else hex_digits r acc true
      else
        match hex_value c with
        | Some d => hex_digits r (16 * acc + d) false
        | None => None
        end
  end.

Definition hex_body (l : list ascii) : option Z :=
  match l with
  | z :: x :: r =>
      if Ascii.eqb z "0"%char && (Ascii.eqb x "x"%char || Ascii.eqb x "X"%char)
      then match r with
           | u :: r' => if Ascii.eqb u "_"%char then hex_digits r' 0 true
                        else hex_digits r 0 true
           | [] => None
           end
      else hex_digits l 0 true
  | _ => hex_digits l 0 true
  end.

Definition hex_literal (l : list ascii) : option Z :=
  match l with
  | c :: r =>
      if Ascii.eqb c "+"%char then hex_body r
      else if Ascii.eqb c "-"%char then option_map Z.opp (hex_body r)
      else hex_body l
  | [] => None
  end.

Definition int16 (s : string) : result Z :=
  match hex_literal (strip (chars s)) with
  | Some z => Ok z
  | None => Raise ValueError
  end.

(** ** [str(n)] for an integer *)

Definition digit_char (d : Z) : ascii := ascii_of_N (Z.to_N (48 + d)).

Fixpoint str_digits (fuel : nat) (n : Z) (acc : list ascii) : list ascii :=
  match fuel with
  | O => acc
  | S fuel' =>
      let acc' := digit_char (n mod 10) :: acc in
      if n <? 10 then acc' else str_digits fuel' (n / 10) acc'
  end.

Definition str_nonneg (n : Z) : list ascii :=
  str_digits (S (Z.to_nat (Z.log2 n))) n [].

Definition str (z : Z) : string :=
  if z <? 0 then of_chars ("-"%char :: str_nonneg (- z))
  else of_chars (str_nonneg z).

(** [s.zfill(width)]: zeros go between a leading sign and the digits. *)
Definition zfill (width : Z) (s : string) : string :=
  let pad := of_chars (repeat "0"%char (Z.to_nat (width - len s))) in
  match s with
  | String c r =>
      if Ascii.eqb c "+"%char || Ascii.eqb c "-"%char
      then String c (pad +:+ r)
      else pad +:+ s
  | EmptyString => pad
  end.

(** [f"{n:02d}"] *)
Definition format_02d (n : Z) : string := zfill 2 (str n).

(** Every character is one of ['0'..'9']. *)
Definition all_digits (s : string) : bool := forallb is_digit (chars s).

(** ** Dictionaries and lists *)

(** [k in d] *)
Definition contains {K V : Type} `{Countable K} (d : gmap K V) (k : K)
  : bool :=
  match d !! k with
  | Some _ => true
  | None => false
  end.

(** [d[k]]: [KeyError] for a missing key. *)
Definition getitem {K V : Type} `{Countable K} (d : gmap K V) (k : K)
  : result V :=
  match d !! k with
  | Some v => Ok v
  | None => Raise KeyError
  end.

(** [d.get(k, default)] on an optional field. *)
Definition get {V : Type} (field : option V) (default : V) : V :=
  match field with
  | Some v => v
  | None => default
  end.

(** [l[i]] on a list, for an index that is not negative. *)
Definition list_item {A : Type} (l : list A) (i : Z) : result A :=
  match nth_error l (Z.to_nat i) with
  | Some x => Ok x
  | None => Raise IndexError
  end.

End Py.

Import Py.

#[global] Instance result_ret : MRet result := @Ok.
#[global] Instance result_bind : MBind result :=
  fun A B k r => Py.bind r k.

(* ===================================================================== *)
(** * [hashlib.md5]: the MD5 message digest (RFC 1321) on 32-bit words *)
(* ===================================================================== *)

Module Hashlib.

Definition wrap32 (x : Z) : Z := x mod 4294967296.

Definition rotl32 (x : Z) (c : Z) : Z :=
  wrap32 (Z.lor (Z.shiftl x c) (Z.shiftr x (32 - c))).

Definition not32 (x : Z) : Z := Z.lxor x 4294967295.

Definition shifts : list Z :=
  [7; 12; 17; 22; 7; 12; 17; 22; 7; 12; 17; 22; 7; 12; 17; 22;
   5; 9; 14; 20; 5; 9; 14; 20; 5; 9; 14; 20; 5; 9; 14; 20;
   4; 11; 16; 23; 4; 11; 16; 23; 4; 11; 16; 23; 4; 11; 16; 23;
   6; 10; 15; 21; 6; 10; 15; 21; 6; 10; 15; 21; 6; 10; 15; 21].

Definition sines : list Z :=
  [0xd76aa478; 0xe8c7b756; 0x242070db; 0xc1bdceee;
   0xf57c0faf; 0x4787c62a; 0xa8304613; 0xfd469501;
   0x698098d8; 0x8b44f7af; 0xffff5bb1; 0x895cd7be;
   0x6b901122; 0xfd987193; 0xa679438e; 0x49b40821;
   0xf61e2562; 0xc040b340; 0x265e5a51; 0xe9b6c7aa;
   0xd62f105d; 0x02441453; 0xd8a1e681; 0xe7d3fbc8;
   0x21e1cde6; 0xc33707d6; 0xf4d50d87; 0x455a14ed;
   0xa9e3e905; 0xfcefa3f8; 0x676f02d9; 0x8d2a4c8a;
   0xfffa3942; 0x8771f681; 0x6d9d6122; 0xfde5380c;
   0xa4beea44; 0x4bdecfa9; 0xf6bb4b60; 0xbebfbc70;
   0x289b7ec6; 0xeaa127fa; 0xd4ef3085; 0x04881d05;
   0xd9d4d039; 0xe6db99e5; 0x1fa27cf8; 0xc4ac5665;
   0xf4292244; 0x432aff97; 0xab9423a7; 0xfc93a039;
   0x655b59c3; 0x8f0ccc92; 0xffeff47d; 0x85845dd1;
   0x6fa87e4f; 0xfe2ce6e0; 0xa3014314; 0x4e0811a1;
   0xf7537e82; 0xbd3af235; 0x2ad7d2bb; 0xeb86d391].

(** The chaining value [(A, B, C, D)]. *)
Definition state : Type := Z * Z * Z * Z.

Definition initial : state :=
  (0x67452301, 0xefcdab89, 0x98badcfe, 0x10325476).

(** One of the 64 operations on the 16 words [m] of a block. *)
Definition operation (m : list Z) (st : state) (i : nat) : state :=
  let '(a, b, c, d) := st in
  let '(f, g) :=
    if (i <? 16)%nat then
      (Z.lor (Z.land b c) (Z.land (not32 b) d), i)
    else if (i <? 32)%nat then
      (Z.lor (Z.land d b) (Z.land (not32 d) c), ((5 * i + 1) mod 16)%nat)
    else if (i <? 48)%nat then
      (Z.lxor (Z.lxor b c) d, ((3 * i + 5) mod 16)%nat)
    else
      (Z.lxor c (Z.lor b (not32 d)), ((7 * i) mod 16)%nat) in
  let f := wrap32 (f + a + nth i sines 0 + nth g m 0) in
  (d, wrap32 (b + rotl32 f (nth i shifts 0)), b, c).

Definition compress (st : state) (m : list Z) : state :=
  let '(a0, b0, c0, d0) := st in
  let '(a, b, c, d) := fold_left (operation m) (seq 0 64) st in
  (wrap32 (a0 + a), wrap32 (b0 + b), wrap32 (c0 + c), wrap32 (d0 + d)).

(** Little-endian bytes of a word, and back. *)
Definition le_bytes (count : nat) (x : Z) : list Z :=
  map (fun k => (Z.shiftr x (8 * Z.of_nat k)) mod 256) (seq 0 count).

Fixpoint le_word (bytes : list Z) : Z :=
  match bytes with
  | [] => 0
  | b :: r => b + 256 * le_word r
  end.

(** The message followed by [0x80], zeros up to 56 modulo 64, and the bit
    length on 8 bytes. *)
Definition pad (msg : list Z) : list Z :=
  let n := Z.of_nat (length msg) in
  msg ++ [128] ++ repeat 0 (Z.to_nat ((55 - n) mod 64))
      ++ le_bytes 8 ((8 * n) mod 18446744073709551616).

Fixpoint words (count : nat) (bytes : list Z) : list Z :=
  match count with
  | O => []
  | S count' => le_word (firstn 4 bytes) :: words count' (skipn 4 bytes)
  end.

Fixpoint blocks (count : nat) (bytes : list Z) (st : state) : state :=
  match count with
  | O => st
  | S count' => blocks count' (skipn 64 bytes) (compress st (words 16 bytes))
  end.

Definition digest (msg : list Z) : list Z :=
  let padded := pad msg in
  let '(a, b, c, d) := blocks (length padded / 64) padded initial in
  le_bytes 4 a ++ le_bytes 4 b ++ le_bytes 4 c ++ le_bytes 4 d.

Definition hex_char (v : Z) : ascii :=
  nth (Z.to_nat v) (Py.chars "0123456789abcdef") "0"%char.

Definition hex_byte (b : Z) : list ascii := [hex_char (b / 16); hex_char (b mod 16)].

(** [s.encode('utf-8')] of an ASCII string: one byte per character, and
    no [UnicodeEncodeError]. *)
Definition encode (s : string) : list Z :=
  map (fun c => Z.of_N (N_of_ascii c)) (Py.chars s).

(** [hashlib.md5(data).hexdigest()] *)
Definition md5_hexdigest (data : list Z) : string :=
  Py.of_chars (flat_map hex_byte (digest data)).

End Hashlib.

(* ===================================================================== *)
(** * class LuhnValidator *)
(* ===================================================================== *)

Module LuhnValidator.

(** The body shared by the two [for digit in reversed(card_number)] loops:
    the running [total] and the [should_double] flag are the loop state. *)
Fixpoint luhn_loop (digits : list ascii) (total : Z) (should_double : bool)
  : result Z :=
  match digits with
  | [] => Ok total
  | digit :: rest =>
      n ← Py.int (String digit EmptyString);
      let n :=
        if should_double then
          let n := n * 2 in
          if n >? 9 then n - 9 else n
        else n in
      luhn_loop rest (total + n) (negb should_double)
  end.

Definition calculate_check_digit (card_number : string) : result string :=
  total ← luhn_loop (Py.reversed card_number) 0 true;
  let check_digit := (10 - (total mod 10)) mod 10 in
  Ok (Py.str check_digit).

Definition validate (card_number : string) : result bool :=
  total ← luhn_loop (Py.reversed card_number) 0 false;
  Ok (total mod 10 =? 0).

End LuhnValidator.

(* ===================================================================== *)
(** * [random]: the generator as a stream of raw draws *)
(* ===================================================================== *)

Module Random.

(** The state of the generator: an infinite sequence of raw draws and the
    position of the next one. *)
Record generator : Type := {
  source : nat -> N;
  cursor : nat
}.

(** Computations that may raise and that consume draws. *)
Definition M (A : Type) : Type := generator -> result A * generator.

Definition ret {A : Type} (a : A) : M A := fun g => (Ok a, g).

Definition bind {A B : Type} (m : M A) (k : A -> M B) : M B :=
  fun g =>
    match m g with
    | (Ok a, g') => k a g'
    | (Raise e, g') => (Raise e, g')
    end.

Definition lift {A : Type} (r : result A) : M A := fun g => (r, g).

Definition raw : M N :=
  fun g => (Ok (source g (cursor g)),
            {| source := source g; cursor := S (cursor g) |}).

(** [random.random()]: a multiple of 2^-53 in [0, 1). *)
Definition unit_float (k : N) : float :=
  (PrimFloat.of_uint63 (Uint63.of_Z (Z.of_N k mod 9007199254740992))
   / 9007199254740992)%float.

Definition random : M float :=
  bind raw (fun k => ret (unit_float k)).

(** [random.randint(a, b)]: an integer of [a..b], [ValueError] on an empty
    range. *)
Definition randint (a b : Z) : M Z :=
  if b <? a then lift (Raise ValueError)
  else bind raw (fun k => ret (a + Z.of_N k mod (b - a + 1))).

(** [random.choice(seq)]: an element of [seq], [IndexError] when empty. *)
Definition choice (seq : list Z) : M Z :=
  match seq with
  | [] => lift (Raise IndexError)
  | x :: _ =>
      bind raw (fun k => ret (nth (N.to_nat (k mod N.of_nat (length seq))) seq x))
  end.

(** The generator that replays [draws] and then yields zeros. *)
Definition replay (draws : list N) : generator :=
  {| source := fun i => nth i draws 0%N; cursor := 0 |}.

End Random.

#[global] Instance M_ret : MRet Random.M := @Random.ret.
#[global] Instance M_bind : MBind Random.M :=
  fun A B k m => Random.bind m k.

(* ===================================================================== *)
(** * class MarkovChainGenerator *)
(* ===================================================================== *)

Module MarkovChainGenerator.

Local Open Scope float_scope.

Definition TRANSITION_MATRIX : gmap Z (list float) :=
  list_to_map
    [(0%Z, [0.08; 0.11; 0.12; 0.10; 0.09; 0.11; 0.08; 0.10; 0.11; 0.10]);
     (1%Z, [0.10; 0.08; 0.11; 0.12; 0.09; 0.10; 0.11; 0.09; 0.10; 0.10]);
     (2%Z, [0.11; 0.10; 0.08; 0.11; 0.12; 0.09; 0.10; 0.11; 0.09; 0.09]);
     (3%Z, [0.09; 0.11; 0.10; 0.08; 0.11; 0.12; 0.09; 0.10; 0.11; 0.09]);
     (4%Z, [0.10; 0.09; 0.11; 0.10; 0.08; 0.11; 0.12; 0.09; 0.10; 0.10]);
     (5%Z, [0.11; 0.10; 0.09; 0.11; 0.10; 0.08; 0.11; 0.12; 0.09; 0.09]);
     (6%Z, [0.09; 0.11; 0.10; 0.09; 0.11; 0.10; 0.08; 0.11; 0.12; 0.09]);
     (7%Z, [0.10; 0.09; 0.11; 0.10; 0.09; 0.11; 0.10; 0.08; 0.11; 0.11]);
     (8%Z, [0.11; 0.10; 0.09; 0.11; 0.10; 0.09; 0.11; 0.10; 0.08; 0.11]);
     (9%Z, [0.10; 0.11; 0.10; 0.09; 0.11; 0.10; 0.09; 0.11; 0.10; 0.09])].

(** The [for digit in range(10)] loop over the digits still to visit;
    running off its end is the final [return 0]. *)
Fixpoint scan (digits : list Z) (probabilities : list float)
    (rand cumulative : float) : result Z :=
  match digits with
  | [] => Ok 0%Z
  | digit :: rest =>
      p ← Py.list_item probabilities digit;
      let cumulative := cumulative + p in
      if rand <? cumulative then Ok digit
      else scan rest probabilities rand cumulative
  end.

Definition range10 : list Z := [0; 1; 2; 3; 4; 5; 6; 7; 8; 9]%Z.

Definition get_next_digit (previous_segment : string) : Random.M Z :=
  if String.eqb previous_segment "" then Random.randint 0 9
  else
    last ← Random.lift (Py.item (-1) previous_segment);
    last_digit ← Random.lift (Py.int last);
    probabilities ← Random.lift (Py.getitem TRANSITION_MATRIX last_digit);
    rand ← Random.random;
    Random.lift (scan range10 probabilities rand 0).

End MarkovChainGenerator.

(* ===================================================================== *)
(** * class BINDatabase *)
(* ===================================================================== *)

(** An entry of the BIN table, as the JSON object it is loaded from: any
    key may be missing. *)
Module Brand.

Record info : Type := {
  brand : option string;
  length : option Z;
  cvvLength : option Z;
  bank : option string;
  country : option string;
  countryName : option string
}.

End Brand.

Module BINDatabase.

Definition _detect_by_rules (bin_code : string) : Brand.info :=
  if Py.startswith "4" bin_code then
    {| Brand.brand := Some "Visa"; Brand.length := Some 16;
       Brand.cvvLength := Some 3; Brand.bank := Some "Unknown";
       Brand.country := Some "US"; Brand.countryName := None |}
  else if Py.startswith "5" bin_code then
    {| Brand.brand := Some "Mastercard"; Brand.length := Some 16;
       Brand.cvvLength := Some 3; Brand.bank := Some "Unknown";
       Brand.country := Some "US"; Brand.countryName := None |}
  else if Py.startswith "34" bin_code || Py.startswith "37" bin_code then
    {| Brand.brand := Some "American Express"; Brand.length := Some 15;
       Brand.cvvLength := Some 4; Brand.bank := Some "Unknown";
       Brand.country := Some "US"; Brand.countryName := None |}
  else
    {| Brand.brand := Some "Unknown"; Brand.length := Some 16;
       Brand.cvvLength := Some 3; Brand.bank := Some "Unknown";
       Brand.country := Some "US"; Brand.countryName := None |}.

(** [database] is [self.database], the table [_load_database] returned
    (empty when the file could not be read). *)
Definition detect_card_brand (database : gmap string Brand.info)
    (bin_code : string) : result Brand.info :=
  if Py.contains database bin_code then Py.getitem database bin_code
  else
    let bin_4 := Py.upto 4 bin_code in
    if Py.contains database bin_4 then Py.getitem database bin_4
    else
      let bin_2 := Py.upto 2 bin_code in
      if Py.contains database bin_2 then Py.getitem database bin_2
      else
        let bin_1 := Py.upto 1 bin_code in
        if Py.contains database bin_1 then Py.getitem database bin_1
        else Ok (_detect_by_rules bin_code).

End BINDatabase.

(* ===================================================================== *)
(** * [datetime]: proleptic Gregorian dates *)
(* ===================================================================== *)

Module Datetime.

(** The calendar fields of a [datetime]; adding whole days leaves the time
    of day alone, so it is not carried. *)
Record datetime : Type := {
  year : Z;
  month : Z;
  day : Z
}.

Definition _MAXORDINAL : Z := 3652059.

Definition _DAYS_IN_MONTH : list Z :=
  [-1; 31; 28; 31; 30; 31; 30; 31; 31; 30; 31; 30; 31].

Definition _DAYS_BEFORE_MONTH : list Z :=
  [-1; 0; 31; 59; 90; 120; 151; 181; 212; 243; 273; 304; 334].

Definition _is_leap (y : Z) : bool :=
  (y mod 4 =? 0) && (negb (y mod 100 =? 0) || (y mod 400 =? 0)).

Definition _days_before_year (y : Z) : Z :=
  let y := y - 1 in
  y * 365 + y / 4 - y / 100 + y / 400.

Definition _days_in_month (y m : Z) : Z :=
  if (m =? 2) && _is_leap y then 29
  else nth (Z.to_nat m) _DAYS_IN_MONTH 0.

Definition _days_before_month (y m : Z) : Z :=
  nth (Z.to_nat m) _DAYS_BEFORE_MONTH 0
  + (if (m >? 2) && _is_leap y then 1 else 0).

Definition _ymd2ord (y m d : Z) : Z :=
  _days_before_year y + _days_before_month y m + d.

Definition _ord2ymd (n : Z) : datetime :=
  let n := n - 1 in
  let n400 := n / 146097 in
  let n := n mod 146097 in
  let y := n400 * 400 + 1 in
  let n100 := n / 36524 in
  let n := n mod 36524 in
  let n4 := n / 1461 in
  let n := n mod 1461 in
  let n1 := n / 365 in
  let n := n mod 365 in
  let y := y + n100 * 100 + n4 * 4 + n1 in
  if (n1 =? 4) || (n100 =? 4) then
    {| year := y - 1; month := 12; day := 31 |}
  else
    let leapyear := (n1 =? 3) && (negb (n4 =? 24) || (n100 =? 3)) in
    let m := Z.shiftr (n + 50) 5 in
    let preceding :=
      nth (Z.to_nat m) _DAYS_BEFORE_MONTH 0
      + (if (m >? 2) && leapyear then 1 else 0) in
    let '(m, preceding) :=
      if preceding >? n then
        (m - 1,
         preceding - (nth (Z.to_nat (m - 1)) _DAYS_IN_MONTH 0
                      + (if (m - 1 =? 2) && leapyear then 1 else 0)))
      else (m, preceding) in
    {| year := y; month := m; day := n - preceding + 1 |}.

(** The dates a [datetime] can hold: years 1 to 9999. *)
Definition valid (d : datetime) : bool :=
  (1 <=? year d) && (year d <=? 9999)
  && (1 <=? month d) && (month d <=? 12)
  && (1 <=? day d) && (day d <=? _days_in_month (year d) (month d)).

Definition toordinal (d : datetime) : Z :=
  _ymd2ord (year d) (month d) (day d).

(** [d + timedelta(days=n)] *)
Definition add_days (d : datetime) (n : Z) : result datetime :=
  let o := toordinal d + n in
  if (0 <? o) && (o <=? _MAXORDINAL) then Ok (_ord2ymd o)
  else Raise OverflowError.

End Datetime.

(* ===================================================================== *)
(** * class CardGenerator *)
(* ===================================================================== *)

Module CardGenerator.

(** The dictionary [generate_card] returns. *)
Record card : Type := {
  cardNumber : string;
  cardNumberFormatted : string;
  expiryDate : string;
  cvv : string;
  brand : string;
  bank : string;
  country : string;
  countryName : string
}.

Definition hash_bank_name (bank_name : string) : result Z :=
  if String.eqb bank_name "" || String.eqb bank_name "Unknown" then Ok 0
  else
    let hash_hex := Hashlib.md5_hexdigest (Hashlib.encode bank_name) in
    v ← Py.int16 (Py.upto 8 hash_hex);
    Ok (v mod 100).

(** The [for _ in range(length - 4)] loop of [generate_account_segment],
    [count] iterations from the segment built so far. *)
Fixpoint markov_digits (count : nat) (segment : string) : Random.M string :=
  match count with
  | O => mret segment
  | S count' =>
      next_digit ← MarkovChainGenerator.get_next_digit segment;
      markov_digits count' (segment +:+ Py.str next_digit)
  end.

Definition generate_account_segment (length : Z) (bin_code bank_name : string)
  : Random.M string :=
  let segment := "" in
  bank_seed ← Random.lift (hash_bank_name bank_name);
  let bin_last_4 :=
    if Py.len bin_code >=? 4 then Py.from (-4) bin_code else bin_code in
  last_4 ← Random.lift (Py.int bin_last_4);
  let branch_code := (last_4 + bank_seed) mod 100 in
  let segment := segment +:+ Py.zfill 2 (Py.str branch_code) in
  segment ← markov_digits (Z.to_nat (length - 4)) segment;
  sequence ← Random.randint 10 99;
  mret (segment +:+ Py.str sequence).

Local Open Scope float_scope.

Definition year_weights : list (Z * float) :=
  [(2%Z, 0.15); (3%Z, 0.40); (4%Z, 0.25); (5%Z, 0.15); (6%Z, 0.05)].

(** The [for years, weight in year_weights] loop with its [break];
    [years_to_add] is the value that stands when no weight is reached. *)
Fixpoint pick_years (weights : list (Z * float)) (rand cumulative : float)
    (years_to_add : Z) : Z :=
  match weights with
  | [] => years_to_add
  | (years, weight) :: rest =>
      let cumulative := cumulative + weight in
      if rand <? cumulative then years
      else pick_years rest rand cumulative years_to_add
  end.

Definition common_months : list Z := [3; 5; 6; 9; 11; 12]%Z.

(** [now] is the value of [datetime.now()]. *)
Definition generate_expiry_date (now : Datetime.datetime) : Random.M string :=
  rand ← Random.random;
  let years_to_add := pick_years year_weights rand 0 3%Z in
  coin ← Random.random;
  month ← (if coin <? 0.8 then Random.choice common_months
           else Random.randint 1 12);
  expiry_date ← Random.lift (Datetime.add_days now (365 * years_to_add)%Z);
  mret (Py.format_02d month +:+ "/"
        +:+ Py.format_02d (Datetime.year expiry_date mod 100)%Z).

Local Close Scope float_scope.

Definition weak_patterns : list string :=
  ["111"; "222"; "333"; "444"; "555"; "666"; "777"; "888"; "999"; "000"].

(** [x in l] on a list of strings *)
Definition is_in (x : string) (l : list string) : bool :=
  existsb (String.eqb x) l.

Definition generate_cvv (card_number expiry_date : string) (cvv_length : Z)
  : result string :=
  last_4 ← Py.int (Py.from (-4) card_number);
  expiry ← Py.int (Py.remove_char "/" expiry_date);
  let seed := last_4 + expiry in
  let pseudo_random := (seed * 9301 + 49297) mod 233280 in
  let cvv :=
    if cvv_length =? 4 then Py.str ((pseudo_random mod 9000) + 1000)
    else Py.str ((pseudo_random mod 900) + 100) in
  let cvv :=
    if is_in (Py.upto 3 cvv) weak_patterns then
      let offset := if cvv_length =? 4 then 1234 else 123 in
      if cvv_length =? 4 then
        Py.str (((pseudo_random + offset) mod 9000) + 1000)
      else
        Py.str (((pseudo_random + offset) mod 900) + 100)
    else cvv in
  Ok (Py.upto cvv_length cvv).

(** The display string of a card number. *)
Definition format_card_number (card_length : Z) (full_card_number : string)
  : string :=
  if card_length =? 15 then
    Py.upto 4 full_card_number +:+ " " +:+ Py.between 4 10 full_card_number
    +:+ " " +:+ Py.from 10 full_card_number
  else
    Py.upto 4 full_card_number +:+ " " +:+ Py.between 4 8 full_card_number
    +:+ " " +:+ Py.between 8 12 full_card_number
    +:+ " " +:+ Py.from 12 full_card_number.

(** [generate_card]; [depth] is the number of times it may still call
    itself before Python gives up with [RecursionError], and [now] is the
    value of [datetime.now()].  The warning printed before a retry is not
    modelled. *)
Fixpoint generate_card (depth : nat) (database : gmap string Brand.info)
    (now : Datetime.datetime) (bin_code : string) : Random.M card :=
  brand_info ← Random.lift (BINDatabase.detect_card_brand database bin_code);
  let card_length := Py.get (Brand.length brand_info) 16 in
  let cvv_length := Py.get (Brand.cvvLength brand_info) 3 in
  let bank_name := Py.get (Brand.bank brand_info) "Unknown" in
  let account_length := card_length - Py.len bin_code - 1 in
  account_segment ← generate_account_segment account_length bin_code bank_name;
  let card_without_check := bin_code +:+ account_segment in
  check_digit ←
    Random.lift (LuhnValidator.calculate_check_digit card_without_check);
  let full_card_number := card_without_check +:+ check_digit in
  valid ← Random.lift (LuhnValidator.validate full_card_number);
  if negb valid then
    match depth with
    | O => Random.lift (Raise RecursionError)
    | S depth' => generate_card depth' database now bin_code
    end
  else
    expiry_date ← generate_expiry_date now;
    cvv ← Random.lift (generate_cvv full_card_number expiry_date cvv_length);
    let formatted := format_card_number card_length full_card_number in
    mret {| cardNumber := full_card_number;
            cardNumberFormatted := formatted;
            expiryDate := expiry_date;
            cvv := cvv;
            brand := Py.get (Brand.brand brand_info) "Unknown";
            bank := bank_name;
            country := Py.get (Brand.country brand_info) "US";
            countryName :=
              Py.get (Brand.countryName brand_info) "United States" |}.

End CardGenerator.

(* ===================================================================== *)
(** * More built-ins: [random.choice] on any sequence, ordered
      dictionaries, [try ... except], and string methods *)
(* ===================================================================== *)

Module RandomSeq.

(** [random.choice(seq)] for a sequence of any type; on integers it is
    [Random.choice]. *)
Definition choice {A : Type} (seq : list A) : Random.M A :=
  match seq with
  | [] => Random.lift (Raise IndexError)
  | x :: _ =>
      Random.bind Random.raw
        (fun k => Random.ret
                    (nth (N.to_nat (k mod N.of_nat (length seq))) seq x))
  end.

(** [try: body except Exception: handler]: every exception of the model is
    an [Exception], and the draws made before it are spent. *)
Definition try_except {A : Type} (body handler : Random.M A) : Random.M A :=
  fun g =>
    match body g with
    | (Ok a, g') => (Ok a, g')
    | (Raise _, g') => handler g'
    end.

End RandomSeq.

(** A dictionary whose key order matters (Python keeps insertion order):
    the items in that order. *)
Module OrderedDict.

Definition t (V : Type) : Type := list (string * V).

(** [list(d.keys())] *)
Definition keys {V : Type} (d : t V) : list string := map fst d.

(** [d[k]] *)
Fixpoint getitem {V : Type} (d : t V) (k : string) : result V :=
  match d with
  | [] => Raise KeyError
  | (k', v) :: rest => if String.eqb k' k then Ok v else getitem rest k
  end.

End OrderedDict.

Module PyStr.

(** [s.upper()] and [s.lower()] on ASCII strings.  Python also maps letters
    outside ASCII, some of them to ASCII letters; a statement that depends
    on the case of a string asks for [Py.isascii]. *)
Definition upper_char (c : ascii) : ascii :=
  let n := N_of_ascii c in
  if ((97 <=? n) && (n <=? 122))%N then ascii_of_N (n - 32) else c.

Definition lower_char (c : ascii) : ascii :=
  let n := N_of_ascii c in
  if ((65 <=? n) && (n <=? 90))%N then ascii_of_N (n + 32) else c.

Definition upper (s : string) : string :=
  Py.of_chars (map upper_char (Py.chars s)).

Definition lower (s : string) : string :=
  Py.of_chars (map lower_char (Py.chars s)).

(** [sub in s] for strings *)
Fixpoint contains (sub s : string) : bool :=
  String.prefix sub s
  || match s with
     | EmptyString => false
     | String _ rest => contains sub rest
     end.

End PyStr.

(* ===================================================================== *)
(** * class PersonGenerator *)
(* ===================================================================== *)

(** One address of the address table, as the JSON object it is loaded
    from: either key may be missing. *)
Module Place.

Record entry : Type := {
  street : option string;
  zip : option string
}.

End Place.

Module PersonGenerator.

Definition FIRST_NAMES_MALE : list string :=
  ["James"; "John"; "Robert"; "Michael"; "William"; "David"; "Richard";
   "Joseph"; "Thomas"; "Charles"; "Christopher"; "Daniel"; "Matthew";
   "Anthony"; "Donald"].

Definition FIRST_NAMES_FEMALE : list string :=
  ["Mary"; "Patricia"; "Jennifer"; "Linda"; "Barbara"; "Elizabeth"; "Susan";
   "Jessica"; "Sarah"; "Karen"; "Nancy"; "Lisa"; "Betty"; "Margaret"].

Definition LAST_NAMES : list string :=
  ["Smith"; "Johnson"; "Williams"; "Brown"; "Jones"; "Garcia"; "Miller";
   "Davis"; "Rodriguez"; "Martinez"; "Wilson"; "Anderson"; "Thomas";
   "Taylor"; "Moore"].

Definition generate_name : Random.M string :=
  gender ← RandomSeq.choice ["male"; "female"];
  first_name ← (if String.eqb gender "male"
                then RandomSeq.choice FIRST_NAMES_MALE
                else RandomSeq.choice FIRST_NAMES_FEMALE);
  last_name ← RandomSeq.choice LAST_NAMES;
  mret (first_name +:+ " " +:+ last_name).

(** The dictionary [generate_address] returns. *)
Record address : Type := {
  street : string;
  city : string;
  state : string;
  zip : string;
  country : string;
  source : string
}.

Definition _generate_fallback_address : Random.M address :=
  let street_names := ["Main"; "Oak"; "Maple"; "Cedar"; "Elm"; "Washington"] in
  let suffixes := ["St"; "Ave"; "Rd"; "Dr"; "Ln"] in
  number ← Random.randint 100 9999;
  street ← RandomSeq.choice street_names;
  suffix ← RandomSeq.choice suffixes;
  mret {| street := Py.str number +:+ " " +:+ street +:+ " " +:+ suffix;
          city := "Portland";
          state := "OR";
          zip := "97219";
          country := "US";
          source := "generator" |}.

(** [a[key]] on an address of the table *)
Definition place_item (field : option string) : result string :=
  match field with
  | Some v => Ok v
  | None => Raise KeyError
  end.

(** [address_database] is [self.address_database], the table
    [_load_address_database] returned (empty when the file could not be
    read): country, then state, then city, then the addresses.  The
    warning printed when an exception is caught is not modelled. *)
Definition generate_address
    (address_database :
       gmap string (OrderedDict.t (OrderedDict.t (list Place.entry))))
  : Random.M address :=
  RandomSeq.try_except
    (let us_data := Py.get (address_database !! "US") [] in
     let states := OrderedDict.keys us_data in
     match states with
     | [] => _generate_fallback_address
     | _ =>
       state ← RandomSeq.choice states;
       cities ← Random.lift (OrderedDict.getitem us_data state);
       let city_names := OrderedDict.keys cities in
       match city_names with
       | [] => _generate_fallback_address
       | _ =>
         city ← RandomSeq.choice city_names;
         addresses ← Random.lift (OrderedDict.getitem cities city);
         match addresses with
         | [] => _generate_fallback_address
         | _ =>
           address ← RandomSeq.choice addresses;
           street ← Random.lift (place_item (Place.street address));
           zip ← Random.lift (place_item (Place.zip address));
           mret {| street := street;
                   city := city;
                   state := state;
                   zip := zip;
                   country := "US";
                   source := "database" |}
         end
       end
     end)
    _generate_fallback_address.

End PersonGenerator.

(* ===================================================================== *)
(** * generate_complete_info *)
(* ===================================================================== *)

Module CompleteInfo.

(** One element of the list [generate_complete_info] returns. *)
Record info : Type := {
  name : string;
  card : CardGenerator.card;
  address : PersonGenerator.address;
  timestamp : string
}.

(** The [for i in range(quantity)] loop over the indices still to visit.
    The clock is an input: [now_of i] is what [datetime.now()] returns
    inside the [i]-th [generate_card], and [timestamp_of i] is the
    formatted [datetime.now()] of the [i]-th record. *)
Fixpoint records (indices : list nat) (depth : nat)
    (database : gmap string Brand.info)
    (address_database :
       gmap string (OrderedDict.t (OrderedDict.t (list Place.entry))))
    (now_of : nat -> Datetime.datetime) (timestamp_of : nat -> string)
    (bin_code : string) (results : list info) : Random.M (list info) :=
  match indices with
  | [] => mret results
  | i :: rest =>
      card ← CardGenerator.generate_card depth database (now_of i) bin_code;
      name ← PersonGenerator.generate_name;
      address ← PersonGenerator.generate_address address_database;
      let result := {| name := name;
                       card := card;
                       address := address;
                       timestamp := timestamp_of i |} in
      records rest depth database address_database now_of timestamp_of
        bin_code (results ++ [result])
  end.

(** [database] and [address_database] are the tables the two generators
    loaded when they were constructed. *)
Definition generate_complete_info (depth : nat)
    (database : gmap string Brand.info)
    (address_database :
       gmap string (OrderedDict.t (OrderedDict.t (list Place.entry))))
    (now_of : nat -> Datetime.datetime) (timestamp_of : nat -> string)
    (bin_code : string) (quantity : Z) : Random.M (list info) :=
  records (seq 0 (Z.to_nat quantity)) depth database address_database
    now_of timestamp_of bin_code [].

End CompleteInfo.

(* ===================================================================== *)
(** * select-random-debit-cards.py *)
(* ===================================================================== *)

(** A row of the CSV file, by the columns the script reads; every column
    has a value (the row is not shorter than the header). *)
Module CsvRow.

Record t : Type := {
  bin : string;
  brand : string;
  type : string;
  issuer : string;
  alpha_2 : string;
  country : string
}.

End CsvRow.

(** The dictionary [validate_card_entry] builds. *)
Module Entry.

Record t : Type := {
  scheme : string;
  type : string;
  brand : string;
  bank : string;
  country : string;
  countryName : string;
  length : Z;
  cvvLength : Z
}.

(** The values of its keys: strings and integers. *)
Inductive value : Type :=
| Str (s : string)
| Int (z : Z).

(** [entry[field]], [None] when [field not in entry]. *)
Definition item (entry : t) (field : string) : option value :=
  if String.eqb field "scheme" then Some (Str (scheme entry))
  else if String.eqb field "type" then Some (Str (type entry))
  else if String.eqb field "brand" then Some (Str (brand entry))
  else if String.eqb field "bank" then Some (Str (bank entry))
  else if String.eqb field "country" then Some (Str (country entry))
  else if String.eqb field "countryName" then Some (Str (countryName entry))
  else if String.eqb field "length" then Some (Int (length entry))
  else if String.eqb field "cvvLength" then Some (Int (cvvLength entry))
  else None.

(** The truth value of a string or an integer. *)
Definition truthy (v : value) : bool :=
  match v with
  | Str s => negb (String.eqb s "")
  | Int z => negb (z =? 0)
  end.

Definition set_scheme (s : string) (e : t) : t :=
  {| scheme := s; type := type e; brand := brand e; bank := bank e;
     country := country e; countryName := countryName e;
     length := length e; cvvLength := cvvLength e |}.

Definition set_brand (s : string) (e : t) : t :=
  {| scheme := scheme e; type := type e; brand := s; bank := bank e;
     country := country e; countryName := countryName e;
     length := length e; cvvLength := cvvLength e |}.

Definition set_length (z : Z) (e : t) : t :=
  {| scheme := scheme e; type := type e; brand := brand e; bank := bank e;
     country := country e; countryName := countryName e;
     length := z; cvvLength := cvvLength e |}.

Definition set_cvvLength (z : Z) (e : t) : t :=
  {| scheme := scheme e; type := type e; brand := brand e; bank := bank e;
     country := country e; countryName := countryName e;
     length := length e; cvvLength := z |}.

End Entry.

Module DebitCards.

(** The four assignments of one scheme branch. *)
Definition normalise (scheme brand : string) (length cvvLength : Z)
    (entry : Entry.t) : Entry.t :=
  Entry.set_cvvLength cvvLength
    (Entry.set_length length
       (Entry.set_brand brand (Entry.set_scheme scheme entry))).

(** [validate_card_entry]: [None] is the pair [(False, None)] and
    [Some entry] the pair [(True, entry)]. *)
Definition validate_card_entry (row : CsvRow.t) (required_fields : gset string)
  : option Entry.t :=
  if negb (String.eqb (PyStr.upper (CsvRow.type row)) "DEBIT") then None
  else
    let entry :=
      {| Entry.scheme :=
           if negb (String.eqb (CsvRow.brand row) "")
           then Py.remove_char " " (PyStr.lower (CsvRow.brand row))
           else "unknown";
         Entry.type := PyStr.lower (CsvRow.type row);
         Entry.brand :=
           if negb (String.eqb (CsvRow.brand row) "") then CsvRow.brand row
           else "Unknown";
         Entry.bank :=
           if negb (String.eqb (CsvRow.issuer row) "") then CsvRow.issuer row
           else "Various";
         Entry.country := CsvRow.alpha_2 row;
         Entry.countryName := CsvRow.country row;
         Entry.length := 16;
         Entry.cvvLength := 3 |} in
    let entry :=
      if PyStr.contains "amex" (Entry.scheme entry)
         || String.eqb (Entry.scheme entry) "americanexpress"
      then normalise "amex" "American Express" 15 4 entry
      else if PyStr.contains "visa" (Entry.scheme entry)
      then normalise "visa" "Visa" 16 3 entry
      else if PyStr.contains "mastercard" (Entry.scheme entry)
              || PyStr.contains "master" (Entry.scheme entry)
      then normalise "mastercard" "Mastercard" 16 3 entry
      else if PyStr.contains "discover" (Entry.scheme entry)
      then normalise "discover" "Discover" 16 3 entry
      else if PyStr.contains "jcb" (Entry.scheme entry)
      then normalise "jcb" "JCB" 16 3 entry
      else if PyStr.contains "dinersclub" (Entry.scheme entry)
              || PyStr.contains "diners" (Entry.scheme entry)
      then normalise "dinersclub" "Diners Club" 14 3 entry
      else if PyStr.contains "private" (PyStr.lower (Entry.scheme entry))
              || PyStr.contains "label" (PyStr.lower (Entry.brand entry))
      then Entry.set_brand "Private Label" (Entry.set_scheme "unknown" entry)
      else entry in
    if negb (forallb
               (fun field =>
                  match Entry.item entry field with
                  | Some v => Entry.truthy v
                  | None => false
                  end)
               (elements required_fields))
    then None
    else if String.eqb (Entry.country entry) ""
            || negb (Py.len (Entry.country entry) =? 2)
    then None
    else Some entry.

(** An element of [selected_cards]. *)
Record selected : Type := {
  bin : string;
  entry : Entry.t
}.

(** The state of the reading loop of [select_random_cards]: the groups
    [cards_by_country] by their content (the order of the countries is not
    kept) and the two counters. *)
Record reading : Type := {
  cards_by_country : gmap string (list selected);
  total_valid : Z;
  total_processed : Z
}.

(** The [for row in reader] loop of [select_random_cards], where [rows]
    are the rows the CSV reader yields; [cards_by_country] is a
    [defaultdict(list)], so a country that is not there yet starts from the
    empty list.  The progress message is not modelled. *)
Fixpoint read_rows (rows : list CsvRow.t) (required_fields : gset string)
    (state : reading) : reading :=
  match rows with
  | [] => state
  | row :: rest =>
      let total_processed := total_processed state + 1 in
      match validate_card_entry row required_fields with
      | Some entry =>
          let country := Entry.country entry in
          let group := Py.get (cards_by_country state !! country) [] in
          read_rows rest required_fields
            {| cards_by_country :=
                 <[country := (group ++ [{| bin := CsvRow.bin row;
                                            entry := entry |}])%list]>
                   (cards_by_country state);
               total_valid := total_valid state + 1;
               total_processed := total_processed |}
      | None =>
          read_rows rest required_fields
            {| cards_by_country := cards_by_country state;
               total_valid := total_valid state;
               total_processed := total_processed |}
      end
  end.

(** The [for card in selected_cards] loop of [save_to_json]: the
    dictionary [output_data['bins']] it fills from the entries so far. *)
Fixpoint fill_bins (selected_cards : list selected)
    (bins : gmap string Entry.t) : gmap string Entry.t :=
  match selected_cards with
  | [] => bins
  | card :: rest => fill_bins rest (<[bin card := entry card]> bins)
  end.

(** [save_to_json], by the dictionary [output_data['bins']] that it hands
    to [json.dump]; writing the file and the message printed after it are
    not modelled. *)
Definition save_to_json (selected_cards : list selected)
  : gmap string Entry.t :=
  fill_bins selected_cards ∅.

End DebitCards.

(* ===================================================================== *)
(** * Vocabulary of the statements *)
(* ===================================================================== *)

(** ** Luhn *)

(** What one digit adds to the total. *)
Definition luhn_term (should_double : bool) (n : Z) : Z :=
  if should_double then
    let n := n * 2 in
    if n >? 9 then n - 9 else n
  else n.

(** ** The transition matrix *)

(** The entries of the matrix as the decimal literals of the source write
    them, in hundredths. *)
Definition TRANSITION_HUNDREDTHS : gmap Z (list Z) :=
  list_to_map
    [(0, [8; 11; 12; 10; 9; 11; 8; 10; 11; 10]);
     (1, [10; 8; 11; 12; 9; 10; 11; 9; 10; 10]);
     (2, [11; 10; 8; 11; 12; 9; 10; 11; 9; 9]);
     (3, [9; 11; 10; 8; 11; 12; 9; 10; 11; 9]);
     (4, [10; 9; 11; 10; 8; 11; 12; 9; 10; 10]);
     (5, [11; 10; 9; 11; 10; 8; 11; 12; 9; 9]);
     (6, [9; 11; 10; 9; 11; 10; 8; 11; 12; 9]);
     (7, [10; 9; 11; 10; 9; 11; 10; 8; 11; 11]);
     (8, [11; 10; 9; 11; 10; 9; 11; 10; 8; 11]);
     (9, [10; 11; 10; 9; 11; 10; 9; 11; 10; 9])].

(** The binary64 number nearest to [h / 100], which is what the literal
    with these hundredths denotes. *)
Definition of_hundredths (h : Z) : float :=
  (PrimFloat.of_uint63 (Uint63.of_Z h) / 100)%float.

(** What [cumulative] holds after the columns [0..digit] of a row. *)
Definition cumulative (probabilities : list float) (digit : nat) : float :=
  fold_left PrimFloat.add (firstn (S digit) probabilities) 0%float.

(** What [cumulative] holds after a whole row. *)
Definition row_total (probabilities : list float) : float :=
  fold_left PrimFloat.add probabilities 0%float.

(** The largest binary64 number below 1, [1 - 2^-53]; Python prints it as
    [0.9999999999999999]. *)
Definition below_one : float := 0x1.fffffffffffffp-1%float.

(** ** The four profiles of [_detect_by_rules] *)

Definition visa : Brand.info :=
  {| Brand.brand := Some "Visa"; Brand.length := Some 16;
     Brand.cvvLength := Some 3; Brand.bank := Some "Unknown";
     Brand.country := Some "US"; Brand.countryName := None |}.

Definition mastercard : Brand.info :=
  {| Brand.brand := Some "Mastercard"; Brand.length := Some 16;
     Brand.cvvLength := Some 3; Brand.bank := Some "Unknown";
     Brand.country := Some "US"; Brand.countryName := None |}.

Definition american_express : Brand.info :=
  {| Brand.brand := Some "American Express"; Brand.length := Some 15;
     Brand.cvvLength := Some 4; Brand.bank := Some "Unknown";
     Brand.country := Some "US"; Brand.countryName := None |}.

Definition unknown_brand : Brand.info :=
  {| Brand.brand := Some "Unknown"; Brand.length := Some 16;
     Brand.cvvLength := Some 3; Brand.bank := Some "Unknown";
     Brand.country := Some "US"; Brand.countryName := None |}.

(** ** Parts of [generate_account_segment], [generate_cvv] and
       [generate_card] *)

(** The digits four from the end of the BIN, or the whole BIN when it is
    shorter: [bin_last_4] of the source. *)
Definition bin_last_4 (bin_code : string) : string :=
  if Py.len bin_code >=? 4 then Py.from (-4) bin_code else bin_code.

(** The value the CVV is printed from: the first mapping of the
    pseudo-random number, or the second one when the first is weak. *)
Definition cvv_value (pseudo_random cvv_length : Z) : Z :=
  let first :=
    if cvv_length =? 4 then (pseudo_random mod 9000) + 1000
    else (pseudo_random mod 900) + 100 in
  if CardGenerator.is_in (Py.upto 3 (Py.str first)) CardGenerator.weak_patterns
  then
    if cvv_length =? 4 then ((pseudo_random + 1234) mod 9000) + 1000
    else ((pseudo_random + 123) mod 900) + 100
  else first.

(** Whether the CVV printed from a value starts with a weak pattern. *)
Definition weak_value (w : Z) : bool :=
  CardGenerator.is_in (Py.upto 3 (Py.str w)) CardGenerator.weak_patterns.

(** The steps of [generate_card] after the validation. *)
Definition card_of (now : Datetime.datetime) (brand_info : Brand.info)
    (full_card_number : string) : Random.M CardGenerator.card :=
  expiry_date ← CardGenerator.generate_expiry_date now;
  cvv ← Random.lift
          (CardGenerator.generate_cvv full_card_number expiry_date
             (Py.get (Brand.cvvLength brand_info) 3));
  mret {| CardGenerator.cardNumber := full_card_number;
          CardGenerator.cardNumberFormatted :=
            CardGenerator.format_card_number
              (Py.get (Brand.length brand_info) 16) full_card_number;
          CardGenerator.expiryDate := expiry_date;
          CardGenerator.cvv := cvv;
          CardGenerator.brand := Py.get (Brand.brand brand_info) "Unknown";
          CardGenerator.bank := Py.get (Brand.bank brand_info) "Unknown";
          CardGenerator.country := Py.get (Brand.country brand_info) "US";
          CardGenerator.countryName :=
            Py.get (Brand.countryName brand_info) "United States" |}.

(** ** Checks run over a whole range of integers *)

(** The integers [lo], ..., [lo + count - 1]. *)
Definition range_from (lo count : Z) : list Z :=
  map (fun i => lo + Z.of_nat i) (seq 0 (Z.to_nat count)).

(** [str(w)] is [width] digits that read back as [w], with no leading zero
    and not starting with 000. *)
Definition cvv_check (width : Z) (w : Z) : bool :=
  let s := Py.str w in
  (Z.of_nat (String.length s) =? width)
  && Py.all_digits s
  && match Py.int s with Ok v => v =? w | Raise _ => false end
  && String.eqb (Py.upto width s) s
  && negb (String.eqb (Py.upto 1 s) "0")
  && negb (String.eqb (Py.upto 3 s) "000").

(** [f"{v:02d}"] is two digits that read back as [v]. *)
Definition two_digit_check (v : Z) : bool :=
  let s := Py.format_02d v in
  (String.length s =? 2)%nat && Py.all_digits s
  && match Py.int s with Ok w => w =? v | Raise _ => false end.

(** ** Vocabulary of the further properties *)

(** The total the Luhn loop adds for a list of digits, the first of them
    doubled or not. *)
Fixpoint luhn_sum (digits : list ascii) (should_double : bool) : Z :=
  match digits with
  | [] => 0
  | digit :: rest =>
      luhn_term should_double (Py.get (Py.digit_value digit) 0)
      + luhn_sum rest (negb should_double)
  end.

(** A raw draw that lands inside the share of [next] in the row of
    [previous]: the hundredths before it, and half a hundredth more, as a
    multiple of 2^-53. *)
Definition draw_for (previous next : Z) : N :=
  let hundredths := Py.get (TRANSITION_HUNDREDTHS !! previous) [] in
  let before := fold_right Z.add 0 (firstn (Z.to_nat next) hundredths) in
  Z.to_N ((2 * before + 1) * 9007199254740992 / 200).

(** [scan] on the draw chosen for [next] in the row of [previous]. *)
Definition reaches (previous next : Z) : bool :=
  match MarkovChainGenerator.TRANSITION_MATRIX !! previous with
  | Some row =>
      match MarkovChainGenerator.scan MarkovChainGenerator.range10 row
              (Random.unit_float (draw_for previous next)) 0%float with
      | Ok digit => digit =? next
      | Raise _ => false
      end
  | None => false
  end.

(** An address as [_generate_fallback_address] makes it. *)
Definition fallback_address (a : PersonGenerator.address) : Prop :=
  exists (number : Z) (street_name suffix : string),
    100 <= number <= 9999
    /\ In street_name ["Main"; "Oak"; "Maple"; "Cedar"; "Elm"; "Washington"]
    /\ In suffix ["St"; "Ave"; "Rd"; "Dr"; "Ln"]
    /\ a = {| PersonGenerator.street :=
                Py.str number +:+ " " +:+ street_name +:+ " " +:+ suffix;
              PersonGenerator.city := "Portland";
              PersonGenerator.state := "OR";
              PersonGenerator.zip := "97219";
              PersonGenerator.country := "US";
              PersonGenerator.source := "generator" |}.


(** A record of [generate_complete_info] whose card number passes the Luhn
    validation and starts with the BIN. *)
Definition card_of_bin (bin_code : string) (r : CompleteInfo.info) : Prop :=
  LuhnValidator.validate (CardGenerator.cardNumber (CompleteInfo.card r))
  = Ok true
  /\ Py.startswith bin_code (CardGenerator.cardNumber (CompleteInfo.card r))
     = true.

(** The keys of the dictionary [validate_card_entry] builds. *)
Definition entry_keys : list string :=
  ["scheme"; "type"; "brand"; "bank"; "country"; "countryName"; "length";
   "cvvLength"].

(** The rows [validate_card_entry] accepts: a debit row with a two-letter
    country code, when no required field is missing from the keys or empty
    in the entry.  Only the country name and the scheme can be empty: the
    scheme is when the brand is written with spaces alone. *)
Definition accepted (row : CsvRow.t) (required_fields : gset string) : Prop :=
  PyStr.upper (CsvRow.type row) = "DEBIT"
  /\ Py.len (CsvRow.alpha_2 row) = 2
  /\ (forall field, field ∈ required_fields -> In field entry_keys)
  /\ ("countryName" ∈ required_fields -> CsvRow.country row <> "")
  /\ ("scheme" ∈ required_fields ->
      CsvRow.brand row = ""
      \/ Py.remove_char " " (PyStr.lower (CsvRow.brand row)) <> "").

(** The entry of the last card of the selection that has the BIN. *)
Fixpoint last_entry (bin_code : string)
    (selected_cards : list DebitCards.selected) : option Entry.t :=
  match selected_cards with
  | [] => None
  | card :: rest =>
      match last_entry bin_code rest with
      | Some entry => Some entry
      | None =>
          if String.eqb (DebitCards.bin card) bin_code
          then Some (DebitCards.entry card) else None
      end
  end.

(** The cards of the rows that [validate_card_entry] accepts for a
    country, in the order of the rows. *)
Fixpoint cards_of (country : string) (rows : list CsvRow.t)
    (required_fields : gset string) : list DebitCards.selected :=
  match rows with
  | [] => []
  | row :: rest =>
      match DebitCards.validate_card_entry row required_fields with
      | Some entry =>
          if String.eqb (Entry.country entry) country
          then {| DebitCards.bin := CsvRow.bin row; DebitCards.entry := entry |}
               :: cards_of country rest required_fields
          else cards_of country rest required_fields
      | None => cards_of country rest required_fields
      end
  end.

(** The number of rows that [validate_card_entry] accepts. *)
Fixpoint count_valid (rows : list CsvRow.t) (required_fields : gset string)
  : Z :=
  match rows with
  | [] => 0
  | row :: rest =>
      match DebitCards.validate_card_entry row required_fields with
      | Some _ => 1 + count_valid rest required_fields
      | None => count_valid rest required_fields
      end
  end.

(** A row whose type, brand and country code are ASCII strings: the fields
    whose letter case or length [validate_card_entry] reads. *)
Definition ascii_row (row : CsvRow.t) : Prop :=
  Py.isascii (CsvRow.type row) = true
  /\ Py.isascii (CsvRow.brand row) = true
  /\ Py.isascii (CsvRow.alpha_2 row) = true.

(* ===================================================================== *)
(** * The model on known values *)
(* ===================================================================== *)

Example int_samples :
  map Py.int [""; " "; "+"; "+1"; " -1 "; "- 1"; "1_2"; "_1"; "1_"; "1__2";
              "007"; "0x1"; "1 2"; "-345"]
  = [Raise ValueError; Raise ValueError; Raise ValueError; Ok 1; Ok (-1);
     Raise ValueError; Ok 12; Raise ValueError; Raise ValueError;
     Raise ValueError; Ok 7; Raise ValueError; Raise ValueError; Ok (-345)].
Proof. reflexivity. Qed.

Example str_samples :
  map Py.str [0; 7; 10; 99; 100; 1234; -5; 4294967295]
  = ["0"; "7"; "10"; "99"; "100"; "1234"; "-5"; "4294967295"].
Proof. reflexivity. Qed.

Example zfill_samples :
  map (Py.zfill 2) ["5"; "123"; ""; "-1"] = ["05"; "123"; "00"; "-1"]
  /\ map (Py.zfill 3) ["-1"; "+1"] = ["-01"; "+01"].
Proof. split; reflexivity. Qed.

Example slice_samples :
  Py.from (-4) "abc" = "abc" /\ Py.from (-4) "abcdef" = "cdef"
  /\ Py.upto 1 "abc" = "a" /\ Py.between 4 10 "abcdefg" = "efg"
  /\ Py.from 10 "abc" = "" /\ Py.item (-1) "ab" = Ok "b"
  /\ Py.item (-1) "" = Raise IndexError.
Proof. repeat split; reflexivity. Qed.

Example int16_samples :
  map Py.int16 ["0x_1f"; "0X1F"; " +0x1f "; "1f"; "0x"; "0"; "0x_"; "_1f";
                "0_x1f"; "-0x1F"; "0x1__f"; "x1"; "0xg"; "1F_"; "0x1f_2"]
  = [Ok 31; Ok 31; Ok 31; Ok 31; Raise ValueError; Ok 0; Raise ValueError;
     Raise ValueError; Raise ValueError; Ok (-31); Raise ValueError;
     Raise ValueError; Raise ValueError; Raise ValueError; Ok 498].
Proof. reflexivity. Qed.

Example md5_samples :
  map (fun s => Hashlib.md5_hexdigest (Hashlib.encode s))
      [""; "a"; "abc"; "message digest"; "abcdefghijklmnopqrstuvwxyz";
       "ABCDEFGHIJKLMNOPQRSTUVWXYZabcdefghijklmnopqrstuvwxyz0123456789";
       "12345678901234567890123456789012345678901234567890123456789012345678901234567890";
       "Chase Bank"]
  = ["d41d8cd98f00b204e9800998ecf8427e"; "0cc175b9c0f1b6a831c399e269772661";
     "900150983cd24fb0d6963f7d28e17f72"; "f96b697d7cb7938d525a2f31aaf161d0";
     "c3fcd3d76192e4007dfb496cca67e13b"; "d174ab98d277d9f5a5611c2c9f419d9f";
     "57edf4a22be3c955ac49da2e2107b67a"; "3572455e63b99a991e2f91ba3fc15e41"].
Proof. vm_compute. reflexivity. Qed.

Example luhn_samples :
  LuhnValidator.calculate_check_digit "7992739871" = Ok "3"
  /\ LuhnValidator.validate "79927398713" = Ok true
  /\ LuhnValidator.validate "79927398710" = Ok false
  /\ LuhnValidator.validate "4539 1488" = Raise ValueError.
Proof. repeat split; reflexivity. Qed.

Example get_next_digit_samples :
  fst (MarkovChainGenerator.get_next_digit "" (Random.replay [7%N])) = Ok 7
  /\ fst (MarkovChainGenerator.get_next_digit "12" (Random.replay [0%N])) = Ok 0
  /\ fst (MarkovChainGenerator.get_next_digit "12"
            (Random.replay [4503599627370496%N])) = Ok 4
  /\ fst (MarkovChainGenerator.get_next_digit "1x" (Random.replay []))
     = Raise ValueError.
Proof. vm_compute. repeat split; reflexivity. Qed.

Example datetime_samples :
  Datetime.toordinal {| Datetime.year := 9999; Datetime.month := 12;
                        Datetime.day := 31 |} = Datetime._MAXORDINAL
  /\ Datetime.add_days {| Datetime.year := 2024; Datetime.month := 1;
                          Datetime.day := 1 |} (365 * 6)
     = Ok {| Datetime.year := 2029; Datetime.month := 12; Datetime.day := 30 |}
  /\ Datetime.add_days {| Datetime.year := 2023; Datetime.month := 3;
                          Datetime.day := 1 |} 365
     = Ok {| Datetime.year := 2024; Datetime.month := 2; Datetime.day := 29 |}
  /\ Datetime.add_days {| Datetime.year := 9998; Datetime.month := 6;
                          Datetime.day := 1 |} (365 * 2)
     = Raise OverflowError.
Proof. repeat split; reflexivity. Qed.

Example hash_bank_name_samples :
  map CardGenerator.hash_bank_name [""; "Unknown"; "Chase Bank"; "abc"]
  = [Ok 0; Ok 0; Ok 10; Ok 72].
Proof. vm_compute. reflexivity. Qed.

Example upper_lower_samples :
  (PyStr.upper "Debit", PyStr.lower "Private LABEL", PyStr.upper "a1-z")
  = ("DEBIT", "private label", "A1-Z").
Proof. vm_compute. reflexivity. Qed.

Example contains_samples :
  map (fun p => PyStr.contains (fst p) (snd p))
    [("master", "mastercard"); ("amex", ""); ("", ""); ("visa", "xvisa");
     ("jcb", "jc")]
  = [true; false; true; true; false].
Proof. vm_compute. reflexivity. Qed.

Example generate_name_samples :
  (fst (PersonGenerator.generate_name (Random.replay [0; 0; 0]%N)),
   fst (PersonGenerator.generate_name (Random.replay [1; 13; 14]%N)))
  = (Ok "James Smith", Ok "Margaret Moore").
Proof. vm_compute. reflexivity. Qed.

Example validate_card_entry_samples :
  let required : gset string :=
    list_to_set ["scheme"; "type"; "brand"; "bank"; "country"; "countryName";
                 "length"; "cvvLength"] in
  DebitCards.validate_card_entry
    {| CsvRow.bin := "411111"; CsvRow.brand := "VISA"; CsvRow.type := "debit";
       CsvRow.issuer := ""; CsvRow.alpha_2 := "US";
       CsvRow.country := "United States" |} required
  = Some {| Entry.scheme := "visa"; Entry.type := "debit";
            Entry.brand := "Visa"; Entry.bank := "Various";
            Entry.country := "US"; Entry.countryName := "United States";
            Entry.length := 16; Entry.cvvLength := 3 |}
  /\ DebitCards.validate_card_entry
       {| CsvRow.bin := "340000"; CsvRow.brand := "American Express";
          CsvRow.type := "DEBIT"; CsvRow.issuer := "Amex Bank"; CsvRow.alpha_2 := "GB";
          CsvRow.country := "United Kingdom" |} required
     = Some {| Entry.scheme := "amex"; Entry.type := "debit";
               Entry.brand := "American Express"; Entry.bank := "Amex Bank";
               Entry.country := "GB"; Entry.countryName := "United Kingdom";
               Entry.length := 15; Entry.cvvLength := 4 |}
  /\ DebitCards.validate_card_entry
       {| CsvRow.bin := "411111"; CsvRow.brand := "VISA"; CsvRow.type := "credit";
          CsvRow.issuer := ""; CsvRow.alpha_2 := "US";
          CsvRow.country := "United States" |} required
     = None
  /\ DebitCards.validate_card_entry
       {| CsvRow.bin := "411111"; CsvRow.brand := "VISA"; CsvRow.type := "debit";
          CsvRow.issuer := ""; CsvRow.alpha_2 := "USA";
          CsvRow.country := "United States" |} required
     = None.
Proof. repeat split; vm_compute; reflexivity. Qed.

(* ===================================================================== *)
(** * Facts about the built-ins *)
(* ===================================================================== *)

Section StringFacts.

Lemma chars_of_chars (l : list ascii) : Py.chars (Py.of_chars l) = l.
Proof. apply list_ascii_of_string_of_list_ascii. Qed.

Lemma of_chars_chars (s : string) : Py.of_chars (Py.chars s) = s.
Proof. apply string_of_list_ascii_of_string. Qed.

Lemma app_cons (c : ascii) (a b : string) :
  String c a +:+ b = String c (a +:+ b).
Proof. reflexivity. Qed.

Lemma app_nil (b : string) : "" +:+ b = b.
Proof. reflexivity. Qed.

Lemma chars_app (a b : string) :
  Py.chars (a +:+ b) = (Py.chars a ++ Py.chars b)%list.
Proof.
  unfold Py.chars. induction a as [|c a IH]; [done|].
  rewrite app_cons. cbn. by rewrite IH.
Qed.

Lemma chars_length (s : string) : length (Py.chars s) = String.length s.
Proof.
  unfold Py.chars. induction s as [|c s IH]; cbn; [done | by rewrite IH].
Qed.

Lemma length_app_string (a b : string) :
  String.length (a +:+ b) = (String.length a + String.length b)%nat.
Proof.
  induction a as [|c a IH]; [done|]. rewrite app_cons. cbn. by rewrite IH.
Qed.

Lemma app_empty_r (a : string) : a +:+ "" = a.
Proof. induction a as [|c a IH]; [done|]. by rewrite app_cons, IH. Qed.

Lemma app_assoc_string (a b c : string) : (a +:+ b) +:+ c = a +:+ b +:+ c.
Proof. induction a as [|x a IH]; [done|]. by rewrite !app_cons, IH. Qed.

Lemma all_digits_app (a b : string) :
  Py.all_digits (a +:+ b) = Py.all_digits a && Py.all_digits b.
Proof. unfold Py.all_digits. by rewrite chars_app, forallb_app. Qed.

Lemma all_digits_cons (c : ascii) (s : string) :
  Py.all_digits (String c s) = Py.is_digit c && Py.all_digits s.
Proof. reflexivity. Qed.

Lemma reversed_app (a b : string) :
  Py.reversed (a +:+ b) = (Py.reversed b ++ Py.reversed a)%list.
Proof. unfold Py.reversed. by rewrite chars_app, rev_app_distr. Qed.

(** [int] on a one-character string accepts exactly the ten digits. *)
Lemma int_char (c : ascii) :
  Py.int (String c "") =
  match Py.digit_value c with
  | Some d => Ok d
  | None => Raise ValueError
  end.
Proof.
  destruct c as [[] [] [] [] [] [] [] []]; vm_compute; reflexivity.
Qed.

Lemma digit_value_range (c : ascii) (d : Z) :
  Py.digit_value c = Some d -> 0 <= d <= 9.
Proof.
  unfold Py.digit_value.
  destruct (_ && _) eqn:E; [|done].
  intros [= <-]. apply andb_true_iff in E as [?%Z.leb_le ?%Z.leb_le]. lia.
Qed.

Lemma is_digit_value (c : ascii) :
  Py.is_digit c = true -> exists d, Py.digit_value c = Some d /\ 0 <= d <= 9.
Proof.
  unfold Py.is_digit. destruct (Py.digit_value c) as [d|] eqn:E; [|done].
  intros _. exists d. split; [done | by eapply digit_value_range].
Qed.

End StringFacts.

Lemma forallb_range (P : Z -> bool) (lo count : Z) :
  forallb P (range_from lo count) = true ->
  forall n, lo <= n < lo + count -> P n = true.
Proof.
  intros H n Hn. rewrite forallb_forall in H. apply H.
  unfold range_from. apply in_map_iff. exists (Z.to_nat (n - lo)).
  split; [lia | apply in_seq; lia].
Qed.

Section StrFacts.

(** [str] of a digit is the one-character string of that digit. *)
Lemma str_digit (d : Z) :
  0 <= d <= 9 ->
  Py.str d = String (Py.digit_char d) ""
  /\ Py.digit_value (Py.digit_char d) = Some d.
Proof.
  intros Hd.
  pose proof (forallb_range
    (fun d => (String.eqb (Py.str d) (String (Py.digit_char d) ""))
              && bool_decide (Py.digit_value (Py.digit_char d) = Some d))
    0 10 eq_refl d ltac:(lia)) as H.
  apply andb_true_iff in H as [H1 H2].
  apply String.eqb_eq in H1. apply bool_decide_eq_true in H2. done.
Qed.

(** [str] of a two-digit number, and of a smaller one after [zfill(2)]. *)
Lemma zfill_str_two_digits (n : Z) :
  0 <= n <= 99 ->
  String.length (Py.zfill 2 (Py.str n)) = 2%nat
  /\ Py.all_digits (Py.zfill 2 (Py.str n)) = true.
Proof.
  intros Hn.
  pose proof (forallb_range
    (fun n => (String.length (Py.zfill 2 (Py.str n)) =? 2)%nat
              && Py.all_digits (Py.zfill 2 (Py.str n)))
    0 100 eq_refl n ltac:(lia)) as H.
  apply andb_true_iff in H as [H1 H2]. by apply Nat.eqb_eq in H1.
Qed.

Lemma str_two_digits (n : Z) :
  10 <= n <= 99 ->
  String.length (Py.str n) = 2%nat /\ Py.all_digits (Py.str n) = true.
Proof.
  intros Hn.
  pose proof (forallb_range
    (fun n => (String.length (Py.str n) =? 2)%nat && Py.all_digits (Py.str n))
    10 90 eq_refl n ltac:(lia)) as H.
  apply andb_true_iff in H as [H1 H2]. by apply Nat.eqb_eq in H1.
Qed.

End StrFacts.

(* ===================================================================== *)
(** * LuhnValidator: the check digit makes the number valid *)
(* ===================================================================== *)

Section Luhn.

Import LuhnValidator.

Lemma luhn_loop_cons (c : ascii) (rest : list ascii) (total : Z) (b : bool) :
  luhn_loop (c :: rest) total b =
  match Py.digit_value c with
  | Some d => luhn_loop rest (total + luhn_term b d) (negb b)
  | None => Raise ValueError
  end.
Proof.
  cbn [luhn_loop]. rewrite int_char.
  destruct (Py.digit_value c); reflexivity.
Qed.

(** On digits the loop returns, and its result is the start value plus what
    it returns from zero. *)
Lemma luhn_loop_digits (l : list ascii) (b : bool) :
  forallb Py.is_digit l = true ->
  exists t, 0 <= t /\ forall total, luhn_loop l total b = Ok (total + t).
Proof.
  revert b. induction l as [|c l IH]; intros b H.
  - exists 0. split; [lia|]. intros total. cbn. by rewrite Z.add_0_r.
  - cbn [forallb] in H. apply andb_true_iff in H as [Hc Hl].
    apply is_digit_value in Hc as (d & Hd & Hr).
    destruct (IH (negb b) Hl) as (t & Ht & E).
    exists (luhn_term b d + t). split.
    + unfold luhn_term. destruct b; [destruct (_ >? _) eqn:?|]; lia.
    + intros total. rewrite luhn_loop_cons, Hd, E. f_equal. lia.
Qed.

(** One character that is not a digit makes the loop raise [ValueError]. *)
Lemma luhn_loop_not_digits (l : list ascii) (total : Z) (b : bool) :
  forallb Py.is_digit l = false -> luhn_loop l total b = Raise ValueError.
Proof.
  revert total b. induction l as [|c l IH]; intros total b H; [done|].
  rewrite luhn_loop_cons. cbn [forallb] in H. unfold Py.is_digit in H.
  destruct (Py.digit_value c); [|done]. apply IH. exact H.
Qed.

Lemma forallb_rev {A : Type} (f : A -> bool) (l : list A) :
  forallb f (rev l) = forallb f l.
Proof.
  induction l as [|x l IH]; [done|].
  cbn. rewrite forallb_app, IH. cbn. rewrite andb_true_r, andb_comm. done.
Qed.

Lemma calculate_check_digit_digits (s : string) :
  Py.all_digits s = true ->
  exists total, luhn_loop (Py.reversed s) 0 true = Ok total /\ 0 <= total
    /\ calculate_check_digit s = Ok (Py.str ((10 - total mod 10) mod 10)).
Proof.
  intros H. unfold Py.all_digits in H.
  destruct (luhn_loop_digits (Py.reversed s) true) as (t & Ht & E).
  { unfold Py.reversed. by rewrite forallb_rev. }
  exists t. unfold calculate_check_digit. rewrite !E. done.
Qed.

Lemma calculate_check_digit_not_digits (s : string) :
  Py.all_digits s = false -> calculate_check_digit s = Raise ValueError.
Proof.
  intros H. unfold calculate_check_digit.
  rewrite luhn_loop_not_digits; [done|].
  unfold Py.reversed. by rewrite forallb_rev.
Qed.

(** The digit [calculate_check_digit] returns is what [validate] needs. *)
Lemma validate_with_check_digit (s : string) :
  Py.all_digits s = true ->
  exists c, calculate_check_digit s = Ok c
    /\ String.length c = 1%nat /\ Py.all_digits c = true
    /\ validate (s +:+ c) = Ok true.
Proof.
  intros H.
  destruct (calculate_check_digit_digits s H) as (total & E & Ht & Ec).
  set (check_digit := (10 - total mod 10) mod 10) in *.
  assert (0 <= check_digit <= 9) as Hr by (unfold check_digit; lia).
  destruct (str_digit check_digit Hr) as [Es Ev].
  exists (Py.str check_digit). split; [done|]. rewrite Es.
  repeat split.
  - unfold Py.all_digits, Py.is_digit. cbn. by rewrite Ev.
  - unfold validate. rewrite reversed_app. cbn [Py.reversed Py.chars
      list_ascii_of_string rev app]. rewrite luhn_loop_cons, Ev.
    cbn [luhn_term negb].
    destruct (luhn_loop_digits (Py.reversed s) true) as (t & _ & E1).
    { unfold Py.reversed, Py.all_digits in *. by rewrite forallb_rev. }
    rewrite E1 in E |- *. assert (t = total) by (injection E; lia). subst t.
    cbn. f_equal. apply Z.eqb_eq. unfold check_digit. lia.
Qed.

End Luhn.

(* ===================================================================== *)
(** * hash_bank_name: a seed in 0..99, never an exception *)
(* ===================================================================== *)

Section BankSeed.

Lemma hex_char_facts (v : Z) :
  0 <= v < 16 ->
  Py.hex_value (Hashlib.hex_char v) = Some v
  /\ Py.is_space (Hashlib.hex_char v) = false
  /\ Ascii.eqb (Hashlib.hex_char v) "_" = false
  /\ Ascii.eqb (Hashlib.hex_char v) "+" = false
  /\ Ascii.eqb (Hashlib.hex_char v) "-" = false
  /\ Ascii.eqb (Hashlib.hex_char v) "x" = false
  /\ Ascii.eqb (Hashlib.hex_char v) "X" = false.
Proof.
  intros Hv.
  pose proof (forallb_range
    (fun v => let c := Hashlib.hex_char v in
       bool_decide (Py.hex_value c = Some v)
       && negb (Py.is_space c) && negb (Ascii.eqb c "_")
       && negb (Ascii.eqb c "+") && negb (Ascii.eqb c "-")
       && negb (Ascii.eqb c "x") && negb (Ascii.eqb c "X"))
    0 16 eq_refl v ltac:(lia)) as H.
  cbv zeta in H.
  repeat (apply andb_true_iff in H as [H ?]).
  apply bool_decide_eq_true in H.
  repeat split; try done; by apply negb_true_iff.
Qed.

Lemma hex_digits_hex_chars (vs : list Z) (acc : Z) (flag : bool) :
  Forall (fun v => 0 <= v < 16) vs ->
  (flag = true -> vs <> []) ->
  exists z, Py.hex_digits (map Hashlib.hex_char vs) acc flag = Some z.
Proof.
  intros H. revert acc flag. induction H as [|v vs Hv _ IH]; intros acc flag Hne.
  - destruct flag; [by destruct Hne | by exists acc].
  - destruct (hex_char_facts v Hv) as (Ev & _ & Eu & _).
    cbn [map Py.hex_digits]. rewrite Eu, Ev. apply IH. done.
Qed.

Lemma lstrip_hex_chars (vs : list Z) :
  Forall (fun v => 0 <= v < 16) vs ->
  Py.lstrip (map Hashlib.hex_char vs) = map Hashlib.hex_char vs.
Proof.
  intros [|v vs' Hv _]; [done|].
  destruct (hex_char_facts v Hv) as (_ & Es & _).
  cbn [map Py.lstrip]. by rewrite Es.
Qed.

(** [int(s, 16)] reads any non-empty string of lower-case hex digits. *)
Lemma int16_hex_chars (vs : list Z) :
  Forall (fun v => 0 <= v < 16) vs -> vs <> [] ->
  exists z, Py.int16 (Py.of_chars (map Hashlib.hex_char vs)) = Ok z.
Proof.
  intros H Hne. unfold Py.int16, Py.strip.
  rewrite chars_of_chars, lstrip_hex_chars by done.
  rewrite <- map_rev, lstrip_hex_chars by (by apply Forall_rev).
  rewrite map_rev, rev_involutive.
  destruct H as [|v vs Hv Hvs]; [done|].
  destruct (hex_char_facts v Hv) as (Ev & _ & Eu & Ep & Em & _).
  assert (exists z, Py.hex_body (map Hashlib.hex_char (v :: vs)) = Some z)
    as [z Ez].
  { destruct Hvs as [|w ws Hw Hws].
    - apply (hex_digits_hex_chars [v]); [auto | done].
    - destruct (hex_char_facts w Hw) as (_ & _ & _ & _ & _ & Ex & EX).
      cbn [map Py.hex_body]. rewrite Ex, EX, andb_false_r.
      apply (hex_digits_hex_chars (v :: w :: ws)); [auto | done]. }
  exists z. unfold Py.hex_literal.
  change (map Hashlib.hex_char (v :: vs))
    with (Hashlib.hex_char v :: map Hashlib.hex_char vs) in *.
  cbv beta iota. rewrite Ep, Em, Ez. done.
Qed.

Lemma hash_bank_name_ok (bank_name : string) :
  exists seed, CardGenerator.hash_bank_name bank_name = Ok seed
               /\ 0 <= seed < 100.
Proof.
  unfold CardGenerator.hash_bank_name.
  destruct (_ || _); [exists 0; split; [done | lia]|].
  unfold Hashlib.md5_hexdigest, Hashlib.digest.
  destruct (Hashlib.blocks _ _ _) as [[[a b] c] d].
  unfold Hashlib.le_bytes. cbn [seq map app flat_map Hashlib.hex_byte].
  set (b0 := _ mod 256). set (b1 := _ mod 256).
  set (b2 := _ mod 256). set (b3 := _ mod 256).
  destruct (int16_hex_chars
    [b0 / 16; b0 mod 16; b1 / 16; b1 mod 16;
     b2 / 16; b2 mod 16; b3 / 16; b3 mod 16]) as [z Ez].
  { repeat constructor; subst b0 b1 b2 b3; lia. }
  { done. }
  cbn [map] in Ez.
  match goal with |- context [Py.upto 8 ?s] =>
    replace (Py.upto 8 s) with (Py.of_chars
      [Hashlib.hex_char (b0 / 16); Hashlib.hex_char (b0 mod 16);
       Hashlib.hex_char (b1 / 16); Hashlib.hex_char (b1 mod 16);
       Hashlib.hex_char (b2 / 16); Hashlib.hex_char (b2 mod 16);
       Hashlib.hex_char (b3 / 16); Hashlib.hex_char (b3 mod 16)])
      by reflexivity
  end.
  rewrite Ez. exists (z mod 100). split; [done | lia].
Qed.

End BankSeed.

(* ===================================================================== *)
(** * MarkovChainGenerator: the rows and the sampled digit *)
(* ===================================================================== *)

Section Markov.

Import MarkovChainGenerator.

(** Each row has ten entries, the literals whose hundredths add up to 100;
    added from the left in binary64 they reach 1.0 in rows 3 and 4 only. *)
Lemma row_facts (d : Z) :
  0 <= d <= 9 ->
  exists row hundredths,
    TRANSITION_MATRIX !! d = Some row
    /\ TRANSITION_HUNDREDTHS !! d = Some hundredths
    /\ length row = 10%nat
    /\ row = map of_hundredths hundredths
    /\ fold_right Z.add 0 hundredths = 100
    /\ row_total row = if (d =? 3) || (d =? 4) then 1%float else below_one.
Proof.
  intros Hd.
  assert (d = 0 \/ d = 1 \/ d = 2 \/ d = 3 \/ d = 4 \/ d = 5 \/ d = 6
          \/ d = 7 \/ d = 8 \/ d = 9) as H by lia.
  repeat destruct H as [H|H]; subst d.
  all: eexists; eexists.
  all: split; [vm_compute; reflexivity|].
  all: split; [vm_compute; reflexivity|].
  all: repeat split; vm_compute; reflexivity.
Qed.

Lemma row_present (d : Z) :
  0 <= d <= 9 ->
  exists row, TRANSITION_MATRIX !! d = Some row /\ length row = 10%nat.
Proof.
  intros Hd. destruct (row_facts d Hd) as (row & ? & H1 & _ & H2 & _).
  by exists row.
Qed.

(** The [for] loop over a ten-column row, unrolled. *)
Lemma scan_unrolled (p0 p1 p2 p3 p4 p5 p6 p7 p8 p9 rand : float) :
  let row := [p0; p1; p2; p3; p4; p5; p6; p7; p8; p9] in
  scan range10 row rand 0%float =
  if PrimFloat.ltb rand (cumulative row 0) then Ok 0
  else if PrimFloat.ltb rand (cumulative row 1) then Ok 1
  else if PrimFloat.ltb rand (cumulative row 2) then Ok 2
  else if PrimFloat.ltb rand (cumulative row 3) then Ok 3
  else if PrimFloat.ltb rand (cumulative row 4) then Ok 4
  else if PrimFloat.ltb rand (cumulative row 5) then Ok 5
  else if PrimFloat.ltb rand (cumulative row 6) then Ok 6
  else if PrimFloat.ltb rand (cumulative row 7) then Ok 7
  else if PrimFloat.ltb rand (cumulative row 8) then Ok 8
  else if PrimFloat.ltb rand (cumulative row 9) then Ok 9
  else Ok 0.
Proof. reflexivity. Qed.

(** The scan of a ten-column row returns the first column whose cumulative
    mass exceeds the draw, and 0 when none does. *)
Lemma scan_first_column (probabilities : list float) (rand : float) :
  length probabilities = 10%nat ->
  exists digit : nat,
    scan range10 probabilities rand 0%float = Ok (Z.of_nat digit)
    /\ (digit <= 9)%nat
    /\ (forall j, (j < digit)%nat ->
          PrimFloat.ltb rand (cumulative probabilities j) = false)
    /\ (PrimFloat.ltb rand (cumulative probabilities digit) = true
        \/ digit = 0%nat
           /\ forall j, (j <= 9)%nat ->
                PrimFloat.ltb rand (cumulative probabilities j) = false).
Proof.
  intros Hlen.
  do 10 (destruct probabilities as [|? probabilities]; [done|]).
  destruct probabilities; [|done]. clear Hlen.
  rewrite scan_unrolled. cbv zeta.
  set (row := [_; _; _; _; _; _; _; _; _; _]).
  destruct (PrimFloat.ltb rand (cumulative row 0)) eqn:E0; [exists 0%nat|];
  [|destruct (PrimFloat.ltb rand (cumulative row 1)) eqn:E1; [exists 1%nat|]];
  [| |destruct (PrimFloat.ltb rand (cumulative row 2)) eqn:E2; [exists 2%nat|]];
  [| | |destruct (PrimFloat.ltb rand (cumulative row 3)) eqn:E3; [exists 3%nat|]];
  [| | | |destruct (PrimFloat.ltb rand (cumulative row 4)) eqn:E4; [exists 4%nat|]];
  [| | | | |destruct (PrimFloat.ltb rand (cumulative row 5)) eqn:E5; [exists 5%nat|]];
  [| | | | | |destruct (PrimFloat.ltb rand (cumulative row 6)) eqn:E6; [exists 6%nat|]];
  [| | | | | | |destruct (PrimFloat.ltb rand (cumulative row 7)) eqn:E7; [exists 7%nat|]];
  [| | | | | | | |destruct (PrimFloat.ltb rand (cumulative row 8)) eqn:E8; [exists 8%nat|]];
  [| | | | | | | | |destruct (PrimFloat.ltb rand (cumulative row 9)) eqn:E9;
                    [exists 9%nat|exists 0%nat]].
  all: split; [reflexivity|]; split; [lia|]; split.
  all: try (intros j Hj;
            do 10 (destruct j as [|j]; [first [assumption | lia]|]); lia).
  all: try (left; assumption).
  right. split; [reflexivity|]. intros j Hj.
  do 10 (destruct j as [|j]; [assumption|]). lia.
Qed.

Lemma get_last_char (s : string) (c : ascii) :
  String.get (String.length s) (s +:+ String c "") = Some c.
Proof. induction s as [|x s IH]; [done|]. rewrite app_cons. exact IH. Qed.

Lemma item_last (s : string) (c : ascii) :
  Py.item (-1) (s +:+ String c "") = Ok (String c "").
Proof.
  unfold Py.item, Py.len. rewrite length_app_string. cbn [String.length].
  replace (Z.of_nat (String.length s + 1) + -1)
    with (Z.of_nat (String.length s)) by lia.
  cbn [Z.ltb Z.compare].
  destruct (_ && _) eqn:E.
  - by rewrite Nat2Z.id, get_last_char.
  - apply andb_false_iff in E as [E|E]; [apply Z.leb_gt in E|apply Z.ltb_ge in E];
      lia.
Qed.

Lemma eqb_app_last (s : string) (c : ascii) :
  String.eqb (s +:+ String c "") "" = false.
Proof. by destruct s. Qed.

(** On the empty sequence the digit is [randint(0, 9)]: the raw draw
    reduced modulo 10, so that each digit stands for as many raw draws. *)
Lemma get_next_digit_empty (g : Random.generator) :
  get_next_digit "" g
  = (Ok (Z.of_N (Random.source g (Random.cursor g)) mod 10),
     snd (Random.raw g)).
Proof. reflexivity. Qed.

(** After a digit, the row of that digit is scanned with one draw. *)
Lemma get_next_digit_after_digit (s : string) (c : ascii)
    (g : Random.generator) :
  Py.is_digit c = true ->
  exists (last_digit : Z) (row : list float),
    Py.digit_value c = Some last_digit
    /\ TRANSITION_MATRIX !! last_digit = Some row
    /\ get_next_digit (s +:+ String c "") g
       = (scan range10 row
            (Random.unit_float (Random.source g (Random.cursor g))) 0%float,
          snd (Random.raw g)).
Proof.
  intros Hc. apply is_digit_value in Hc as (v & Hv & Hr).
  destruct (row_present v Hr) as (row & Hrow & _).
  exists v, row. repeat split; [done..|].
  unfold get_next_digit. rewrite eqb_app_last, item_last.
  unfold mbind, M_bind, Random.bind, Random.lift, Random.random, Random.ret.
  rewrite int_char, Hv. unfold Py.getitem. rewrite Hrow. reflexivity.
Qed.

Lemma get_next_digit_digit (s : string) (c : ascii) (g : Random.generator) :
  Py.is_digit c = true ->
  exists digit, get_next_digit (s +:+ String c "") g
                = (Ok digit, snd (Random.raw g))
                /\ 0 <= digit <= 9.
Proof.
  intros Hc.
  destruct (get_next_digit_after_digit s c g Hc) as (v & row & Hv & Hrow & E).
  destruct (row_present v (digit_value_range _ _ Hv)) as (row' & Hrow' & Hlen).
  assert (row' = row) by congruence. subst row'.
  destruct (scan_first_column row
    (Random.unit_float (Random.source g (Random.cursor g))) Hlen)
    as (digit & Es & Hd & _).
  exists (Z.of_nat digit). rewrite E, Es. split; [done | lia].
Qed.

End Markov.

(** C6 (as amended).  Every row of the matrix has ten entries whose decimal
    literals add up to exactly 1 (100 hundredths); added from the left in
    binary64, as the loop adds them, they reach 1.0 in rows 3 and 4 and
    [1 - 2^-53] in the other rows.  On the empty sequence [get_next_digit]
    returns the raw draw modulo 10; after a sequence ending in a decimal
    digit it returns a digit of 0..9: the first column whose cumulative
    mass exceeds the draw, and 0 when no column does. *)
Theorem get_next_digit_first_column
    (d : Z) (s : string) (c : ascii) (g : Random.generator) :
  0 <= d <= 9 ->
  Py.is_digit c = true ->
  (exists row hundredths,
     MarkovChainGenerator.TRANSITION_MATRIX !! d = Some row
     /\ TRANSITION_HUNDREDTHS !! d = Some hundredths
     /\ length row = 10%nat
     /\ row = map of_hundredths hundredths
     /\ fold_right Z.add 0 hundredths = 100
     /\ row_total row = if (d =? 3) || (d =? 4) then 1%float else below_one)
  /\ (exists digit,
        fst (MarkovChainGenerator.get_next_digit "" g) = Ok digit
        /\ 0 <= digit <= 9
        /\ digit = Z.of_N (Random.source g (Random.cursor g)) mod 10)
  /\ (exists (last_digit : Z) (row : list float) (digit : nat),
        Py.digit_value c = Some last_digit
        /\ MarkovChainGenerator.TRANSITION_MATRIX !! last_digit = Some row
        /\ fst (MarkovChainGenerator.get_next_digit (s +:+ String c "") g)
           = Ok (Z.of_nat digit)
        /\ (digit <= 9)%nat
        /\ let rand := Random.unit_float (Random.source g (Random.cursor g)) in
           (forall j, (j < digit)%nat ->
              PrimFloat.ltb rand (cumulative row j) = false)
           /\ (PrimFloat.ltb rand (cumulative row digit) = true
               \/ digit = 0%nat
                  /\ forall j, (j <= 9)%nat ->
                       PrimFloat.ltb rand (cumulative row j) = false)).
Proof.
  intros Hd Hc. split; [by apply row_facts|]. split.
  - eexists. rewrite get_next_digit_empty. cbn [fst].
    split; [reflexivity|]. split; [lia | reflexivity].
  - destruct (get_next_digit_after_digit s c g Hc) as (v & row & Hv & Hrow & E).
    destruct (row_present v (digit_value_range _ _ Hv)) as (row' & Hrow' & Hlen).
    assert (row' = row) by congruence. subst row'.
    destruct (scan_first_column row
      (Random.unit_float (Random.source g (Random.cursor g))) Hlen)
      as (digit & Es & Hdigit & Hbefore & Hat).
    exists v, row, digit. rewrite E, Es. cbn [fst]. done.
Qed.

Lemma get_next_digit_first_column_witness :
  exists digit : nat,
    fst (MarkovChainGenerator.get_next_digit ("12" +:+ String "3" "")
           (Random.replay [4503599627370496%N]))
    = Ok (Z.of_nat digit) /\ (digit <= 9)%nat.
Proof.
  destruct (get_next_digit_first_column 0 "12" "3"%char
              (Random.replay [4503599627370496%N]))
    as (_ & _ & (v & row & digit & _ & _ & E & Hd & _)).
  - lia.
  - reflexivity.
  - exists digit. split; [exact E | exact Hd].
Defined.

(** C6, counterexample to the claim as stated: added up the way the code
    adds them, the ten entries of row 0 do not give 1.0, and with the
    largest possible draw the scan of row 0 runs off its end and returns
    the default 0. *)
Lemma row_total_below_one :
  exists row,
    MarkovChainGenerator.TRANSITION_MATRIX !! 0 = Some row
    /\ row_total row = below_one
    /\ row_total row <> 1%float
    /\ PrimFloat.ltb (Random.unit_float 9007199254740991%N) (row_total row)
       = false
    /\ fst (MarkovChainGenerator.get_next_digit "0"
              (Random.replay [9007199254740991%N])) = Ok 0.
Proof.
  eexists. split; [vm_compute; reflexivity|].
  split; [vm_compute; reflexivity|]. split.
  - intros H. apply (f_equal (fun x => PrimFloat.eqb x 1%float)) in H.
    vm_compute in H. discriminate H.
  - split; vm_compute; reflexivity.
Qed.

(* ===================================================================== *)
(** * BINDatabase: prefix precedence and the rule-based fallback *)
(* ===================================================================== *)

Section Brands.

Import BINDatabase.

(** [s.startswith(p)] holds exactly when [s] is [p] followed by something. *)
Lemma startswith_app (p s : string) :
  Py.startswith p s = true <-> exists rest, s = p +:+ rest.
Proof.
  unfold Py.startswith. revert s.
  induction p as [|c p IH]; intros s.
  - split; [intros _; by exists s | by destruct s].
  - destruct s as [|x s]; cbn [String.prefix].
    + split; [done | intros [rest H]; discriminate H].
    + destruct (ascii_dec c x) as [->|Hne].
      * rewrite IH. split; intros [rest H]; exists rest.
        -- by rewrite app_cons, H.
        -- rewrite app_cons in H. by injection H.
      * split; [done|]. intros [rest H]. rewrite app_cons in H.
        injection H as H1 H2. by destruct Hne.
Qed.

Lemma startswith_not (p s : string) :
  Py.startswith p s = false <-> forall rest, s <> p +:+ rest.
Proof.
  split.
  - intros H rest E. assert (Py.startswith p s = true) as H'
      by (apply startswith_app; by exists rest). congruence.
  - intros H. destruct (Py.startswith p s) eqn:E; [|done].
    apply startswith_app in E as [rest E]. by destruct (H rest).
Qed.

(** The table is looked up at the four keys in turn. *)
Lemma detect_card_brand_lookup (database : gmap string Brand.info)
    (bin_code : string) :
  detect_card_brand database bin_code =
  match database !! bin_code with
  | Some p => Ok p
  | None =>
    match database !! Py.upto 4 bin_code with
    | Some p => Ok p
    | None =>
      match database !! Py.upto 2 bin_code with
      | Some p => Ok p
      | None =>
        match database !! Py.upto 1 bin_code with
        | Some p => Ok p
        | None => Ok (_detect_by_rules bin_code)
        end
      end
    end
  end.
Proof.
  unfold detect_card_brand, Py.contains, Py.getitem.
  repeat destruct (database !! _); reflexivity.
Qed.

(** A code that starts with none of 4, 5, 34 and 37 gets the Unknown
    profile from the rules. *)
Lemma detect_by_rules_unknown (bin_code : string) :
  (forall rest, bin_code <> "4" +:+ rest /\ bin_code <> "5" +:+ rest
                /\ bin_code <> "34" +:+ rest /\ bin_code <> "37" +:+ rest) ->
  _detect_by_rules bin_code = unknown_brand.
Proof.
  intros H. unfold _detect_by_rules.
  assert (Py.startswith "4" bin_code = false) as ->
    by (apply startswith_not; intros rest; apply H).
  assert (Py.startswith "5" bin_code = false) as ->
    by (apply startswith_not; intros rest; apply H).
  assert (Py.startswith "34" bin_code = false) as ->
    by (apply startswith_not; intros rest; apply H).
  assert (Py.startswith "37" bin_code = false) as ->
    by (apply startswith_not; intros rest; apply H).
  reflexivity.
Qed.

End Brands.

(** C3.  [detect_card_brand] returns the entry of the full code when there
    is one, else the entry of the first 4 characters, else of the first 2,
    else of the first 1; so an entry at the full BIN wins over any shorter
    prefix.  When all four lookups miss, the result is Visa/16/3 for a code
    starting with 4, Mastercard/16/3 for 5, American Express/15/4 for 34 or
    37, and Unknown/16/3 with country US for every other code. *)
Theorem detect_card_brand_precedence
    (database : gmap string Brand.info) (bin_code : string) :
  let detected := BINDatabase.detect_card_brand database bin_code in
  (forall p, database !! bin_code = Some p -> detected = Ok p)
  /\ (database !! bin_code = None ->
      (forall p, database !! Py.upto 4 bin_code = Some p -> detected = Ok p)
      /\ (database !! Py.upto 4 bin_code = None ->
          (forall p, database !! Py.upto 2 bin_code = Some p ->
                     detected = Ok p)
          /\ (database !! Py.upto 2 bin_code = None ->
              (forall p, database !! Py.upto 1 bin_code = Some p ->
                         detected = Ok p)
              /\ (database !! Py.upto 1 bin_code = None ->
                  ((exists rest, bin_code = "4" +:+ rest) ->
                   detected = Ok visa)
                  /\ ((exists rest, bin_code = "5" +:+ rest) ->
                      detected = Ok mastercard)
                  /\ ((exists rest, bin_code = "34" +:+ rest
                                    \/ bin_code = "37" +:+ rest) ->
                      detected = Ok american_express)
                  /\ ((forall rest, bin_code <> "4" +:+ rest
                                    /\ bin_code <> "5" +:+ rest
                                    /\ bin_code <> "34" +:+ rest
                                    /\ bin_code <> "37" +:+ rest) ->
                      detected = Ok unknown_brand
                      /\ Brand.country unknown_brand = Some "US"))))).
Proof.
  cbv zeta. rewrite detect_card_brand_lookup.
  split; [by intros p ->|]. intros ->.
  split; [by intros p ->|]. intros ->.
  split; [by intros p ->|]. intros ->.
  split; [by intros p ->|]. intros ->.
  unfold BINDatabase._detect_by_rules.
  split; [|split; [|split]].
  - intros H. apply startswith_app in H. by rewrite H.
  - intros [rest ->].
    rewrite (proj2 (startswith_app "5" ("5" +:+ rest))) by eauto.
    vm_compute. reflexivity.
  - intros [rest [-> | ->]].
    + rewrite (proj2 (startswith_app "34" ("34" +:+ rest))) by eauto.
      vm_compute. reflexivity.
    + rewrite (proj2 (startswith_app "37" ("37" +:+ rest))) by eauto.
      vm_compute. reflexivity.
  - intros H. fold (BINDatabase._detect_by_rules bin_code).
    by rewrite detect_by_rules_unknown.
Qed.

Lemma detect_card_brand_precedence_witness :
  BINDatabase.detect_card_brand
    (<["451710" := american_express]> (<["45" := mastercard]> ∅)) "451710"
  = Ok american_express
  /\ BINDatabase.detect_card_brand ∅ "999999" = Ok unknown_brand.
Proof.
  split.
  - apply (proj1 (detect_card_brand_precedence
             (<["451710" := american_express]> (<["45" := mastercard]> ∅))
             "451710")).
    vm_compute. reflexivity.
  - pose proof (detect_card_brand_precedence ∅ "999999") as H.
    cbv zeta in H. destruct H as [_ H].
    destruct (H eq_refl) as [_ H4]. destruct (H4 eq_refl) as [_ H2].
    destruct (H2 eq_refl) as [_ H1]. destruct (H1 eq_refl) as (_ & _ & _ & Hu).
    apply Hu. intros rest. repeat split; intros E; discriminate E.
Defined.

(** C9.  [detect_card_brand] returns a profile for every string and every
    table and never raises; when the four lookups miss and the code starts
    with none of 4, 5, 34, 37, and in particular for the empty string
    missing from the table, the profile is Unknown/16/3. *)
Theorem detect_card_brand_total
    (database : gmap string Brand.info) (bin_code : string) :
  (exists p, BINDatabase.detect_card_brand database bin_code = Ok p)
  /\ (database !! bin_code = None ->
      database !! Py.upto 4 bin_code = None ->
      database !! Py.upto 2 bin_code = None ->
      database !! Py.upto 1 bin_code = None ->
      (forall rest, bin_code <> "4" +:+ rest /\ bin_code <> "5" +:+ rest
                    /\ bin_code <> "34" +:+ rest
                    /\ bin_code <> "37" +:+ rest) ->
      BINDatabase.detect_card_brand database bin_code = Ok unknown_brand)
  /\ (database !! "" = None ->
      BINDatabase.detect_card_brand database "" = Ok unknown_brand).
Proof.
  split; [|split].
  - rewrite detect_card_brand_lookup.
    repeat destruct (database !! _); eauto.
  - intros H0 H4 H2 H1 H.
    rewrite detect_card_brand_lookup, H0, H4, H2, H1.
    by rewrite detect_by_rules_unknown.
  - intros H. rewrite detect_card_brand_lookup.
    change (Py.upto 4 "") with "". change (Py.upto 2 "") with "".
    change (Py.upto 1 "") with "". rewrite H. reflexivity.
Qed.

Lemma detect_card_brand_total_witness :
  BINDatabase.detect_card_brand (<["45" := mastercard]> ∅) "x9-a"
  = Ok unknown_brand
  /\ BINDatabase.detect_card_brand (<["45" := mastercard]> ∅) ""
     = Ok unknown_brand.
Proof.
  split.
  - apply (proj1 (proj2
      (detect_card_brand_total (<["45" := mastercard]> ∅) "x9-a")));
      try (vm_compute; reflexivity).
    intros rest. repeat split; intros H; discriminate H.
  - apply (proj2 (proj2 (detect_card_brand_total (<["45" := mastercard]> ∅) ""))).
    vm_compute. reflexivity.
Defined.

(* ===================================================================== *)
(** * More facts about strings: slices, [int] on digits, [str] in a range *)
(* ===================================================================== *)

Section SliceFacts.

Lemma substring_all (s : string) : substring 0 (String.length s) s = s.
Proof. induction s as [|c s IH]; cbn; [done | by rewrite IH]. Qed.

Lemma substring_app_r (p q : string) :
  substring (String.length p) (String.length q) (p +:+ q) = q.
Proof.
  induction p as [|c p IH]; [apply substring_all|].
  rewrite app_cons. exact IH.
Qed.

Lemma substring_app_l (p q : string) :
  substring 0 (String.length p) (p +:+ q) = p.
Proof.
  induction p as [|c p IH]; [by destruct q|].
  rewrite app_cons. cbn. by rewrite IH.
Qed.

(** [(p + q)[-len(q):]] is [q]. *)
Lemma from_app (p q : string) :
  Py.from (- Py.len q) (p +:+ q) = q \/ q = "".
Proof.
  destruct q as [|c q]; [by right|]. left.
  unfold Py.from, Py.slice, Py.clamp_index, Py.len.
  rewrite length_app_string.
  set (m := String.length (String c q)).
  assert (0 < Z.of_nat m) as Hm by (subst m; cbn [String.length]; lia).
  assert ((- Z.of_nat m <? 0) = true) as -> by (apply Z.ltb_lt; lia).
  replace (Z.max 0 (Z.of_nat (String.length p + m) + - Z.of_nat m))
    with (Z.of_nat (String.length p)) by lia.
  replace (Z.of_nat (String.length p + m) - Z.of_nat (String.length p))
    with (Z.of_nat m) by lia.
  rewrite !Nat2Z.id. apply substring_app_r.
Qed.

Lemma from_last_4 (p q : string) :
  String.length q = 4%nat -> Py.from (-4) (p +:+ q) = q.
Proof.
  intros H. destruct (from_app p q) as [E | ->]; [|done].
  unfold Py.len in E. by rewrite H in E.
Qed.

(** [(p + q)[:len(p)]] is [p]. *)
Lemma upto_app (p q : string) : Py.upto (Py.len p) (p +:+ q) = p.
Proof.
  unfold Py.upto, Py.slice, Py.clamp_index, Py.len.
  rewrite length_app_string.
  assert ((Z.of_nat (String.length p) <? 0) = false) as -> by (apply Z.ltb_ge; lia).
  replace (Z.min (Z.of_nat (String.length p))
             (Z.of_nat (String.length p + String.length q)) - 0)
    with (Z.of_nat (String.length p)) by lia.
  rewrite Nat2Z.id. apply substring_app_l.
Qed.

End SliceFacts.

Section IntFacts.

Lemma digit_char_kinds (c : ascii) :
  Py.is_digit c = true ->
  Py.is_space c = false /\ Ascii.eqb c "_" = false
  /\ Ascii.eqb c "+" = false /\ Ascii.eqb c "-" = false
  /\ Ascii.eqb c "/" = false /\ Ascii.eqb c " " = false.
Proof.
  destruct c as [[] [] [] [] [] [] [] []]; vm_compute; intros H;
    first [discriminate H | repeat split].
Qed.

Lemma int_digits_all_digits (l : list ascii) (acc : Z) (flag : bool) :
  forallb Py.is_digit l = true -> (flag = true -> l <> []) -> 0 <= acc ->
  exists v, Py.int_digits l acc flag = Some v /\ 0 <= v.
Proof.
  revert acc flag. induction l as [|c l IH]; intros acc flag H Hne Hacc.
  - destruct flag; [by destruct Hne | by exists acc].
  - cbn [forallb] in H. apply andb_true_iff in H as [Hc Hl].
    destruct (digit_char_kinds c Hc) as (_ & Eu & _).
    apply is_digit_value in Hc as (d & Hd & Hr).
    cbn [Py.int_digits]. rewrite Eu, Hd. apply IH; [done | done | lia].
Qed.

Lemma lstrip_digits (l : list ascii) :
  forallb Py.is_digit l = true -> Py.lstrip l = l.
Proof.
  destruct l as [|c l]; [done|]. cbn [forallb]. intros [Hc _]%andb_true_iff.
  destruct (digit_char_kinds c Hc) as (Es & _). cbn. by rewrite Es.
Qed.

(** [int] reads every non-empty string of digits. *)
Lemma int_all_digits (s : string) :
  s <> "" -> Py.all_digits s = true -> exists v, Py.int s = Ok v /\ 0 <= v.
Proof.
  unfold Py.all_digits, Py.int, Py.strip. intros Hne H.
  rewrite (lstrip_digits (Py.chars s)) by done.
  rewrite lstrip_digits by (by rewrite forallb_rev).
  rewrite rev_involutive.
  destruct s as [|c s]; [done|]. unfold Py.chars in *.
  cbn [list_ascii_of_string] in *.
  destruct (int_digits_all_digits (c :: list_ascii_of_string s) 0 true)
    as (v & Ev & Hv); [done | done | lia |].
  cbn [forallb] in H. apply andb_true_iff in H as [Hc _].
  destruct (digit_char_kinds c Hc) as (_ & _ & Ep & Em & _).
  exists v. unfold Py.int_literal. by rewrite Ep, Em, Ev.
Qed.

(** Removing the slash leaves digits alone. *)
Lemma filter_digits (l : list ascii) :
  forallb Py.is_digit l = true ->
  List.filter (fun x => negb (Ascii.eqb x "/")) l = l.
Proof.
  induction l as [|c l IH]; [done|]. cbn [forallb].
  intros [Hc Hl]%andb_true_iff.
  destruct (digit_char_kinds c Hc) as (_ & _ & _ & _ & Es & _).
  cbn. rewrite Es. cbn. by rewrite IH.
Qed.

Lemma remove_slash (mm yy : string) :
  Py.all_digits mm = true -> Py.all_digits yy = true ->
  Py.remove_char "/" (mm +:+ "/" +:+ yy) = mm +:+ yy.
Proof.
  unfold Py.all_digits, Py.remove_char. intros Hm Hy.
  rewrite !chars_app, !List.filter_app.
  rewrite (filter_digits (Py.chars mm)), (filter_digits (Py.chars yy)) by done.
  change (List.filter _ (Py.chars "/")) with (@nil ascii). cbn [app].
  rewrite <- chars_app. apply of_chars_chars.
Qed.

End IntFacts.

Section StrRanges.

Lemma cvv_check_spec (width w : Z) :
  cvv_check width w = true ->
  let s := Py.str w in
  Z.of_nat (String.length s) = width /\ Py.all_digits s = true
  /\ Py.int s = Ok w /\ Py.upto width s = s
  /\ Py.upto 1 s <> "0" /\ Py.upto 3 s <> "000".
Proof.
  unfold cvv_check. cbv zeta. intros H.
  repeat (apply andb_true_iff in H as [H ?]).
  repeat split.
  - by apply Z.eqb_eq.
  - done.
  - destruct (Py.int (Py.str w)) as [v|]; [|done]. f_equal. by apply Z.eqb_eq.
  - by apply String.eqb_eq.
  - apply String.eqb_neq. by apply negb_true_iff.
  - apply String.eqb_neq. by apply negb_true_iff.
Qed.

Lemma str_three_digits : forallb (cvv_check 3) (range_from 100 900) = true.
Proof. vm_compute. reflexivity. Qed.

Lemma str_four_digits : forallb (cvv_check 4) (range_from 1000 9000) = true.
Proof. vm_compute. reflexivity. Qed.

End StrRanges.

(* ===================================================================== *)
(** * generate_cvv *)
(* ===================================================================== *)

Section Cvv.

Import CardGenerator.

Lemma generate_cvv_value (card_number expiry_date : string)
    (cvv_length last_4 expiry : Z) :
  Py.int (Py.from (-4) card_number) = Ok last_4 ->
  Py.int (Py.remove_char "/" expiry_date) = Ok expiry ->
  generate_cvv card_number expiry_date cvv_length
  = Ok (Py.upto cvv_length
          (Py.str (cvv_value (((last_4 + expiry) * 9301 + 49297) mod 233280)
                             cvv_length))).
Proof.
  intros E1 E2. unfold generate_cvv, cvv_value. rewrite E1, E2.
  cbn [mbind result_bind Py.bind].
  destruct (cvv_length =? 4); destruct (is_in _ _); reflexivity.
Qed.

Lemma cvv_value_range (pseudo_random cvv_length : Z) :
  (cvv_length = 3 -> 100 <= cvv_value pseudo_random cvv_length <= 999)
  /\ (cvv_length = 4 -> 1000 <= cvv_value pseudo_random cvv_length <= 9999).
Proof.
  unfold cvv_value.
  split; intros ->; cbn [Z.eqb Pos.eqb]; destruct (is_in _ _); lia.
Qed.

(** Where the single recomputation does not help: a three-digit CVV is
    still weak exactly when the first mapping gave 888 or 999, and a
    four-digit one exactly when it gave 8880..8885 or 9990..9995. *)
Lemma cvv_value_weak (pseudo_random : Z) :
  let v3 := pseudo_random mod 900 in
  let v4 := pseudo_random mod 9000 in
  weak_value (cvv_value pseudo_random 3) = (v3 =? 788) || (v3 =? 899)
  /\ weak_value (cvv_value pseudo_random 4)
     = ((7880 <=? v4) && (v4 <=? 7885)) || ((8990 <=? v4) && (v4 <=? 8995)).
Proof.
  cbv zeta. split.
  - assert (cvv_value pseudo_random 3 = cvv_value (pseudo_random mod 900) 3)
      as ->.
    { unfold cvv_value. cbn [Z.eqb Pos.eqb].
      rewrite Z.mod_mod by lia.
      by rewrite (Z.add_mod_idemp_l pseudo_random 123 900) by lia. }
    assert (forallb
      (fun v => Bool.eqb (weak_value (cvv_value v 3)) ((v =? 788) || (v =? 899)))
      (range_from 0 900) = true) as H by (vm_compute; reflexivity).
    apply Bool.eqb_prop.
    apply (forallb_range _ 0 900 H (pseudo_random mod 900)). clear H. lia.
  - assert (cvv_value pseudo_random 4 = cvv_value (pseudo_random mod 9000) 4)
      as ->.
    { unfold cvv_value. cbn [Z.eqb Pos.eqb].
      rewrite Z.mod_mod by lia.
      by rewrite (Z.add_mod_idemp_l pseudo_random 1234 9000) by lia. }
    assert (forallb
      (fun v => Bool.eqb (weak_value (cvv_value v 4))
                  (((7880 <=? v) && (v <=? 7885))
                   || ((8990 <=? v) && (v <=? 8995))))
      (range_from 0 9000) = true) as H by (vm_compute; reflexivity).
    apply Bool.eqb_prop.
    apply (forallb_range _ 0 9000 H (pseudo_random mod 9000)). clear H. lia.
Qed.

End Cvv.

(** C10.  For a card number ending in four digits, an expiry of the form
    MM/YY and a CVV length of 3 or 4, [generate_cvv] returns a string of
    exactly that many digits whose value is in 100..999 or 1000..9999; its
    first digit is not 0 and its first three digits are not 000. *)
Theorem generate_cvv_digits
    (prefix last_4 mm yy : string) (cvv_length : Z) :
  String.length last_4 = 4%nat -> Py.all_digits last_4 = true ->
  String.length mm = 2%nat -> Py.all_digits mm = true ->
  String.length yy = 2%nat -> Py.all_digits yy = true ->
  cvv_length = 3 \/ cvv_length = 4 ->
  exists cvv value,
    CardGenerator.generate_cvv (prefix +:+ last_4) (mm +:+ "/" +:+ yy)
      cvv_length = Ok cvv
    /\ Z.of_nat (String.length cvv) = cvv_length
    /\ Py.all_digits cvv = true
    /\ Py.int cvv = Ok value
    /\ (cvv_length = 3 -> 100 <= value <= 999)
    /\ (cvv_length = 4 -> 1000 <= value <= 9999)
    /\ Py.upto 1 cvv <> "0"
    /\ Py.upto 3 cvv <> "000".
Proof.
  intros Hl4 Hd4 Hlm Hdm Hly Hdy Hlen.
  destruct (int_all_digits last_4) as (a & Ea & _); [by destruct last_4 | done |].
  destruct (int_all_digits (mm +:+ yy)) as (b & Eb & _).
  { destruct mm; [done | by rewrite app_cons]. }
  { by rewrite all_digits_app, Hdm, Hdy. }
  rewrite (generate_cvv_value _ _ cvv_length a b)
    by (by rewrite ?from_last_4, ?remove_slash).
  set (w := cvv_value _ _).
  destruct (cvv_value_range (((a + b) * 9301 + 49297) mod 233280) cvv_length)
    as [H3 H4]. fold w in H3, H4.
  assert (cvv_check cvv_length w = true) as Hw.
  { destruct Hlen as [-> | ->].
    - apply (forallb_range _ 100 900 str_three_digits). specialize (H3 eq_refl). lia.
    - apply (forallb_range _ 1000 9000 str_four_digits). specialize (H4 eq_refl). lia. }
  apply cvv_check_spec in Hw. cbv zeta in Hw.
  destruct Hw as (Hw1 & Hw2 & Hw3 & Hw4 & Hw5 & Hw6).
  exists (Py.str w), w. rewrite Hw4. done.
Qed.

Lemma generate_cvv_digits_witness :
  exists cvv value,
    CardGenerator.generate_cvv ("532959590000" +:+ "0169") ("09" +:+ "/" +:+ "28") 3
    = Ok cvv
    /\ Py.int cvv = Ok value /\ 100 <= value <= 999.
Proof.
  destruct (generate_cvv_digits "532959590000" "0169" "09" "28" 3)
    as (cvv & value & E & _ & _ & Ev & H3 & _); try reflexivity.
  - left. reflexivity.
  - exists cvv, value. split; [exact E|]. split; [exact Ev | exact (H3 eq_refl)].
Defined.

(** C4, the code at a failing input: the last four digits 0723 and the
    expiry 03/28 give the pseudo-random number 26888, whose first mapping
    is the weak 888; the single recomputation with offset 123 maps it to
    111, which is weak again, and 111 is returned.  For a four-digit CVV,
    0557 and 03/28 go from 8882 to 1116.  [generate_card] itself builds the
    number 5329595900090723 with that expiry and hands out the CVV 111. *)
Lemma generate_cvv_weak_after_offset :
  ((0723 + 0328) * 9301 + 49297) mod 233280 = 26888
  /\ Py.str (26888 mod 900 + 100) = "888"
  /\ CardGenerator.is_in (Py.upto 3 "888") CardGenerator.weak_patterns = true
  /\ CardGenerator.generate_cvv "5329595900090723" "03/28" 3 = Ok "111"
  /\ CardGenerator.is_in (Py.upto 3 "111") CardGenerator.weak_patterns = true
  /\ CardGenerator.generate_cvv "371234340200557" "03/28" 4 = Ok "1116"
  /\ CardGenerator.is_in (Py.upto 3 "1116") CardGenerator.weak_patterns = true
  /\ fst (CardGenerator.generate_card 0 ∅
            {| Datetime.year := 2026; Datetime.month := 11; Datetime.day := 3 |}
            "532959"
            (Random.replay
               [450359962737049; 360287970189639; 360287970189639;
                8556839292003942; 450359962737049; 62; 0; 0; 0]%N))
     = Ok {| CardGenerator.cardNumber := "5329595900090723";
             CardGenerator.cardNumberFormatted := "5329 5959 0009 0723";
             CardGenerator.expiryDate := "03/28";
             CardGenerator.cvv := "111";
             CardGenerator.brand := "Mastercard";
             CardGenerator.bank := "Unknown";
             CardGenerator.country := "US";
             CardGenerator.countryName := "United States" |}.
Proof. repeat split; vm_compute; reflexivity. Qed.

(* ===================================================================== *)
(** * generate_account_segment *)
(* ===================================================================== *)

Section Monad.

Context {A B : Type}.

Lemma bind_ok (m : Random.M A) (k : A -> Random.M B)
    (g g' : Random.generator) (a : A) :
  m g = (Ok a, g') -> (m ≫= k) g = k a g'.
Proof. intros H. unfold mbind, M_bind, Random.bind. by rewrite H. Qed.

Lemma bind_raise (m : Random.M A) (k : A -> Random.M B)
    (g g' : Random.generator) (e : exn) :
  m g = (Raise e, g') -> (m ≫= k) g = (Raise e, g').
Proof. intros H. unfold mbind, M_bind, Random.bind. by rewrite H. Qed.

Lemma bind_lift (r : result A) (k : A -> Random.M B) (g : Random.generator) :
  (Random.lift r ≫= k) g =
  match r with Ok a => k a g | Raise e => (Raise e, g) end.
Proof. by destruct r. Qed.

End Monad.

Section AccountSegment.

Import CardGenerator.

Lemma of_chars_app (a b : list ascii) :
  Py.of_chars (a ++ b) = Py.of_chars a +:+ Py.of_chars b.
Proof.
  unfold Py.of_chars. induction a as [|c a IH]; [done|].
  cbn. rewrite app_cons. by rewrite IH.
Qed.

Lemma of_chars_length (l : list ascii) :
  String.length (Py.of_chars l) = length l.
Proof.
  unfold Py.of_chars. induction l as [|c l IH]; cbn; [done | by rewrite IH].
Qed.

(** A string splits before its last [n] characters. *)
Lemma split_last (n : nat) (s : string) :
  (n <= String.length s)%nat ->
  exists p q, s = p +:+ q /\ String.length q = n.
Proof.
  intros H.
  exists (Py.of_chars (firstn (String.length s - n) (Py.chars s))),
         (Py.of_chars (skipn (String.length s - n) (Py.chars s))).
  split.
  - by rewrite <- of_chars_app, firstn_skipn, of_chars_chars.
  - rewrite of_chars_length, length_skipn, chars_length. lia.
Qed.

(** A non-empty string splits before its last character. *)
Lemma split_last_char (s : string) :
  s <> "" -> exists p c, s = p +:+ String c "".
Proof.
  intros H. destruct (split_last 1 s) as (p & q & -> & Hq).
  { destruct s; [done | cbn; lia]. }
  destruct q as [|c [|? ?]]; try done. by exists p, c.
Qed.

Lemma is_digit_char (d : Z) :
  0 <= d <= 9 -> Py.is_digit (Py.digit_char d) = true.
Proof.
  intros H. unfold Py.is_digit. by rewrite (proj2 (str_digit d H)).
Qed.

Lemma bin_last_4_digits (bin_code : string) :
  bin_code <> "" -> Py.all_digits bin_code = true ->
  bin_last_4 bin_code <> "" /\ Py.all_digits (bin_last_4 bin_code) = true.
Proof.
  intros Hne Hd. unfold bin_last_4, Py.len.
  destruct (_ >=? 4) eqn:E; [|done].
  destruct (split_last 4 bin_code) as (p & q & -> & Hq); [lia|].
  rewrite from_last_4 by done. rewrite all_digits_app in Hd.
  apply andb_true_iff in Hd as [_ Hd]. split; [by destruct q | done].
Qed.

(** The Markov loop appends [count] digits to a segment that ends in a
    digit. *)
Lemma markov_digits_digits (count : nat) (segment : string)
    (g : Random.generator) :
  segment <> "" -> Py.all_digits segment = true ->
  exists middle g',
    markov_digits count segment g = (Ok (segment +:+ middle), g')
    /\ String.length middle = count /\ Py.all_digits middle = true.
Proof.
  revert segment g. induction count as [|count IH]; intros segment g Hne Hd.
  - exists "", g. by rewrite app_empty_r.
  - destruct (split_last_char segment Hne) as (p & c & ->).
    assert (Py.is_digit c = true) as Hc.
    { rewrite all_digits_app, all_digits_cons in Hd.
      apply andb_true_iff in Hd as [_ Hd]. by apply andb_true_iff in Hd as [Hd _]. }
    destruct (get_next_digit_digit p c g Hc) as (d & E & Hr).
    cbn [markov_digits]. rewrite (bind_ok _ _ _ _ _ E).
    destruct (str_digit d Hr) as [Es Ev]. rewrite Es.
    destruct (IH ((p +:+ String c "") +:+ String (Py.digit_char d) "")
                 (snd (Random.raw g))) as (middle & g' & E' & Hl & Hm).
    { destruct p; done. }
    { by rewrite all_digits_app, Hd, all_digits_cons, is_digit_char. }
    exists (String (Py.digit_char d) middle), g'.
    rewrite E', app_assoc_string. cbn [String.length].
    repeat split; [by rewrite Hl|].
    by rewrite all_digits_cons, is_digit_char, Hm.
Qed.

Lemma randint_10_99 (g : Random.generator) :
  exists sequence,
    Random.randint 10 99 g = (Ok sequence, snd (Random.raw g))
    /\ 10 <= sequence <= 99.
Proof.
  exists (10 + Z.of_N (Random.source g (Random.cursor g)) mod 90).
  split; [reflexivity | lia].
Qed.

(** [int] raises nothing but [ValueError]. *)
Lemma int_cases (s : string) :
  (exists v, Py.int s = Ok v) \/ Py.int s = Raise ValueError.
Proof. unfold Py.int. destruct (Py.int_literal _); eauto. Qed.

(** What [generate_account_segment] does: it fails exactly when the last
    digits of the BIN are not an [int] literal, and otherwise returns two
    branch-code digits, [length - 4] Markov digits (none when that is
    negative) and two sequence digits. *)
Lemma generate_account_segment_cases (length : Z) (bin_code bank_name : string)
    (g : Random.generator) :
  (Py.int (bin_last_4 bin_code) = Raise ValueError
   /\ generate_account_segment length bin_code bank_name g
      = (Raise ValueError, g))
  \/ (exists last_4 segment g',
        Py.int (bin_last_4 bin_code) = Ok last_4
        /\ generate_account_segment length bin_code bank_name g
           = (Ok segment, g')
        /\ String.length segment = (2 + Z.to_nat (length - 4) + 2)%nat
        /\ Py.all_digits segment = true).
Proof.
  unfold generate_account_segment. fold (bin_last_4 bin_code).
  destruct (hash_bank_name_ok bank_name) as (seed & -> & Hseed).
  rewrite bind_lift.
  destruct (int_cases (bin_last_4 bin_code)) as [[v E] | E]; rewrite E, bind_lift.
  2: { by left. }
  right. rewrite app_nil.
  destruct (zfill_str_two_digits ((v + seed) mod 100)) as [Hl2 Hd2]; [lia|].
  set (branch := Py.zfill 2 (Py.str ((v + seed) mod 100))) in *.
  destruct (markov_digits_digits (Z.to_nat (length - 4)) branch g)
    as (middle & g1 & Em & Hlm & Hdm); [by destruct branch | done |].
  rewrite (bind_ok _ _ _ _ _ Em).
  destruct (randint_10_99 g1) as (sequence & Es & Hs).
  rewrite (bind_ok _ _ _ _ _ Es).
  destruct (str_two_digits sequence Hs) as [Hls Hds].
  exists v, ((branch +:+ middle) +:+ Py.str sequence), (snd (Random.raw g1)).
  repeat split.
  - rewrite !length_app_string. lia.
  - by rewrite !all_digits_app, Hd2, Hdm, Hds.
Qed.

End AccountSegment.

(* ===================================================================== *)
(** * The calendar: the year of a date some days later *)
(* ===================================================================== *)

(** Evaluates [Z.to_nat] on the literals of the goal and the hypotheses. *)
Ltac to_nat_literals :=
  repeat match goal with
  | |- context [Z.to_nat (Z.pos ?p)] =>
      let n := eval vm_compute in (Z.to_nat (Z.pos p)) in
      change (Z.to_nat (Z.pos p)) with n in *
  | H : context [Z.to_nat (Z.pos ?p)] |- _ =>
      let n := eval vm_compute in (Z.to_nat (Z.pos p)) in
      change (Z.to_nat (Z.pos p)) with n in *
  end.

Section Calendar.

Import Datetime.

Lemma days_before_year_succ (y : Z) :
  _days_before_year (y + 1)
  = _days_before_year y + 365 + (if _is_leap y then 1 else 0).
Proof.
  unfold _days_before_year, _is_leap.
  destruct (Z.eqb_spec (y mod 4) 0), (Z.eqb_spec (y mod 100) 0),
    (Z.eqb_spec (y mod 400) 0); cbn [negb andb orb]; lia.
Qed.

Lemma days_before_year_mono (y y' : Z) :
  y <= y' -> _days_before_year y <= _days_before_year y'.
Proof. unfold _days_before_year. lia. Qed.

(** A date lies after the days before its year and within that year. *)
Lemma toordinal_in_year (d : datetime) :
  valid d = true ->
  _days_before_year (year d) < toordinal d <= _days_before_year (year d + 1).
Proof.
  unfold valid, toordinal, _ymd2ord. intros H.
  repeat (apply andb_true_iff in H as [H ?]).
  rewrite days_before_year_succ.
  unfold _days_in_month, _days_before_month in *.
  assert (month d = 1 \/ month d = 2 \/ month d = 3 \/ month d = 4
          \/ month d = 5 \/ month d = 6 \/ month d = 7 \/ month d = 8
          \/ month d = 9 \/ month d = 10 \/ month d = 11 \/ month d = 12)
    as Hm by lia.
  repeat destruct Hm as [Hm|Hm]; rewrite Hm in *;
    destruct (_is_leap (year d)); to_nat_literals; cbn in *; lia.
Qed.

(** The quotients [_ord2ymd] takes: 400-year cycles, centuries, 4-year
    cycles and years, and what is left of the ordinal. *)
Lemma ord2ymd_parts (n : Z) :
  1 <= n ->
  exists n400 n100 n4 n1 r : Z,
    year (_ord2ymd n)
    = (if (n1 =? 4) || (n100 =? 4)
       then n400 * 400 + 1 + n100 * 100 + n4 * 4 + n1 - 1
       else n400 * 400 + 1 + n100 * 100 + n4 * 4 + n1)
    /\ 0 <= n400 /\ 0 <= n100 <= 4 /\ 0 <= n4 <= 24 /\ 0 <= n1 <= 4
    /\ n - 1 = n400 * 146097 + n100 * 36524 + n4 * 1461 + n1 * 365 + r
    /\ 0 <= r < 365
    /\ n4 * 1461 + n1 * 365 + r < 36524
    /\ (n100 = 4 -> n4 = 0 /\ n1 = 0 /\ r = 0)
    /\ (n1 = 4 -> r = 0).
Proof.
  intros Hn.
  exists ((n - 1) / 146097), ((n - 1) mod 146097 / 36524),
    ((n - 1) mod 146097 mod 36524 / 1461),
    ((n - 1) mod 146097 mod 36524 mod 1461 / 365),
    ((n - 1) mod 146097 mod 36524 mod 1461 mod 365).
  split.
  { unfold _ord2ymd. cbv zeta. destruct (_ || _); [reflexivity|].
    destruct (_ >? _); reflexivity. }
  pose proof (Z.div_mod (n - 1) 146097 ltac:(lia)) as E400.
  pose proof (Z.mod_pos_bound (n - 1) 146097 ltac:(lia)) as B400.
  pose proof (Z.div_mod ((n - 1) mod 146097) 36524 ltac:(lia)) as E100.
  pose proof (Z.mod_pos_bound ((n - 1) mod 146097) 36524 ltac:(lia)) as B100.
  pose proof (Z.div_mod ((n - 1) mod 146097 mod 36524) 1461 ltac:(lia)) as E4.
  pose proof (Z.mod_pos_bound ((n - 1) mod 146097 mod 36524) 1461 ltac:(lia))
    as B4.
  pose proof (Z.div_mod ((n - 1) mod 146097 mod 36524 mod 1461) 365
                ltac:(lia)) as E1.
  pose proof (Z.mod_pos_bound ((n - 1) mod 146097 mod 36524 mod 1461) 365
                ltac:(lia)) as B1.
  set (q400 := (n - 1) / 146097) in *.
  set (r400 := (n - 1) mod 146097) in *.
  set (q100 := r400 / 36524) in *.
  set (r100 := r400 mod 36524) in *.
  set (q4 := r100 / 1461) in *.
  set (r4 := r100 mod 1461) in *.
  set (q1 := r4 / 365) in *.
  set (r1 := r4 mod 365) in *.
  clearbody q400 r400 q100 r100 q4 r4 q1 r1.
  repeat split; lia.
Qed.

(** The days before a year written by its 400-year cycles, centuries,
    4-year cycles and years. *)
Lemma days_before_year_parts (a b c d : Z) :
  0 <= b <= 3 -> 0 <= c <= 24 -> 0 <= d <= 3 ->
  _days_before_year (a * 400 + b * 100 + c * 4 + d + 1)
  = a * 146097 + b * 36524 + c * 1461 + d * 365.
Proof. intros Hb Hc Hd. unfold _days_before_year. lia. Qed.

(** The year [_ord2ymd] finds is the one whose days contain the ordinal. *)
Lemma ord2ymd_year (n : Z) :
  1 <= n ->
  _days_before_year (year (_ord2ymd n)) < n
  <= _days_before_year (year (_ord2ymd n) + 1).
Proof.
  intros Hn.
  destruct (ord2ymd_parts n Hn)
    as (a & b & c & d & r & -> & Ha & Hb & Hc & Hd & E & Hr & Hc100 & H100
        & H1).
  destruct (Z.eqb_spec b 4) as [->|Hb4].
  - destruct (H100 eq_refl) as (-> & -> & ->). rewrite orb_true_r.
    rewrite days_before_year_succ.
    replace (a * 400 + 1 + 4 * 100 + 0 * 4 + 0 - 1)
      with (a * 400 + 3 * 100 + 24 * 4 + 3 + 1) by lia.
    rewrite days_before_year_parts by lia.
    assert (_is_leap (a * 400 + 3 * 100 + 24 * 4 + 3 + 1) = true) as ->.
    { unfold _is_leap.
      replace (a * 400 + 3 * 100 + 24 * 4 + 3 + 1) with ((a + 1) * 400) by lia.
      assert ((a + 1) * 400 mod 4 = 0) as -> by lia.
      assert ((a + 1) * 400 mod 400 = 0) as -> by lia.
      cbn. apply orb_true_r. }
    lia.
  - rewrite orb_false_r. destruct (Z.eqb_spec d 4) as [->|Hd4].
    + rewrite (H1 eq_refl) in *. rewrite days_before_year_succ.
      replace (a * 400 + 1 + b * 100 + c * 4 + 4 - 1)
        with (a * 400 + b * 100 + c * 4 + 3 + 1) by lia.
      rewrite days_before_year_parts by lia.
      assert (_is_leap (a * 400 + b * 100 + c * 4 + 3 + 1) = true) as ->.
      { unfold _is_leap.
        assert ((a * 400 + b * 100 + c * 4 + 3 + 1) mod 4 = 0) as -> by lia.
        cbn [Z.eqb andb].
        destruct (Z.eqb_spec ((a * 400 + b * 100 + c * 4 + 3 + 1) mod 100) 0)
          as [E100|E100]; [|reflexivity].
        exfalso. assert (c = 24) by lia. lia. }
      lia.
    + rewrite days_before_year_succ.
      replace (a * 400 + 1 + b * 100 + c * 4 + d)
        with (a * 400 + b * 100 + c * 4 + d + 1) by lia.
      rewrite days_before_year_parts by lia.
      destruct (_is_leap _); lia.
Qed.

(** [k] years hold between [365 * k] and [366 * k] days. *)
Lemma days_before_year_add (y k : Z) :
  0 <= k ->
  _days_before_year y + 365 * k <= _days_before_year (y + k)
  <= _days_before_year y + 366 * k.
Proof.
  intros Hk. pattern k. apply natlike_ind; [| |exact Hk].
  - replace (y + 0) with y by lia. lia.
  - intros x Hx IH. replace (y + Z.succ x) with ((y + x) + 1) by lia.
    rewrite days_before_year_succ. destruct (_is_leap _); lia.
Qed.

(** Some years later by whole 365-day steps: the year moves by that many
    years, or by one less. *)
Lemma year_after (d : datetime) (k : Z) :
  valid d = true -> 1 <= k <= 6 ->
  let later := _ord2ymd (toordinal d + 365 * k) in
  year d + k - 1 <= year later <= year d + k /\ year d <= year later.
Proof.
  intros Hv Hk later.
  pose proof (toordinal_in_year d Hv) as Hd.
  assert (Hpos : 0 <= _days_before_year (year d)).
  { unfold valid in Hv. repeat (apply andb_true_iff in Hv as [Hv ?]).
    unfold _days_before_year. lia. }
  pose proof (ord2ymd_year (toordinal d + 365 * k) ltac:(lia)) as Hl.
  fold later in Hl.
  set (y := year d) in *. set (y' := year later) in *.
  set (n := toordinal d) in *. clearbody y y' n. clear later.
  assert (y + k - 1 <= y' <= y + k) as H; [|lia].
  split.
  - destruct (Z.le_gt_cases (y + k - 1) y') as [H|H]; [done|]. exfalso.
    pose proof (days_before_year_mono (y' + 1) (y + k - 1) ltac:(lia)).
    pose proof (days_before_year_add y (k - 1) ltac:(lia)).
    replace (y + (k - 1)) with (y + k - 1) in * by lia. lia.
  - destruct (Z.le_gt_cases y' (y + k)) as [H|H]; [done|]. exfalso.
    pose proof (days_before_year_mono (y + 1 + k) y' ltac:(lia)).
    pose proof (days_before_year_add (y + 1) k ltac:(lia)). lia.
Qed.

End Calendar.

(* ===================================================================== *)
(** * generate_expiry_date *)
(* ===================================================================== *)

Section Expiry.

Import CardGenerator.

Lemma pick_years_range (rand : float) :
  2 <= pick_years year_weights rand 0%float 3 <= 6.
Proof.
  unfold year_weights. cbn [pick_years].
  repeat destruct (PrimFloat.ltb rand _); lia.
Qed.

Lemma choice_common_months (g : Random.generator) :
  exists month,
    Random.choice common_months g = (Ok month, snd (Random.raw g))
    /\ 1 <= month <= 12.
Proof.
  unfold Random.choice, common_months, Random.bind, Random.raw, Random.ret.
  cbn [snd length]. eexists. split; [reflexivity|].
  set (k := Random.source g (Random.cursor g)).
  assert (k mod N.of_nat 6 = 0 \/ k mod N.of_nat 6 = 1 \/ k mod N.of_nat 6 = 2
          \/ k mod N.of_nat 6 = 3 \/ k mod N.of_nat 6 = 4
          \/ k mod N.of_nat 6 = 5)%N as H.
  { pose proof (N.mod_upper_bound k (N.of_nat 6) ltac:(done)). lia. }
  repeat destruct H as [H|H]; rewrite H; vm_compute;
    split; intros E; discriminate E.
Qed.

Lemma randint_1_12 (g : Random.generator) :
  exists month,
    Random.randint 1 12 g = (Ok month, snd (Random.raw g))
    /\ 1 <= month <= 12.
Proof.
  exists (1 + Z.of_N (Random.source g (Random.cursor g)) mod 12).
  split; [reflexivity | lia].
Qed.

Lemma format_02d_two_digits (v : Z) :
  0 <= v <= 99 ->
  String.length (Py.format_02d v) = 2%nat
  /\ Py.all_digits (Py.format_02d v) = true
  /\ Py.int (Py.format_02d v) = Ok v.
Proof.
  intros Hv.
  assert (forallb two_digit_check (range_from 0 100) = true) as H
    by (vm_compute; reflexivity).
  pose proof (forallb_range _ 0 100 H v ltac:(lia)) as Hc. clear Hv.
  rename Hc into Hv. unfold two_digit_check in Hv.
  cbv zeta in Hv. repeat (apply andb_true_iff in Hv as [Hv ?]).
  repeat split; [by apply Nat.eqb_eq | done |].
  destruct (Py.int _); [|done]. f_equal. by apply Z.eqb_eq.
Qed.

(** What [generate_expiry_date] does with its three draws. *)
Lemma generate_expiry_date_run (now : Datetime.datetime)
    (g : Random.generator) :
  exists (years month : Z) (g' : Random.generator),
    2 <= years <= 6 /\ 1 <= month <= 12
    /\ generate_expiry_date now g
       = match Datetime.add_days now (365 * years) with
         | Ok expiry_date =>
             (Ok (Py.format_02d month +:+ "/"
                  +:+ Py.format_02d (Datetime.year expiry_date mod 100)), g')
         | Raise e => (Raise e, g')
         end.
Proof.
  unfold generate_expiry_date.
  set (g1 := snd (Random.raw g)).
  set (rand := Random.unit_float (Random.source g (Random.cursor g))).
  assert (Random.random g = (Ok rand, g1)) as E1 by reflexivity.
  rewrite (bind_ok _ _ _ _ _ E1).
  set (g2 := snd (Random.raw g1)).
  set (coin := Random.unit_float (Random.source g1 (Random.cursor g1))).
  assert (Random.random g1 = (Ok coin, g2)) as E2 by reflexivity.
  rewrite (bind_ok _ _ _ _ _ E2).
  assert (exists month,
    (if PrimFloat.ltb coin 0.8%float then Random.choice common_months
     else Random.randint 1 12) g2 = (Ok month, snd (Random.raw g2))
    /\ 1 <= month <= 12) as (month & E3 & Hm).
  { destruct (PrimFloat.ltb coin _);
      [apply choice_common_months | apply randint_1_12]. }
  rewrite (bind_ok _ _ _ _ _ E3), bind_lift.
  exists (pick_years year_weights rand 0%float 3), month, (snd (Random.raw g2)).
  split; [apply pick_years_range|]. split; [done|].
  destruct (Datetime.add_days _ _); reflexivity.
Qed.

End Expiry.

(** C7 (as amended).  For every sequence of draws and every current date
    from which 6 * 365 days later is still a date that [datetime] can hold
    (no later than 9994-01-01), [generate_expiry_date] returns a string
    MM/YY: MM is the zero-padded month, in 1..12; the year offset is one of
    2, 3, 4, 5, 6; YY is the year of now + 365 * offset days modulo 100,
    zero-padded; that year is not before the current year, so within one
    century YY is at least the current year's last two digits. *)
Theorem generate_expiry_date_shape
    (now : Datetime.datetime) (g : Random.generator) :
  Datetime.valid now = true ->
  Datetime.toordinal now + 365 * 6 <= Datetime._MAXORDINAL ->
  exists (years month : Z) (expiry_date : Datetime.datetime) (mm yy : string)
         (g' : Random.generator),
    CardGenerator.generate_expiry_date now g = (Ok (mm +:+ "/" +:+ yy), g')
    /\ String.length mm = 2%nat /\ Py.all_digits mm = true
    /\ String.length yy = 2%nat /\ Py.all_digits yy = true
    /\ Py.int mm = Ok month /\ 1 <= month <= 12
    /\ 2 <= years <= 6
    /\ Datetime.add_days now (365 * years) = Ok expiry_date
    /\ Py.int yy = Ok (Datetime.year expiry_date mod 100)
    /\ Datetime.year now <= Datetime.year expiry_date
    /\ (Datetime.year expiry_date / 100 = Datetime.year now / 100 ->
        Datetime.year now mod 100 <= Datetime.year expiry_date mod 100).
Proof.
  intros Hv Hmax.
  destruct (generate_expiry_date_run now g)
    as (years & month & g' & Hy & Hm & E).
  pose proof (toordinal_in_year now Hv) as Hord.
  assert (0 <= Datetime._days_before_year (Datetime.year now)) as Hpos.
  { unfold Datetime.valid in Hv.
    repeat (apply andb_true_iff in Hv as [Hv ?]).
    unfold Datetime._days_before_year. lia. }
  assert (Datetime.add_days now (365 * years)
          = Ok (Datetime._ord2ymd (Datetime.toordinal now + 365 * years)))
    as Eadd.
  { unfold Datetime.add_days.
    assert ((0 <? Datetime.toordinal now + 365 * years) = true) as ->
      by (apply Z.ltb_lt; lia).
    assert ((Datetime.toordinal now + 365 * years <=? Datetime._MAXORDINAL)
            = true) as -> by (apply Z.leb_le; lia).
    reflexivity. }
  rewrite Eadd in E.
  set (expiry_date := Datetime._ord2ymd _) in *.
  destruct (year_after now years Hv ltac:(lia)) as [_ Hyear].
  fold expiry_date in Hyear.
  destruct (format_02d_two_digits month ltac:(lia)) as (Hl1 & Hd1 & Ei1).
  destruct (format_02d_two_digits (Datetime.year expiry_date mod 100)
              ltac:(lia)) as (Hl2 & Hd2 & Ei2).
  exists years, month, expiry_date, (Py.format_02d month),
    (Py.format_02d (Datetime.year expiry_date mod 100)), g'.
  repeat split; try done; lia.
Qed.

Lemma generate_expiry_date_shape_witness :
  exists (mm yy : string) (g' : Random.generator),
    CardGenerator.generate_expiry_date
      {| Datetime.year := 2026; Datetime.month := 11; Datetime.day := 3 |}
      (Random.replay [7%N; 8%N; 9%N])
    = (Ok (mm +:+ "/" +:+ yy), g')
    /\ String.length mm = 2%nat /\ String.length yy = 2%nat.
Proof.
  destruct (generate_expiry_date_shape
    {| Datetime.year := 2026; Datetime.month := 11; Datetime.day := 3 |}
    (Random.replay [7%N; 8%N; 9%N]))
    as (_ & _ & _ & mm & yy & g' & E & H1 & _ & H2 & _).
  - reflexivity.
  - vm_compute. discriminate.
  - exists mm, yy, g'. split; [exact E|]. split; [exact H1 | exact H2].
Defined.

(** C7, counterexample to the claim as stated: on the last day [datetime]
    can hold, the date 365 * offset days later does not exist and
    [generate_expiry_date] raises [OverflowError] instead of returning a
    string. *)
Lemma generate_expiry_date_overflow :
  Datetime.valid
    {| Datetime.year := 9999; Datetime.month := 12; Datetime.day := 31 |}
  = true
  /\ fst (CardGenerator.generate_expiry_date
            {| Datetime.year := 9999; Datetime.month := 12; Datetime.day := 31 |}
            (Random.replay [7%N; 8%N; 9%N]))
     = Raise OverflowError.
Proof. split; vm_compute; reflexivity. Qed.

(* ===================================================================== *)
(** * generate_card *)
(* ===================================================================== *)

Section GenerateCard.

Import CardGenerator.

Lemma detect_card_brand_ok (database : gmap string Brand.info)
    (bin_code : string) :
  exists brand_info,
    BINDatabase.detect_card_brand database bin_code = Ok brand_info.
Proof.
  rewrite detect_card_brand_lookup. repeat destruct (database !! _); eauto.
Qed.

Lemma bin_last_4_empty : bin_last_4 "" = "".
Proof. reflexivity. Qed.

(** The two ways [generate_card] can go, whatever [depth] is: the digit
    conversions raise [ValueError] when the BIN is empty or has a character
    that is not a digit; otherwise the number is built, passes the
    validation, and the card is completed without a retry. *)
Lemma generate_card_run (database : gmap string Brand.info)
    (now : Datetime.datetime) (bin_code : string) (g : Random.generator) :
  exists brand_info,
    BINDatabase.detect_card_brand database bin_code = Ok brand_info
    /\ (((bin_code = "" \/ Py.all_digits bin_code = false)
         /\ exists g', forall depth,
              generate_card depth database now bin_code g
              = (Raise ValueError, g'))
        \/ (bin_code <> "" /\ Py.all_digits bin_code = true
            /\ exists segment check_digit g1,
                 String.length segment
                 = (2 + Z.to_nat (Py.get (Brand.length brand_info) 16
                                  - Py.len bin_code - 1 - 4)%Z + 2)%nat
                 /\ Py.all_digits segment = true
                 /\ String.length check_digit = 1%nat
                 /\ Py.all_digits check_digit = true
                 /\ LuhnValidator.validate
                      ((bin_code +:+ segment) +:+ check_digit) = Ok true
                 /\ forall depth,
                      generate_card depth database now bin_code g
                      = card_of now brand_info
                          ((bin_code +:+ segment) +:+ check_digit) g1)).
Proof.
  destruct (detect_card_brand_ok database bin_code) as [brand_info Eb].
  exists brand_info. split; [done|].
  set (account_length :=
         Py.get (Brand.length brand_info) 16 - Py.len bin_code - 1).
  set (bank_name := Py.get (Brand.bank brand_info) "Unknown").
  destruct (generate_account_segment_cases account_length bin_code bank_name g)
    as [[Ei Es] | (v & segment & g1 & Ei & Es & Hls & Hds)].
  - (* the last digits of the BIN are no number *)
    left. split.
    + destruct (String.eqb_spec bin_code "") as [|Hne]; [by left|]. right.
      destruct (Py.all_digits bin_code) eqn:Hd; [|done].
      destruct (bin_last_4_digits bin_code Hne Hd) as [Hne4 Hd4].
      destruct (int_all_digits _ Hne4 Hd4) as (w & Ew & _). congruence.
    + exists g. intros depth.
      destruct depth; cbn [generate_card]; rewrite Eb, bind_lift;
        fold account_length bank_name; by rewrite (bind_raise _ _ _ _ _ Es).
  - destruct (Py.all_digits bin_code) eqn:Hd.
    + (* a BIN of digits *)
      right.
      assert (bin_code <> "") as Hne.
      { intros ->. rewrite bin_last_4_empty in Ei. discriminate Ei. }
      split; [done|]. split; [done|].
      destruct (validate_with_check_digit (bin_code +:+ segment))
        as (check_digit & Ec & Hlc & Hdc & Ev).
      { by rewrite all_digits_app, Hd, Hds. }
      exists segment, check_digit, g1.
      repeat split; try done.
      intros depth.
      destruct depth; cbn [generate_card]; rewrite Eb, bind_lift;
        fold account_length bank_name; rewrite (bind_ok _ _ _ _ _ Es);
        rewrite Ec, bind_lift, Ev, bind_lift; reflexivity.
    + (* a character that is no digit *)
      left. split; [by right|]. exists g1. intros depth.
      assert (LuhnValidator.calculate_check_digit (bin_code +:+ segment)
              = Raise ValueError) as Ec.
      { apply calculate_check_digit_not_digits.
        by rewrite all_digits_app, Hd. }
      destruct depth; cbn [generate_card]; rewrite Eb, bind_lift;
        fold account_length bank_name; rewrite (bind_ok _ _ _ _ _ Es);
        rewrite Ec, bind_lift; reflexivity.
Qed.

Lemma add_days_cases (d : Datetime.datetime) (n : Z) :
  Datetime.add_days d n = Raise OverflowError
  \/ exists later, Datetime.add_days d n = Ok later.
Proof. unfold Datetime.add_days. destruct (_ && _); eauto. Qed.

(** Completing the card: the only failure left is a date that does not
    exist, and otherwise the record carries the number as it was built. *)
Lemma card_of_cases (now : Datetime.datetime) (brand_info : Brand.info)
    (full_card_number : string) (g : Random.generator) :
  Py.all_digits full_card_number = true ->
  (4 <= String.length full_card_number)%nat ->
  exists (years : Z) (g' : Random.generator),
    2 <= years <= 6
    /\ ((Datetime.add_days now (365 * years) = Raise OverflowError
         /\ card_of now brand_info full_card_number g
            = (Raise OverflowError, g'))
        \/ (exists later expiry_date cvv,
              Datetime.add_days now (365 * years) = Ok later
              /\ card_of now brand_info full_card_number g
                 = (Ok {| cardNumber := full_card_number;
                          cardNumberFormatted :=
                            format_card_number
                              (Py.get (Brand.length brand_info) 16)
                              full_card_number;
                          expiryDate := expiry_date;
                          cvv := cvv;
                          brand := Py.get (Brand.brand brand_info) "Unknown";
                          bank := Py.get (Brand.bank brand_info) "Unknown";
                          country := Py.get (Brand.country brand_info) "US";
                          countryName :=
                            Py.get (Brand.countryName brand_info)
                              "United States" |}, g'))).
Proof.
  intros Hd Hl.
  destruct (generate_expiry_date_run now g)
    as (years & month & g' & Hy & Hm & E).
  exists years, g'. split; [done|]. unfold card_of.
  destruct (add_days_cases now (365 * years)) as [Ea | [later Ea]];
    rewrite Ea in E.
  - left. split; [done|]. by rewrite (bind_raise _ _ _ _ _ E).
  - right. rewrite (bind_ok _ _ _ _ _ E), bind_lift.
    destruct (split_last 4 full_card_number Hl) as (p & q & -> & Hq).
    rewrite all_digits_app in Hd. apply andb_true_iff in Hd as [_ Hdq].
    destruct (int_all_digits q) as (a & Ea4 & _); [by destruct q | done |].
    destruct (format_02d_two_digits month ltac:(lia)) as (Hl1 & Hd1 & _).
    destruct (format_02d_two_digits (Datetime.year later mod 100) ltac:(lia))
      as (Hl2 & Hd2 & _).
    destruct (int_all_digits (Py.format_02d month
                +:+ Py.format_02d (Datetime.year later mod 100)))
      as (b & Eb & _).
    { destruct (Py.format_02d month); [done | by rewrite app_cons]. }
    { by rewrite all_digits_app, Hd1, Hd2. }
    rewrite (generate_cvv_value _ _ _ a b)
      by (by rewrite ?from_last_4, ?remove_slash).
    eexists later, _, _. split; [done | reflexivity].
Qed.

Lemma full_number_length (bin_code segment check_digit : string) :
  bin_code <> "" ->
  (4 <= String.length segment)%nat -> String.length check_digit = 1%nat ->
  (4 <= String.length ((bin_code +:+ segment) +:+ check_digit))%nat.
Proof. intros _ H1 H2. rewrite !length_app_string. lia. Qed.

End GenerateCard.

(** C1.  For every string of decimal digits, [calculate_check_digit]
    returns a digit that makes [validate] accept the string with the digit
    appended.  Hence every number [generate_card] builds passes the
    validation: a card that is returned carries a valid number, the result
    does not depend on how many retries are allowed, and with no retry
    allowed at all [RecursionError] is never the outcome, so the branch
    that discards the number and starts again is never taken. *)
Theorem check_digit_validates
    (s : string) (database : gmap string Brand.info)
    (now : Datetime.datetime) (bin_code : string) (g : Random.generator) :
  Py.all_digits s = true ->
  (exists c, LuhnValidator.calculate_check_digit s = Ok c
             /\ LuhnValidator.validate (s +:+ c) = Ok true)
  /\ (forall depth card g',
        CardGenerator.generate_card depth database now bin_code g
        = (Ok card, g') ->
        LuhnValidator.validate (CardGenerator.cardNumber card) = Ok true)
  /\ (forall depth,
        CardGenerator.generate_card depth database now bin_code g
        = CardGenerator.generate_card 0 database now bin_code g)
  /\ fst (CardGenerator.generate_card 0 database now bin_code g)
     <> Raise RecursionError.
Proof.
  intros Hs. split.
  { destruct (validate_with_check_digit s Hs) as (c & Ec & _ & _ & Ev).
    by exists c. }
  destruct (generate_card_run database now bin_code g)
    as (brand_info & _ & [[_ [g1 E]] | (Hne & Hd & segment & check_digit & g1
          & Hls & Hds & Hlc & Hdc & Ev & E)]).
  - split; [|split].
    + intros depth card g' H. rewrite E in H. discriminate H.
    + intros depth. by rewrite !E.
    + rewrite E. cbn. discriminate.
  - destruct (card_of_cases now brand_info
                ((bin_code +:+ segment) +:+ check_digit) g1)
      as (years & g2 & _ & [[_ Ec] | (later & expiry & cvv & _ & Ec)]).
    { by rewrite !all_digits_app, Hd, Hds, Hdc. }
    { apply full_number_length; [done | lia | done]. }
    + split; [|split].
      * intros depth card g' H. rewrite E, Ec in H. discriminate H.
      * intros depth. by rewrite !E.
      * rewrite E, Ec. cbn. discriminate.
    + split; [|split].
      * intros depth card g' H. rewrite E, Ec in H.
        injection H as <- _. exact Ev.
      * intros depth. by rewrite !E.
      * rewrite E, Ec. cbn. discriminate.
Qed.

Lemma check_digit_validates_witness :
  exists c, LuhnValidator.calculate_check_digit "7992739871" = Ok c
            /\ LuhnValidator.validate ("7992739871" +:+ c) = Ok true.
Proof.
  apply (check_digit_validates "7992739871" ∅
           {| Datetime.year := 2026; Datetime.month := 11; Datetime.day := 3 |}
           "532959" (Random.replay [])).
  reflexivity.
Defined.

Section Returns.

(** A date from which [6 * 365] days later exists has every expiry date. *)
Lemma add_days_in_range (now : Datetime.datetime) (years : Z) :
  Datetime.valid now = true ->
  Datetime.toordinal now + 365 * 6 <= Datetime._MAXORDINAL ->
  2 <= years <= 6 ->
  Datetime.add_days now (365 * years) <> Raise OverflowError.
Proof.
  intros Hv Hmax Hy Ea.
  pose proof (toordinal_in_year now Hv) as Hord.
  assert (0 <= Datetime._days_before_year (Datetime.year now)) as Hpos.
  { unfold Datetime.valid in Hv.
    repeat (apply andb_true_iff in Hv as [Hv ?]).
    unfold Datetime._days_before_year. lia. }
  unfold Datetime.add_days in Ea.
  assert ((0 <? Datetime.toordinal now + 365 * years) = true) as E1
    by (apply Z.ltb_lt; lia).
  assert ((Datetime.toordinal now + 365 * years <=? Datetime._MAXORDINAL)
          = true) as E2 by (apply Z.leb_le; lia).
  rewrite E1, E2 in Ea. discriminate Ea.
Qed.

(** On a non-empty BIN of digits, and a date from which the expiry date
    exists, [generate_card] returns a card with the number it built. *)
Lemma generate_card_returns
    (depth : nat) (database : gmap string Brand.info)
    (now : Datetime.datetime) (bin_code : string) (g : Random.generator) :
  bin_code <> "" -> Py.all_digits bin_code = true ->
  Datetime.valid now = true ->
  Datetime.toordinal now + 365 * 6 <= Datetime._MAXORDINAL ->
  exists brand_info card g' segment check_digit,
    BINDatabase.detect_card_brand database bin_code = Ok brand_info
    /\ CardGenerator.generate_card depth database now bin_code g = (Ok card, g')
    /\ CardGenerator.cardNumber card = (bin_code +:+ segment) +:+ check_digit
    /\ String.length segment
       = (2 + Z.to_nat (Py.get (Brand.length brand_info) 16
                        - Py.len bin_code - 1 - 4)%Z + 2)%nat
    /\ Py.all_digits segment = true
    /\ String.length check_digit = 1%nat
    /\ Py.all_digits check_digit = true.
Proof.
  intros Hne Hd Hv Hmax.
  destruct (generate_card_run database now bin_code g)
    as (brand_info & Eb & [[[H|H] _] | (_ & _ & segment & check_digit & g1
          & Hls & Hds & Hlc & Hdc & Ev & E)]); [done | congruence |].
  destruct (card_of_cases now brand_info
              ((bin_code +:+ segment) +:+ check_digit) g1)
    as (years & g2 & Hy & [[Ea _] | (later & expiry & cvv & _ & Ec)]).
  { by rewrite !all_digits_app, Hd, Hds, Hdc. }
  { apply full_number_length; [done | lia | done]. }
  { by destruct (add_days_in_range now years Hv Hmax Hy). }
  eexists brand_info, _, g2, segment, check_digit.
  split; [done|]. split; [by rewrite E, Ec|]. done.
Qed.

End Returns.

(** C2 (as amended).  For every non-empty BIN of decimal digits, every
    table, every sequence of draws and every current date from which the
    expiry date exists, [generate_card] returns a card whose number is the
    BIN, then an account segment, then one check digit.  The segment has 2
    branch-code digits, [max 0 (length - len bin - 5)] Markov digits and 2
    sequence digits; so when [len bin + 5 <= length] the segment has
    [length - len bin - 1] digits and the number has exactly [length]
    digits. *)
Theorem generate_card_number
    (depth : nat) (database : gmap string Brand.info)
    (now : Datetime.datetime) (bin_code : string) (g : Random.generator) :
  bin_code <> "" -> Py.all_digits bin_code = true ->
  Datetime.valid now = true ->
  Datetime.toordinal now + 365 * 6 <= Datetime._MAXORDINAL ->
  exists brand_info card g' segment check_digit,
    BINDatabase.detect_card_brand database bin_code = Ok brand_info
    /\ CardGenerator.generate_card depth database now bin_code g = (Ok card, g')
    /\ CardGenerator.cardNumber card = bin_code +:+ segment +:+ check_digit
    /\ Py.upto (Py.len bin_code) (CardGenerator.cardNumber card) = bin_code
    /\ Py.all_digits segment = true
    /\ Py.all_digits check_digit = true /\ Py.len check_digit = 1
    /\ let length := Py.get (Brand.length brand_info) 16 in
       Py.len segment = 2 + Z.max 0 (length - Py.len bin_code - 5) + 2
       /\ (Py.len bin_code + 5 <= length ->
           Py.len segment = length - Py.len bin_code - 1
           /\ Py.len (CardGenerator.cardNumber card) = length).
Proof.
  intros Hne Hd Hv Hmax.
  destruct (generate_card_returns depth database now bin_code g Hne Hd Hv Hmax)
    as (brand_info & card & g' & segment & check_digit & Eb & E & En & Hls
        & Hds & Hlc & Hdc).
  exists brand_info, card, g', segment, check_digit.
  split; [exact Eb|]. split; [exact E|].
  rewrite En, app_assoc_string.
  split; [reflexivity|]. split; [apply upto_app|].
  split; [exact Hds|]. split; [exact Hdc|].
  unfold Py.len in *. split; [lia|]. cbv zeta.
  split; [lia|]. intros Hfit. rewrite !length_app_string. lia.
Qed.

Lemma generate_card_number_witness :
  exists card g',
    CardGenerator.generate_card 0 ∅
      {| Datetime.year := 2026; Datetime.month := 11; Datetime.day := 3 |}
      "532959" (Random.replay [1; 2; 3; 4; 5; 6; 7; 8; 9]%N) = (Ok card, g')
    /\ Py.len (CardGenerator.cardNumber card) = 16.
Proof.
  destruct (generate_card_number 0 ∅
    {| Datetime.year := 2026; Datetime.month := 11; Datetime.day := 3 |}
    "532959" (Random.replay [1; 2; 3; 4; 5; 6; 7; 8; 9]%N))
    as (info & card & g' & segment & check_digit & Eb & E & _ & _ & _ & _ & _
        & _ & H).
  - discriminate.
  - reflexivity.
  - reflexivity.
  - vm_compute. discriminate.
  - exists card, g'. split; [exact E|].
    assert (BINDatabase.detect_card_brand ∅ "532959" = Ok mastercard) as Em
      by reflexivity.
    rewrite Em in Eb. injection Eb as <-.
    apply H. vm_compute. discriminate.
Defined.

(** C2, counterexample to the claim as stated: with the 13-digit BIN
    4000000000000 and the rule-based Visa profile of length 16, the account
    segment still has 4 digits, not 16 - 13 - 1 = 2, and the number has 18
    digits. *)
Lemma generate_card_long_bin :
  exists card,
    BINDatabase.detect_card_brand ∅ "4000000000000" = Ok visa
    /\ Brand.length visa = Some 16
    /\ fst (CardGenerator.generate_card 0 ∅
              {| Datetime.year := 2026; Datetime.month := 11; Datetime.day := 3 |}
              "4000000000000" (Random.replay [])) = Ok card
    /\ CardGenerator.cardNumber card = "4000000000000" +:+ "0010" +:+ "1"
    /\ Py.len (CardGenerator.cardNumber card) = 18
    /\ Py.len (CardGenerator.cardNumber card) <> 16.
Proof.
  eexists. split; [reflexivity|]. split; [reflexivity|].
  split; [vm_compute; reflexivity|]. repeat split. discriminate.
Qed.




(* ===================================================================== *)
(** * The display string *)
(* ===================================================================== *)

Section Formatting.

Import CardGenerator.

Lemma substring_chars (s : string) (a n : nat) :
  substring a n s = Py.of_chars (firstn n (skipn a (Py.chars s))).
Proof.
  unfold Py.of_chars, Py.chars. revert a n.
  induction s as [|c s IH]; intros a n.
  - by destruct a, n.
  - destruct a as [|a].
    + destruct n as [|n]; [done|]. cbn. by rewrite IH.
    + cbn. apply IH.
Qed.

(** Slices with bounds that are not negative take and drop characters. *)
Lemma between_chars (a b : nat) (s : string) :
  (a <= b)%nat ->
  Py.between (Z.of_nat a) (Z.of_nat b) s
  = Py.of_chars (firstn (b - a) (skipn a (Py.chars s))).
Proof.
  intros Hab. unfold Py.between, Py.slice, Py.clamp_index, Py.len.
  assert ((Z.of_nat a <? 0) = false) as -> by (apply Z.ltb_ge; lia).
  assert ((Z.of_nat b <? 0) = false) as -> by (apply Z.ltb_ge; lia).
  rewrite substring_chars, <- chars_length.
  set (l := Py.chars s). f_equal.
  destruct (Nat.le_gt_cases a (length l)) as [Ha|Ha].
  - replace (Z.to_nat (Z.min (Z.of_nat a) (Z.of_nat (length l)))) with a by lia.
    set (r := skipn a l).
    assert (length r = (length l - a)%nat) as Hr by apply length_skipn.
    destruct (Nat.le_gt_cases b (length l)) as [Hb|Hb].
    + f_equal. lia.
    + rewrite !firstn_all2 by lia. done.
  - rewrite !skipn_all2 by lia. by rewrite !firstn_nil.
Qed.

Lemma upto_chars (b : nat) (s : string) :
  Py.upto (Z.of_nat b) s = Py.of_chars (firstn b (Py.chars s)).
Proof.
  pose proof (between_chars 0 b s ltac:(lia)) as H.
  rewrite Nat.sub_0_r in H.
  change (skipn 0 (Py.chars s)) with (Py.chars s) in H. rewrite <- H.
  unfold Py.upto, Py.between, Py.slice, Py.clamp_index.
  change (Z.of_nat 0) with 0. change (0 <? 0) with false. cbv iota.
  replace (Z.min 0 (Py.len s)) with 0 by (unfold Py.len; lia). reflexivity.
Qed.

Lemma from_chars (a : nat) (s : string) :
  Py.from (Z.of_nat a) s = Py.of_chars (skipn a (Py.chars s)).
Proof.
  unfold Py.from, Py.slice, Py.clamp_index, Py.len.
  assert ((Z.of_nat a <? 0) = false) as -> by (apply Z.ltb_ge; lia).
  rewrite substring_chars, <- chars_length.
  set (l := Py.chars s). f_equal.
  destruct (Nat.le_gt_cases a (length l)) as [Ha|Ha].
  - replace (Z.to_nat (Z.min (Z.of_nat a) (Z.of_nat (length l)))) with a by lia.
    apply firstn_all2. rewrite length_skipn. lia.
  - rewrite !skipn_all2 by lia. by rewrite firstn_nil.
Qed.

Lemma remove_char_app (c : ascii) (a b : string) :
  Py.remove_char c (a +:+ b) = Py.remove_char c a +:+ Py.remove_char c b.
Proof.
  unfold Py.remove_char. by rewrite chars_app, List.filter_app, of_chars_app.
Qed.

Lemma all_digits_of_chars_firstn (n : nat) (l : list ascii) :
  forallb Py.is_digit l = true -> forallb Py.is_digit (firstn n l) = true.
Proof.
  intros H. rewrite <- (firstn_skipn n l), forallb_app in H.
  by apply andb_true_iff in H as [H _].
Qed.

Lemma all_digits_of_chars_skipn (n : nat) (l : list ascii) :
  forallb Py.is_digit l = true -> forallb Py.is_digit (skipn n l) = true.
Proof.
  intros H. rewrite <- (firstn_skipn n l), forallb_app in H.
  by apply andb_true_iff in H as [_ H].
Qed.

Lemma remove_space_digits (l : list ascii) :
  forallb Py.is_digit l = true ->
  Py.remove_char " " (Py.of_chars l) = Py.of_chars l.
Proof.
  intros H. unfold Py.remove_char. rewrite chars_of_chars. f_equal.
  induction l as [|c l IH]; [done|]. cbn [forallb] in H.
  apply andb_true_iff in H as [Hc Hl].
  destruct (digit_char_kinds c Hc) as (_ & _ & _ & _ & _ & Es).
  cbn. rewrite Es. cbn. by rewrite IH.
Qed.

(** The two groupings, for any number: three or four groups that are the
    number cut after 4 and 10, or after 4, 8 and 12 characters. *)
Lemma format_card_number_groups (card_length : Z) (number : string) :
  let l := Py.chars number in
  (card_length = 15 ->
   format_card_number card_length number
   = Py.of_chars (firstn 4 l) +:+ " " +:+ Py.of_chars (firstn 6 (skipn 4 l))
     +:+ " " +:+ Py.of_chars (skipn 10 l))
  /\ (card_length <> 15 ->
      format_card_number card_length number
      = Py.of_chars (firstn 4 l) +:+ " "
        +:+ Py.of_chars (firstn 4 (skipn 4 l)) +:+ " "
        +:+ Py.of_chars (firstn 4 (skipn 8 l)) +:+ " "
        +:+ Py.of_chars (skipn 12 l)).
Proof.
  cbv zeta. unfold format_card_number. split.
  - intros ->. cbn [Z.eqb Pos.eqb].
    rewrite (upto_chars 4), (between_chars 4 10) by lia.
    by rewrite (from_chars 10).
  - intros H. apply Z.eqb_neq in H. rewrite H.
    rewrite (upto_chars 4), (between_chars 4 8), (between_chars 8 12) by lia.
    by rewrite (from_chars 12).
Qed.

End Formatting.

Section Groups.

Lemma three_groups (l : list ascii) :
  (firstn 4 l ++ firstn 6 (skipn 4 l) ++ skipn 10 l)%list = l.
Proof.
  replace (skipn 10 l) with (skipn 6 (skipn 4 l)) by (by rewrite skipn_skipn).
  by rewrite !firstn_skipn.
Qed.

Lemma four_groups (l : list ascii) :
  (firstn 4 l ++ firstn 4 (skipn 4 l) ++ firstn 4 (skipn 8 l)
   ++ skipn 12 l)%list = l.
Proof.
  replace (skipn 12 l) with (skipn 4 (skipn 8 l)) by (by rewrite skipn_skipn).
  rewrite firstn_skipn.
  replace (skipn 8 l) with (skipn 4 (skipn 4 l)) by (by rewrite skipn_skipn).
  by rewrite !firstn_skipn.
Qed.

Lemma remove_space_space : Py.remove_char " " " " = "".
Proof. reflexivity. Qed.

(** Without its spaces the display string of a number of digits is the
    number. *)
Lemma format_card_number_digits (card_length : Z) (number : string) :
  Py.all_digits number = true ->
  Py.remove_char " " (CardGenerator.format_card_number card_length number)
  = number.
Proof.
  unfold Py.all_digits. intros H.
  destruct (format_card_number_groups card_length number) as [H15 Hn].
  cbv zeta in H15, Hn.
  destruct (Z.eq_dec card_length 15) as [E|E].
  - rewrite (H15 E), !remove_char_app, remove_space_space, !app_nil.
    rewrite !remove_space_digits
      by auto using all_digits_of_chars_firstn, all_digits_of_chars_skipn.
    by rewrite <- !of_chars_app, three_groups, of_chars_chars.
  - rewrite (Hn E), !remove_char_app, remove_space_space, !app_nil.
    rewrite !remove_space_digits
      by auto using all_digits_of_chars_firstn, all_digits_of_chars_skipn.
    by rewrite <- !of_chars_app, four_groups, of_chars_chars.
Qed.

End Groups.

(** C8 (as amended).  In every card record that [generate_card] returns,
    the display string without its spaces is the card number, digit for
    digit.  The grouping follows the length of the brand profile, and the
    places of the cuts are fixed for every number: for a profile of length
    15 the number is cut after 4 and 10 digits, so the groups have 4, up to
    6 and all further digits, which for a 15-digit number is 4, 6 and 5;
    for every other profile length it is cut after 4, 8 and 12 digits,
    groups of 4, up to 4, up to 4 and all further digits.  The number has
    at least 6 digits, and the profile's length whenever
    [len bin + 5 <= length]. *)
Theorem generate_card_formatted
    (depth : nat) (database : gmap string Brand.info)
    (now : Datetime.datetime) (bin_code : string) (g g' : Random.generator)
    (card : CardGenerator.card) :
  CardGenerator.generate_card depth database now bin_code g = (Ok card, g') ->
  exists brand_info,
    BINDatabase.detect_card_brand database bin_code = Ok brand_info
    /\ let length := Py.get (Brand.length brand_info) 16 in
       let number := CardGenerator.cardNumber card in
       let formatted := CardGenerator.cardNumberFormatted card in
       Py.remove_char " " formatted = number
       /\ 6 <= Py.len number
       /\ (length = 15 ->
           exists a b c,
             formatted = a +:+ " " +:+ b +:+ " " +:+ c
             /\ a +:+ b +:+ c = number
             /\ Py.len a = 4
             /\ Py.len b = Z.min 6 (Py.len number - 4)
             /\ Py.len c = Z.max 0 (Py.len number - 10)
             /\ (Py.len number = 15 ->
                 Py.len a = 4 /\ Py.len b = 6 /\ Py.len c = 5))
       /\ (length <> 15 ->
           exists a b c d,
             formatted = a +:+ " " +:+ b +:+ " " +:+ c +:+ " " +:+ d
             /\ a +:+ b +:+ c +:+ d = number
             /\ Py.len a = 4
             /\ Py.len b = Z.min 4 (Py.len number - 4)
             /\ Py.len c = Z.min 4 (Z.max 0 (Py.len number - 8))
             /\ Py.len d = Z.max 0 (Py.len number - 12)
             /\ (12 <= Py.len number ->
                 Py.len a = 4 /\ Py.len b = 4 /\ Py.len c = 4
                 /\ Py.len d = Py.len number - 12))
       /\ (Py.len bin_code + 5 <= length -> Py.len number = length).
Proof.
  intros H.
  destruct (generate_card_run database now bin_code g)
    as (brand_info & Eb & [[_ [g1 E]] | (Hne & Hd & segment & check_digit & g1
          & Hls & Hds & Hlc & Hdc & Ev & E)]).
  { rewrite E in H. discriminate H. }
  exists brand_info. split; [done|].
  destruct (card_of_cases now brand_info
              ((bin_code +:+ segment) +:+ check_digit) g1)
    as (years & g2 & _ & [[_ Ec] | (later & expiry & cvv & _ & Ec)]).
  { by rewrite !all_digits_app, Hd, Hds, Hdc. }
  { apply full_number_length; [done | lia | done]. }
  { rewrite E, Ec in H. discriminate H. }
  rewrite E, Ec in H. injection H as <- _.
  cbn [CardGenerator.cardNumber CardGenerator.cardNumberFormatted].
  set (number := (bin_code +:+ segment) +:+ check_digit).
  assert (Py.all_digits number = true) as Hdn
    by (subst number; by rewrite !all_digits_app, Hd, Hds, Hdc).
  destruct (format_card_number_groups
              (Py.get (Brand.length brand_info) 16) number) as [H15 Hn].
  cbv zeta in H15, Hn. set (l := Py.chars number) in *.
  assert (length l = String.length number) as Hl by apply chars_length.
  assert (6 <= String.length number)%nat as Hsix.
  { subst number. rewrite !length_app_string.
    assert (String.length bin_code <> 0)%nat by (by destruct bin_code). lia. }
  split; [by apply format_card_number_digits|].
  split; [unfold Py.len; lia|]. split; [|split].
  - intros E15. eexists _, _, _. split; [by apply H15|]. split.
    + unfold l. by rewrite <- !of_chars_app, three_groups, of_chars_chars.
    + unfold Py.len. rewrite !of_chars_length, length_firstn, length_firstn,
        !length_skipn. lia.
  - intros E15. eexists _, _, _, _. split; [by apply Hn|]. split.
    + unfold l. by rewrite <- !of_chars_app, four_groups, of_chars_chars.
    + unfold Py.len. rewrite !of_chars_length, !length_firstn, !length_skipn.
      lia.
  - unfold Py.len in *. subst number. rewrite !length_app_string. lia.
Qed.

Lemma generate_card_formatted_witness :
  let card :=
    {| CardGenerator.cardNumber := "371234340000104";
       CardGenerator.cardNumberFormatted := "3712 343400 00104";
       CardGenerator.expiryDate := "03/28";
       CardGenerator.cvv := "3569";
       CardGenerator.brand := "American Express";
       CardGenerator.bank := "Unknown";
       CardGenerator.country := "US";
       CardGenerator.countryName := "United States" |} in
  CardGenerator.generate_card 0 ∅
    {| Datetime.year := 2026; Datetime.month := 11; Datetime.day := 3 |}
    "371234" (Random.replay [5; 6; 7; 8]%N)
  = (Ok card,
     {| Random.source := Random.source (Random.replay [5; 6; 7; 8]%N);
        Random.cursor := 8 |})
  /\ Py.remove_char " " (CardGenerator.cardNumberFormatted card)
     = CardGenerator.cardNumber card
  /\ exists a b c,
       CardGenerator.cardNumberFormatted card = a +:+ " " +:+ b +:+ " " +:+ c
       /\ Py.len a = 4 /\ Py.len b = 6 /\ Py.len c = 5.
Proof.
  intros card.
  assert (CardGenerator.generate_card 0 ∅
    {| Datetime.year := 2026; Datetime.month := 11; Datetime.day := 3 |}
    "371234" (Random.replay [5; 6; 7; 8]%N)
  = (Ok card,
     {| Random.source := Random.source (Random.replay [5; 6; 7; 8]%N);
        Random.cursor := 8 |})) as E by (vm_compute; reflexivity).
  split; [exact E|].
  destruct (generate_card_formatted _ _ _ _ _ _ _ E)
    as (info & Eb & H & _ & H15 & _).
  split; [exact H|].
  assert (BINDatabase.detect_card_brand ∅ "371234" = Ok american_express)
    as Ea by reflexivity.
  rewrite Ea in Eb. injection Eb as <-.
  destruct (H15 eq_refl) as (a & b & c & Ef & _ & _ & _ & _ & Hl).
  exists a, b, c. split; [exact Ef|]. apply Hl. reflexivity.
Defined.

(** C8, counterexample to the claim as stated: from the 12-digit BIN
    371234567890 and its American Express profile of length 15 comes a
    17-digit number, and it is not cut into groups of 4 but after 4 and 10
    digits. *)
Lemma generate_card_formatted_long_bin :
  exists card,
    fst (CardGenerator.generate_card 0 ∅
           {| Datetime.year := 2026; Datetime.month := 11; Datetime.day := 3 |}
           "371234567890" (Random.replay [])) = Ok card
    /\ CardGenerator.cardNumber card = "37123456789090105"
    /\ Py.len (CardGenerator.cardNumber card) = 17
    /\ CardGenerator.cardNumberFormatted card = "3712 345678 9090105"
    /\ CardGenerator.cardNumberFormatted card <> "3712 3456 7890 90105".
Proof.
  eexists. split; [vm_compute; reflexivity|].
  repeat split. discriminate.
Qed.

(* ===================================================================== *)
(** * Further properties: LuhnValidator *)
(* ===================================================================== *)

Section LuhnMore.

Import LuhnValidator.

Lemma luhn_loop_sum (l : list ascii) (total : Z) (b : bool) :
  forallb Py.is_digit l = true ->
  luhn_loop l total b = Ok (total + luhn_sum l b).
Proof.
  revert total b. induction l as [|c l IH]; intros total b H.
  - cbn. by rewrite Z.add_0_r.
  - cbn [forallb] in H. apply andb_true_iff in H as [Hc Hl].
    apply is_digit_value in Hc as (d & Hd & _).
    rewrite luhn_loop_cons, Hd, IH by done. cbn [luhn_sum]. rewrite Hd.
    cbn [Py.get]. f_equal. lia.
Qed.

Lemma luhn_sum_app (x y : list ascii) (b : bool) :
  luhn_sum (x ++ y) b
  = luhn_sum x b + luhn_sum y (xorb b (Nat.odd (length x))).
Proof.
  revert b. induction x as [|c x IH]; intros b.
  - cbn. by rewrite xorb_false_r.
  - cbn [app luhn_sum length]. rewrite IH, Nat.odd_succ, <- Nat.negb_odd.
    destruct b, (Nat.odd (length x)); cbn; lia.
Qed.

Lemma validate_sum (s : string) :
  Py.all_digits s = true ->
  validate s = Ok (luhn_sum (Py.reversed s) false mod 10 =? 0).
Proof.
  intros H. unfold validate. rewrite luhn_loop_sum.
  - reflexivity.
  - unfold Py.reversed, Py.all_digits in *. by rewrite forallb_rev.
Qed.

Lemma calculate_check_digit_sum (s : string) :
  Py.all_digits s = true ->
  calculate_check_digit s
  = Ok (Py.str ((10 - luhn_sum (Py.reversed s) true mod 10) mod 10)).
Proof.
  intros H. unfold calculate_check_digit. rewrite luhn_loop_sum.
  - reflexivity.
  - unfold Py.reversed, Py.all_digits in *. by rewrite forallb_rev.
Qed.

Lemma luhn_term_range (b : bool) (d : Z) :
  0 <= d <= 9 -> 0 <= luhn_term b d <= 9.
Proof.
  intros H. unfold luhn_term.
  destruct b; [destruct (Z.gtb_spec (d * 2) 9)|]; lia.
Qed.

(** Doubling with the digit sum is one-to-one on the ten digits. *)
Lemma luhn_term_inj (b : bool) (d d' : Z) :
  0 <= d <= 9 -> 0 <= d' <= 9 ->
  (luhn_term b d - luhn_term b d') mod 10 = 0 -> d = d'.
Proof.
  intros H H'. unfold luhn_term.
  destruct b; [destruct (Z.gtb_spec (d * 2) 9), (Z.gtb_spec (d' * 2) 9)|]; lia.
Qed.

Lemma digit_value_inj (c c' : ascii) (d : Z) :
  Py.digit_value c = Some d -> Py.digit_value c' = Some d -> c = c'.
Proof.
  unfold Py.digit_value.
  destruct (_ && _); [|done]. destruct (_ && _); [|done].
  intros [= H1] [= H2].
  rewrite <- (ascii_N_embedding c), <- (ascii_N_embedding c'). f_equal. lia.
Qed.

Lemma reversed_cons_app (a : string) (c : ascii) (b : string) :
  Py.reversed (a +:+ String c b)
  = (Py.reversed b ++ c :: Py.reversed a)%list.
Proof.
  unfold Py.reversed. rewrite chars_app.
  change (Py.chars (String c b)) with (c :: Py.chars b).
  rewrite rev_app_distr. cbn [rev]. by rewrite <- app_assoc.
Qed.

End LuhnMore.

(** X1.  A number of digits with one more digit appended is valid for
    exactly one choice of that digit: the one [calculate_check_digit]
    returns. *)
Theorem check_digit_unique (s : string) (c : ascii) :
  Py.all_digits s = true -> Py.is_digit c = true ->
  LuhnValidator.validate (s +:+ String c "") = Ok true
  <-> LuhnValidator.calculate_check_digit s = Ok (String c "").
Proof.
  intros Hs Hc.
  pose proof Hc as Hc'. apply is_digit_value in Hc' as (d & Hd & Hr).
  rewrite validate_sum
    by (by rewrite all_digits_app, Hs, all_digits_cons, Hc).
  rewrite calculate_check_digit_sum by done.
  rewrite reversed_cons_app. change (Py.reversed "") with (@nil ascii).
  cbn [app luhn_sum]. rewrite Hd. cbn [Py.get luhn_term negb].
  set (t := luhn_sum (Py.reversed s) true).
  assert (0 <= (10 - t mod 10) mod 10 <= 9) as Hk by lia.
  destruct (str_digit _ Hk) as [Es Ev]. rewrite Es.
  split.
  - intros [= E]. apply Z.eqb_eq in E. do 2 f_equal.
    apply (digit_value_inj _ _ d); [|done].
    rewrite Ev. f_equal. lia.
  - intros [= E]. rewrite <- E in Hd. rewrite Ev in Hd. injection Hd as Hd.
    do 2 f_equal. apply Z.eqb_eq. lia.
Qed.

Lemma check_digit_unique_witness :
  LuhnValidator.validate ("7992739871" +:+ String "3" "") = Ok true.
Proof.
  apply (check_digit_unique "7992739871" "3"%char); reflexivity.
Defined.

Section LuhnErrors.

Import LuhnValidator.

Lemma validate_cons_app (a b : string) (c : ascii) (d : Z) :
  Py.all_digits a = true -> Py.all_digits b = true ->
  Py.digit_value c = Some d ->
  validate (a +:+ String c b)
  = Ok ((luhn_sum (Py.reversed b) false
         + (luhn_term (Nat.odd (String.length b)) d
            + luhn_sum (Py.reversed a)
                (negb (Nat.odd (String.length b))))) mod 10 =? 0).
Proof.
  intros Ha Hb Hd.
  assert (Py.is_digit c = true) as Hc by (unfold Py.is_digit; by rewrite Hd).
  rewrite validate_sum
    by (by rewrite all_digits_app, Ha, all_digits_cons, Hc, Hb).
  rewrite reversed_cons_app, luhn_sum_app. cbn [luhn_sum]. rewrite Hd.
  cbn [Py.get]. unfold Py.reversed at 2 4. rewrite length_rev, chars_length.
  by destruct (Nat.odd _).
Qed.

(** A string of decimal digits is an ASCII string. *)
Lemma all_digits_isascii (s : string) :
  Py.all_digits s = true -> Py.isascii s = true.
Proof.
  unfold Py.all_digits, Py.isascii.
  induction (Py.chars s) as [|c l IH]; [done|]. cbn [forallb].
  intros H. apply andb_true_iff in H as [Hc Hl]. rewrite (IH Hl), andb_true_r.
  unfold Py.is_digit, Py.digit_value in Hc. unfold Py.is_ascii_char.
  destruct (_ && _) eqn:E; [|done]. apply N.ltb_lt. lia.
Qed.

End LuhnErrors.

(** X2.  The Luhn validation detects every substitution of one digit: a
    valid number with one digit replaced by a different digit is never
    valid. *)
Theorem validate_detects_substitution (a b : string) (c c' : ascii) :
  Py.all_digits a = true -> Py.all_digits b = true ->
  Py.is_digit c = true -> Py.is_digit c' = true -> c <> c' ->
  LuhnValidator.validate (a +:+ String c b) = Ok true ->
  LuhnValidator.validate (a +:+ String c' b) = Ok false.
Proof.
  intros Ha Hb Hc Hc' Hne.
  apply is_digit_value in Hc as (d & Hd & Hr).
  apply is_digit_value in Hc' as (d' & Hd' & Hr').
  rewrite (validate_cons_app a b c d), (validate_cons_app a b c' d') by done.
  intros [= E]. f_equal. apply Z.eqb_eq in E. apply Z.eqb_neq. intros E'.
  apply Hne, (digit_value_inj _ _ d); [done|]. rewrite Hd'. f_equal.
  symmetry. apply (luhn_term_inj (Nat.odd (String.length b))); [done..|].
  set (x := luhn_term _ d) in *. set (y := luhn_term _ d') in *.
  clearbody x y. lia.
Qed.

Lemma validate_detects_substitution_witness :
  LuhnValidator.validate ("7992" +:+ String "8" "398713") = Ok false.
Proof.
  apply (validate_detects_substitution "7992" "398713" "7"%char "8"%char);
    (reflexivity || discriminate).
Defined.

(** X3.  Exchanging two neighbouring digits of a valid number gives an
    invalid number, except for the pair 0 and 9 (and equal digits), whose
    exchange the validation cannot see. *)
Theorem validate_detects_transposition (a b : string) (x y : ascii) :
  Py.all_digits a = true -> Py.all_digits b = true ->
  Py.is_digit x = true -> Py.is_digit y = true ->
  LuhnValidator.validate (a +:+ String x (String y b)) = Ok true ->
  LuhnValidator.validate (a +:+ String y (String x b))
  = Ok (Ascii.eqb x y
        || String.eqb (String x (String y "")) "09"
        || String.eqb (String x (String y "")) "90").
Proof.
  intros Ha Hb Hx Hy.
  pose proof Hx as Hx'. pose proof Hy as Hy'.
  apply is_digit_value in Hx' as (dx & Hdx & Hrx).
  apply is_digit_value in Hy' as (dy & Hdy & Hry).
  assert (forall u v : ascii, Py.is_digit v = true ->
            Py.all_digits (String u (String v b)) = Py.is_digit u) as Hall.
  { intros u v Hv. rewrite !all_digits_cons, Hv, Hb. by destruct (Py.is_digit u). }
  assert (forall u v du dv,
    Py.digit_value u = Some du -> Py.digit_value v = Some dv ->
    LuhnValidator.validate (a +:+ String u (String v b))
    = Ok ((luhn_sum (Py.reversed b) false
           + (luhn_term (Nat.odd (String.length b)) dv
              + (luhn_term (negb (Nat.odd (String.length b))) du
              + luhn_sum (Py.reversed a) (Nat.odd (String.length b)))))
          mod 10 =? 0)) as Hval.
  { intros u v du dv Hu Hv.
    assert (Py.is_digit u = true) as Hiu by (unfold Py.is_digit; by rewrite Hu).
    assert (Py.is_digit v = true) as Hiv by (unfold Py.is_digit; by rewrite Hv).
    rewrite validate_sum
      by (by rewrite all_digits_app, Ha, Hall, Hiu).
    change (String u (String v b)) with (String u "" +:+ String v b).
    rewrite <- app_assoc_string, reversed_cons_app, luhn_sum_app.
    cbn [luhn_sum]. rewrite Hv. cbn [Py.get].
    rewrite reversed_cons_app. change (Py.reversed "") with (@nil ascii).
    cbn [app luhn_sum]. rewrite Hu. cbn [Py.get].
    assert (length (Py.reversed b) = String.length b) as Hlen
      by (unfold Py.reversed; by rewrite length_rev, chars_length).
    rewrite !Hlen. destruct (Nat.odd _); cbn [xorb negb]; reflexivity. }
  rewrite (Hval x y dx dy), (Hval y x dy dx) by done.
  intros [= E]. f_equal. apply Z.eqb_eq in E.
  assert (Ascii.eqb x y
          || String.eqb (String x (String y "")) "09"
          || String.eqb (String x (String y "")) "90"
          = (dx =? dy) || ((dx =? 0) && (dy =? 9)) || ((dx =? 9) && (dy =? 0)))
    as ->.
  { clear -Hdx Hdy Hrx Hry.
    assert (forall (u : ascii) (du k : Z), Py.digit_value u = Some du ->
              0 <= k <= 9 ->
              Ascii.eqb u (ascii_of_N (Z.to_N (k + 48))) = (du =? k)) as Hk.
    { intros u du k Hu Hk. destruct (Z.eqb_spec du k) as [->|Hn].
      - apply Ascii.eqb_eq. apply (digit_value_inj _ _ k); [done|].
        unfold Py.digit_value. rewrite N_ascii_embedding by lia.
        replace (Z.of_N (Z.to_N (k + 48))) with (k + 48) by lia.
        replace (k + 48 - 48) with k by lia.
        assert ((48 <=? k + 48) && (k + 48 <=? 57) = true) as -> by lia.
        done.
      - apply Ascii.eqb_neq. intros ->. apply Hn.
        unfold Py.digit_value in Hu. rewrite N_ascii_embedding in Hu by lia.
        destruct (_ && _); [|done]. injection Hu as <-. lia. }
    cbn [String.eqb].
    pose proof (Hk x dx 0 Hdx ltac:(lia)) as Hx0.
    pose proof (Hk x dx 9 Hdx ltac:(lia)) as Hx9.
    pose proof (Hk y dy 0 Hdy ltac:(lia)) as Hy0.
    pose proof (Hk y dy 9 Hdy ltac:(lia)) as Hy9.
    change (ascii_of_N (Z.to_N (0 + 48))) with "0"%char in Hx0, Hy0.
    change (ascii_of_N (Z.to_N (9 + 48))) with "9"%char in Hx9, Hy9.
    rewrite Hx0, Hx9, Hy0, Hy9. clear Hk Hx0 Hx9 Hy0 Hy9.
    assert (Ascii.eqb x y = (dx =? dy)) as ->.
    { destruct (Z.eqb_spec dx dy) as [->|Hn].
      - apply Ascii.eqb_eq. by apply (digit_value_inj _ _ dy).
      - apply Ascii.eqb_neq. intros ->. congruence. }
    by destruct (dx =? dy), (dx =? 0), (dx =? 9), (dy =? 0), (dy =? 9). }
  set (s1 := luhn_sum (Py.reversed b) false) in *.
  set (s2 := luhn_sum (Py.reversed a) _) in *.
  set (f := Nat.odd _) in *. clearbody s1 s2 f.
  unfold luhn_term in *.
  destruct f; cbn [negb] in *;
    destruct (Z.gtb_spec (dx * 2) 9), (Z.gtb_spec (dy * 2) 9); lia.
Qed.

Lemma validate_detects_transposition_witness :
  LuhnValidator.validate ("7992" +:+ String "3" (String "7" "98713"))
  = Ok false.
Proof.
  apply (validate_detects_transposition "7992" "98713" "7"%char "3"%char);
    reflexivity.
Defined.

(** X4.  On ASCII strings both operations of the validator raise
    [ValueError] exactly when the input has a character that is not a
    decimal digit; on digits (the empty string included) the check digit
    is one digit and the validation answers. *)
Theorem luhn_value_error (s : string) :
  (Py.all_digits s = true ->
     (exists c, LuhnValidator.calculate_check_digit s = Ok c
                /\ String.length c = 1%nat /\ Py.all_digits c = true)
     /\ exists valid, LuhnValidator.validate s = Ok valid)
  /\ (Py.isascii s = true -> Py.all_digits s = false ->
        LuhnValidator.calculate_check_digit s = Raise ValueError
        /\ LuhnValidator.validate s = Raise ValueError).
Proof.
  split; [intros H | intros _ H].
  - split.
    + destruct (validate_with_check_digit s H) as (c & E & Hl & Hd & _).
      by exists c.
    + rewrite validate_sum by done. eauto.
  - split; [by apply calculate_check_digit_not_digits|].
    unfold LuhnValidator.validate. rewrite luhn_loop_not_digits; [done|].
    unfold Py.reversed, Py.all_digits in *. by rewrite forallb_rev.
Qed.

Lemma luhn_value_error_witness :
  ((exists c, LuhnValidator.calculate_check_digit "" = Ok c
              /\ String.length c = 1%nat /\ Py.all_digits c = true)
   /\ exists valid, LuhnValidator.validate "" = Ok valid)
  /\ LuhnValidator.calculate_check_digit "4111 1111" = Raise ValueError
     /\ LuhnValidator.validate "4111 1111" = Raise ValueError.
Proof.
  split.
  - apply (proj1 (luhn_value_error "")). reflexivity.
  - apply (proj2 (luhn_value_error "4111 1111")); reflexivity.
Defined.

(* ===================================================================== *)
(** * Further properties: the bank seed and the Markov chain *)
(* ===================================================================== *)

(** X5.  On a bank name of ASCII characters [hash_bank_name] does not
    raise: the name has a UTF-8 encoding, and the first eight characters of
    an MD5 hex digest are always a hexadecimal literal.  Its seed is one of
    0..99, and 0 for the two names it does not hash. *)
Theorem hash_bank_name_seed (bank_name : string) :
  Py.isascii bank_name = true ->
  (exists seed, CardGenerator.hash_bank_name bank_name = Ok seed
                /\ 0 <= seed < 100)
  /\ CardGenerator.hash_bank_name "" = Ok 0
  /\ CardGenerator.hash_bank_name "Unknown" = Ok 0.
Proof.
  intros _. split; [apply hash_bank_name_ok|]. split; reflexivity.
Qed.

Lemma hash_bank_name_seed_witness :
  (exists seed, CardGenerator.hash_bank_name "Chase Bank" = Ok seed
                /\ 0 <= seed < 100)
  /\ CardGenerator.hash_bank_name "" = Ok 0
  /\ CardGenerator.hash_bank_name "Unknown" = Ok 0.
Proof. apply (hash_bank_name_seed "Chase Bank"). reflexivity. Defined.

Section MarkovMore.

Import MarkovChainGenerator.

Lemma int_not_digit (c : ascii) :
  Py.is_digit c = false -> Py.int (String c "") = Raise ValueError.
Proof.
  destruct c as [[] [] [] [] [] [] [] []]; intros H; try discriminate H;
    vm_compute; reflexivity.
Qed.

Lemma reaches_all :
  forallb (fun previous => forallb (reaches previous) (range_from 0 10))
    (range_from 0 10) = true.
Proof. vm_compute. reflexivity. Qed.

End MarkovMore.

(** X6.  After a sequence whose last character is an ASCII character
    other than a decimal digit [get_next_digit] raises [ValueError] before
    it draws; after the empty sequence or a last digit it takes exactly one
    draw and returns one of 0..9. *)
Theorem get_next_digit_draws (s : string) (c : ascii) (g : Random.generator) :
  (Py.is_ascii_char c = true -> Py.is_digit c = false ->
     MarkovChainGenerator.get_next_digit (s +:+ String c "") g
     = (Raise ValueError, g))
  /\ (Py.is_digit c = true ->
        exists digit g',
          MarkovChainGenerator.get_next_digit (s +:+ String c "") g
          = (Ok digit, g')
          /\ 0 <= digit <= 9
          /\ Random.cursor g' = S (Random.cursor g)
          /\ Random.source g' = Random.source g)
  /\ exists digit g',
       MarkovChainGenerator.get_next_digit "" g = (Ok digit, g')
       /\ 0 <= digit <= 9
       /\ Random.cursor g' = S (Random.cursor g)
       /\ Random.source g' = Random.source g.
Proof.
  split; [|split].
  - intros _ H. unfold MarkovChainGenerator.get_next_digit.
    rewrite eqb_app_last, item_last.
    unfold mbind, M_bind, Random.bind, Random.lift.
    by rewrite int_not_digit.
  - intros H. destruct (get_next_digit_digit s c g H) as (d & E & Hd).
    exists d, (snd (Random.raw g)). by rewrite E.
  - rewrite get_next_digit_empty. eexists _, _. split; [reflexivity|].
    split; [lia | done].
Qed.

Lemma get_next_digit_draws_witness :
  MarkovChainGenerator.get_next_digit ("12" +:+ String "x" "")
    (Random.replay [7%N])
  = (Raise ValueError, Random.replay [7%N])
  /\ exists digit g',
       MarkovChainGenerator.get_next_digit ("12" +:+ String "3" "")
         (Random.replay [7%N]) = (Ok digit, g')
       /\ 0 <= digit <= 9
       /\ Random.cursor g' = S (Random.cursor (Random.replay [7%N]))
       /\ Random.source g' = Random.source (Random.replay [7%N]).
Proof.
  split.
  - apply (proj1 (get_next_digit_draws "12" "x"%char (Random.replay [7%N])));
      reflexivity.
  - apply (proj1 (proj2
      (get_next_digit_draws "12" "3"%char (Random.replay [7%N])))).
    reflexivity.
Defined.

(** X7.  No transition of the chain is closed: after any digit, every
    digit of 0..9 is returned for some draw. *)
Theorem get_next_digit_reaches (s : string) (c : ascii) (next : Z) :
  Py.is_digit c = true -> 0 <= next <= 9 ->
  exists (draw : N) (g' : Random.generator),
    MarkovChainGenerator.get_next_digit (s +:+ String c "")
      (Random.replay [draw]) = (Ok next, g').
Proof.
  intros Hc Hn.
  pose proof (is_digit_value c Hc) as (previous & Hp & Hr).
  exists (draw_for previous next).
  destruct (get_next_digit_after_digit s c
              (Random.replay [draw_for previous next]) Hc)
    as (v & row & Hv & Hrow & E).
  assert (v = previous) by congruence. subst v.
  eexists. rewrite E. f_equal.
  change (Random.source _ _) with (draw_for previous next).
  pose proof reaches_all as H.
  rewrite forallb_forall in H.
  assert (In previous (range_from 0 10)) as Hin.
  { assert (previous = 0 \/ previous = 1 \/ previous = 2 \/ previous = 3
            \/ previous = 4 \/ previous = 5 \/ previous = 6 \/ previous = 7
            \/ previous = 8 \/ previous = 9) as Hc' by lia.
    clear -Hc'. repeat destruct Hc' as [Hc'|Hc']; subst; vm_compute; tauto. }
  specialize (H _ Hin). rewrite forallb_forall in H.
  assert (In next (range_from 0 10)) as Hin'.
  { assert (next = 0 \/ next = 1 \/ next = 2 \/ next = 3
            \/ next = 4 \/ next = 5 \/ next = 6 \/ next = 7
            \/ next = 8 \/ next = 9) as Hc' by lia.
    clear -Hc'. repeat destruct Hc' as [Hc'|Hc']; subst; vm_compute; tauto. }
  specialize (H _ Hin'). unfold reaches in H. rewrite Hrow in H.
  destruct (MarkovChainGenerator.scan _ _ _ _); [|done].
  f_equal. by apply Z.eqb_eq.
Qed.

Lemma get_next_digit_reaches_witness :
  exists (draw : N) (g' : Random.generator),
    MarkovChainGenerator.get_next_digit ("40" +:+ String "7" "")
      (Random.replay [draw]) = (Ok 7, g').
Proof.
  apply (get_next_digit_reaches "40" "7"%char 7); [reflexivity | lia].
Defined.

(* ===================================================================== *)
(** * Further properties: generate_account_segment *)
(* ===================================================================== *)

Section AccountSegmentMore.

Import CardGenerator.

(** The Markov loop takes one draw for each digit it appends. *)
Lemma markov_digits_draws (count : nat) (segment : string)
    (g : Random.generator) :
  segment <> "" -> Py.all_digits segment = true ->
  exists middle g',
    markov_digits count segment g = (Ok (segment +:+ middle), g')
    /\ String.length middle = count /\ Py.all_digits middle = true
    /\ Random.cursor g' = (Random.cursor g + count)%nat
    /\ Random.source g' = Random.source g.
Proof.
  revert segment g. induction count as [|count IH]; intros segment g Hne Hd.
  - exists "", g. rewrite app_empty_r, Nat.add_0_r. done.
  - destruct (split_last_char segment Hne) as (p & c & ->).
    assert (Py.is_digit c = true) as Hc.
    { rewrite all_digits_app, all_digits_cons in Hd.
      apply andb_true_iff in Hd as [_ Hd].
      by apply andb_true_iff in Hd as [Hd _]. }
    destruct (get_next_digit_digit p c g Hc) as (d & E & Hr).
    cbn [markov_digits]. rewrite (bind_ok _ _ _ _ _ E).
    destruct (str_digit d Hr) as [Es Ev]. rewrite Es.
    destruct (IH ((p +:+ String c "") +:+ String (Py.digit_char d) "")
                 (snd (Random.raw g)))
      as (middle & g' & E' & Hl & Hm & Hcur & Hsrc).
    { destruct p; done. }
    { by rewrite all_digits_app, Hd, all_digits_cons, is_digit_char. }
    exists (String (Py.digit_char d) middle), g'.
    rewrite E', app_assoc_string. cbn [String.length].
    repeat split; [by rewrite Hl | | |done].
    + by rewrite all_digits_cons, is_digit_char, Hm.
    + rewrite Hcur. cbn. lia.
Qed.

End AccountSegmentMore.

(** X8.  When the last digits of the BIN convert, the account segment is
    the branch code, the Markov digits and the sequence number, in this
    order: the branch code is the sum of the BIN's last four digits and the
    bank seed modulo 100 on two digits, whatever is drawn; there are
    [length - 4] Markov digits, none when that is negative; the sequence
    number is one of 10..99; and one draw is taken for each Markov digit and
    one for the sequence number. *)
Theorem generate_account_segment_parts (length : Z)
    (bin_code bank_name : string) (g : Random.generator) (last_4 seed : Z) :
  Py.int (bin_last_4 bin_code) = Ok last_4 ->
  CardGenerator.hash_bank_name bank_name = Ok seed ->
  exists (middle : string) (sequence : Z) (g' : Random.generator),
    CardGenerator.generate_account_segment length bin_code bank_name g
    = (Ok ((Py.zfill 2 (Py.str ((last_4 + seed) mod 100)) +:+ middle)
           +:+ Py.str sequence), g')
    /\ String.length (Py.zfill 2 (Py.str ((last_4 + seed) mod 100))) = 2%nat
    /\ String.length middle = Z.to_nat (length - 4)
    /\ Py.all_digits middle = true
    /\ 10 <= sequence <= 99
    /\ Random.cursor g' = (Random.cursor g + Z.to_nat (length - 4) + 1)%nat.
Proof.
  intros E Eseed.
  unfold CardGenerator.generate_account_segment. fold (bin_last_4 bin_code).
  rewrite Eseed, bind_lift, E, bind_lift, app_nil.
  destruct (zfill_str_two_digits ((last_4 + seed) mod 100)) as [Hl2 Hd2];
    [lia|].
  set (branch := Py.zfill 2 (Py.str ((last_4 + seed) mod 100))) in *.
  destruct (markov_digits_draws (Z.to_nat (length - 4)) branch g)
    as (middle & g1 & Em & Hlm & Hdm & Hcur & Hsrc);
    [by destruct branch | done |].
  rewrite (bind_ok _ _ _ _ _ Em).
  destruct (randint_10_99 g1) as (sequence & Es & Hs).
  rewrite (bind_ok _ _ _ _ _ Es).
  exists middle, sequence, (snd (Random.raw g1)).
  repeat split; try done; try lia.
  cbn. lia.
Qed.

Lemma generate_account_segment_parts_witness :
  exists (middle : string) (sequence : Z) (g' : Random.generator),
    CardGenerator.generate_account_segment 9 "453211" "Chase Bank"
      (Random.replay [1; 2; 3; 4; 5; 6]%N)
    = (Ok ((Py.zfill 2 (Py.str ((3211 + 10) mod 100)) +:+ middle)
           +:+ Py.str sequence), g')
    /\ String.length (Py.zfill 2 (Py.str ((3211 + 10) mod 100))) = 2%nat
    /\ String.length middle = Z.to_nat (9 - 4)
    /\ Py.all_digits middle = true
    /\ 10 <= sequence <= 99
    /\ Random.cursor g'
       = (Random.cursor (Random.replay [1; 2; 3; 4; 5; 6]%N)
          + Z.to_nat (9 - 4) + 1)%nat.
Proof.
  apply (generate_account_segment_parts 9 "453211" "Chase Bank"
           (Random.replay [1; 2; 3; 4; 5; 6]%N) 3211 10);
    vm_compute; reflexivity.
Defined.

(* ===================================================================== *)
(** * Further properties: generate_cvv *)
(* ===================================================================== *)

Section CvvMore.

Import CardGenerator.

Lemma upto_length (n : nat) (s : string) :
  String.length (Py.upto (Z.of_nat n) s) = Nat.min n (String.length s).
Proof. by rewrite upto_chars, of_chars_length, length_firstn, chars_length. Qed.

Lemma cvv_value_three (pseudo_random cvv_length : Z) :
  cvv_length <> 4 -> 100 <= cvv_value pseudo_random cvv_length <= 999.
Proof.
  intros H. unfold cvv_value.
  destruct (Z.eqb_spec cvv_length 4); [done|]. destruct (is_in _ _); lia.
Qed.

Lemma three_digits (v : Z) :
  100 <= v <= 999 ->
  String.length (Py.str v) = 3%nat /\ Py.all_digits (Py.str v) = true
  /\ Py.upto 3 (Py.str v) = Py.str v.
Proof.
  intros H.
  pose proof (forallb_range _ 100 900 str_three_digits v ltac:(lia)) as Hc.
  apply cvv_check_spec in Hc. cbv zeta in Hc.
  destruct Hc as (H1 & H2 & _ & H4 & _). repeat split; [lia | done..].
Qed.

Lemma four_digits (v : Z) :
  1000 <= v <= 9999 ->
  String.length (Py.str v) = 4%nat /\ Py.all_digits (Py.str v) = true
  /\ Py.upto 4 (Py.str v) = Py.str v.
Proof.
  intros H.
  pose proof (forallb_range _ 1000 9000 str_four_digits v ltac:(lia)) as Hc.
  apply cvv_check_spec in Hc. cbv zeta in Hc.
  destruct Hc as (H1 & H2 & _ & H4 & _). repeat split; [lia | done..].
Qed.

End CvvMore.

(** X9.  The CVV is a function of the sum of the number's last four digits
    and the expiry digits modulo 233280, and of nothing else: two cards
    whose sums agree modulo 233280 get the same CVV, whatever the rest of
    their numbers. *)
Theorem generate_cvv_collision (card_number card_number' : string)
    (expiry_date expiry_date' : string) (cvv_length : Z)
    (last_4 expiry last_4' expiry' : Z) :
  Py.int (Py.from (-4) card_number) = Ok last_4 ->
  Py.int (Py.remove_char "/" expiry_date) = Ok expiry ->
  Py.int (Py.from (-4) card_number') = Ok last_4' ->
  Py.int (Py.remove_char "/" expiry_date') = Ok expiry' ->
  (last_4 + expiry) mod 233280 = (last_4' + expiry') mod 233280 ->
  CardGenerator.generate_cvv card_number expiry_date cvv_length
  = CardGenerator.generate_cvv card_number' expiry_date' cvv_length.
Proof.
  intros E1 E2 E1' E2' H.
  rewrite (generate_cvv_value _ _ _ _ _ E1 E2),
          (generate_cvv_value _ _ _ _ _ E1' E2').
  do 4 f_equal.
  set (s := last_4 + expiry) in *. set (s' := last_4' + expiry') in *.
  clearbody s s'. lia.
Qed.

Lemma generate_cvv_collision_witness :
  CardGenerator.generate_cvv "4532110000000001" "12/28" 3
  = CardGenerator.generate_cvv "5329590000000002" "12/27" 3.
Proof.
  apply (generate_cvv_collision _ _ _ _ 3 1 1228 2 1227); reflexivity.
Defined.

(** X10.  Which CVVs stay weak.  With the pseudo-random number
    [((last_4 + expiry) * 9301 + 49297) mod 233280], the three-digit CVV
    returned starts with a weak pattern exactly when that number is 788 or
    899 modulo 900, and the four-digit CVV exactly when it is one of
    7880..7885 or 8990..8995 modulo 9000. *)
Theorem generate_cvv_weak_exactly (card_number expiry_date : string)
    (last_4 expiry : Z) :
  Py.int (Py.from (-4) card_number) = Ok last_4 ->
  Py.int (Py.remove_char "/" expiry_date) = Ok expiry ->
  let pseudo_random := ((last_4 + expiry) * 9301 + 49297) mod 233280 in
  (exists cvv,
     CardGenerator.generate_cvv card_number expiry_date 3 = Ok cvv
     /\ CardGenerator.is_in (Py.upto 3 cvv) CardGenerator.weak_patterns
        = (pseudo_random mod 900 =? 788) || (pseudo_random mod 900 =? 899))
  /\ (exists cvv,
        CardGenerator.generate_cvv card_number expiry_date 4 = Ok cvv
        /\ CardGenerator.is_in (Py.upto 3 cvv) CardGenerator.weak_patterns
           = ((7880 <=? pseudo_random mod 9000)
              && (pseudo_random mod 9000 <=? 7885))
             || ((8990 <=? pseudo_random mod 9000)
                 && (pseudo_random mod 9000 <=? 8995))).
Proof.
  intros E1 E2 pseudo_random.
  rewrite !(generate_cvv_value _ _ _ _ _ E1 E2). fold pseudo_random.
  destruct (cvv_value_weak pseudo_random) as [H3 H4]. cbv zeta in H3, H4.
  destruct (cvv_value_range pseudo_random 3) as [R3 _].
  destruct (cvv_value_range pseudo_random 4) as [_ R4].
  destruct (three_digits _ (R3 eq_refl)) as (_ & _ & U3).
  destruct (four_digits _ (R4 eq_refl)) as (_ & _ & U4).
  split; eexists; (split; [reflexivity|]).
  - rewrite U3. exact H3.
  - rewrite U4. exact H4.
Qed.

Lemma generate_cvv_weak_exactly_witness :
  exists cvv,
    CardGenerator.generate_cvv "5329595900090723" "03/28" 3 = Ok cvv
    /\ CardGenerator.is_in (Py.upto 3 cvv) CardGenerator.weak_patterns = true.
Proof.
  exact (proj1 (generate_cvv_weak_exactly "5329595900090723" "03/28"
                  723 328 eq_refl eq_refl)).
Defined.

(** X11.  A CVV length other than 4 is served as 3: the value is one of
    100..999, and the CVV is its three digits cut to [cvv_length]
    characters, so a table entry asking for five digits gets three. *)
Theorem generate_cvv_other_length (card_number expiry_date : string)
    (cvv_length last_4 expiry : Z) :
  Py.int (Py.from (-4) card_number) = Ok last_4 ->
  Py.int (Py.remove_char "/" expiry_date) = Ok expiry ->
  cvv_length <> 4 -> 0 <= cvv_length ->
  exists value cvv,
    100 <= value <= 999
    /\ CardGenerator.generate_cvv card_number expiry_date cvv_length = Ok cvv
    /\ cvv = Py.upto cvv_length (Py.str value)
    /\ Py.len cvv = Z.min cvv_length 3.
Proof.
  intros E1 E2 Hn Hp.
  rewrite (generate_cvv_value _ _ _ _ _ E1 E2).
  set (v := cvv_value _ _).
  pose proof (cvv_value_three (((last_4 + expiry) * 9301 + 49297) mod 233280)
                cvv_length Hn) as Hv.
  fold v in Hv. destruct (three_digits v Hv) as (Hl & _ & _).
  exists v, (Py.upto cvv_length (Py.str v)). repeat split; [lia..|].
  unfold Py.len. rewrite <- (Z2Nat.id cvv_length) at 1 by done.
  rewrite upto_length, Hl. lia.
Qed.

Lemma generate_cvv_other_length_witness :
  exists value cvv,
    100 <= value <= 999
    /\ CardGenerator.generate_cvv "4532110000000001" "12/28" 5 = Ok cvv
    /\ cvv = Py.upto 5 (Py.str value)
    /\ Py.len cvv = Z.min 5 3.
Proof.
  apply (generate_cvv_other_length "4532110000000001" "12/28" 5 1 1228);
    (reflexivity || lia).
Defined.

(* ===================================================================== *)
(** * Further properties: generate_expiry_date *)
(* ===================================================================== *)

Section ExpiryMore.

Import CardGenerator.

(** [generate_expiry_date] takes three draws, also when it raises. *)
Lemma generate_expiry_date_draws (now : Datetime.datetime)
    (g : Random.generator) :
  exists (years month : Z) (g' : Random.generator),
    2 <= years <= 6 /\ 1 <= month <= 12
    /\ Random.cursor g' = (Random.cursor g + 3)%nat
    /\ Random.source g' = Random.source g
    /\ generate_expiry_date now g
       = match Datetime.add_days now (365 * years) with
         | Ok expiry_date =>
             (Ok (Py.format_02d month +:+ "/"
                  +:+ Py.format_02d (Datetime.year expiry_date mod 100)), g')
         | Raise e => (Raise e, g')
         end.
Proof.
  unfold generate_expiry_date.
  set (g1 := snd (Random.raw g)).
  set (rand := Random.unit_float (Random.source g (Random.cursor g))).
  assert (Random.random g = (Ok rand, g1)) as E1 by reflexivity.
  rewrite (bind_ok _ _ _ _ _ E1).
  set (g2 := snd (Random.raw g1)).
  set (coin := Random.unit_float (Random.source g1 (Random.cursor g1))).
  assert (Random.random g1 = (Ok coin, g2)) as E2 by reflexivity.
  rewrite (bind_ok _ _ _ _ _ E2).
  assert (exists month,
    (if PrimFloat.ltb coin 0.8%float then Random.choice common_months
     else Random.randint 1 12) g2 = (Ok month, snd (Random.raw g2))
    /\ 1 <= month <= 12) as (month & E3 & Hm).
  { destruct (PrimFloat.ltb coin _);
      [apply choice_common_months | apply randint_1_12]. }
  rewrite (bind_ok _ _ _ _ _ E3), bind_lift.
  exists (pick_years year_weights rand 0%float 3), month, (snd (Random.raw g2)).
  split; [apply pick_years_range|]. split; [done|].
  split; [cbn; lia|]. split; [done|].
  destruct (Datetime.add_days _ _); reflexivity.
Qed.

End ExpiryMore.

(** X12.  A card is never expired when it is made.  From a date whose
    expiry dates exist, [generate_expiry_date] returns MM/YY where YY is
    the last two digits of a year strictly after the current year and at
    most six years after it, and it takes exactly three draws. *)
Theorem generate_expiry_date_future
    (now : Datetime.datetime) (g : Random.generator) :
  Datetime.valid now = true ->
  Datetime.toordinal now + 365 * 6 <= Datetime._MAXORDINAL ->
  exists (mm yy : string) (year : Z) (g' : Random.generator),
    CardGenerator.generate_expiry_date now g = (Ok (mm +:+ "/" +:+ yy), g')
    /\ Py.int yy = Ok (year mod 100)
    /\ Datetime.year now + 1 <= year <= Datetime.year now + 6
    /\ Random.cursor g' = (Random.cursor g + 3)%nat.
Proof.
  intros Hv Hmax.
  destruct (generate_expiry_date_draws now g)
    as (years & month & g' & Hy & Hm & Hcur & _ & E).
  pose proof (toordinal_in_year now Hv) as Hord.
  assert (0 <= Datetime._days_before_year (Datetime.year now)) as Hpos.
  { unfold Datetime.valid in Hv.
    repeat (apply andb_true_iff in Hv as [Hv ?]).
    unfold Datetime._days_before_year. lia. }
  assert (Datetime.add_days now (365 * years)
          = Ok (Datetime._ord2ymd (Datetime.toordinal now + 365 * years)))
    as Eadd.
  { unfold Datetime.add_days.
    assert ((0 <? Datetime.toordinal now + 365 * years) = true) as ->
      by (apply Z.ltb_lt; lia).
    assert ((Datetime.toordinal now + 365 * years <=? Datetime._MAXORDINAL)
            = true) as -> by (apply Z.leb_le; lia).
    reflexivity. }
  rewrite Eadd in E.
  set (expiry_date := Datetime._ord2ymd _) in *.
  destruct (year_after now years Hv ltac:(lia)) as [Hyear _].
  fold expiry_date in Hyear.
  destruct (format_02d_two_digits (Datetime.year expiry_date mod 100)
              ltac:(lia)) as (_ & _ & Ei2).
  exists (Py.format_02d month),
    (Py.format_02d (Datetime.year expiry_date mod 100)),
    (Datetime.year expiry_date), g'.
  repeat split; try done; lia.
Qed.

Lemma generate_expiry_date_future_witness :
  exists (mm yy : string) (year : Z) (g' : Random.generator),
    CardGenerator.generate_expiry_date
      {| Datetime.year := 2024; Datetime.month := 1; Datetime.day := 1 |}
      (Random.replay [])
    = (Ok (mm +:+ "/" +:+ yy), g')
    /\ Py.int yy = Ok (year mod 100)
    /\ 2024 + 1 <= year <= 2024 + 6
    /\ Random.cursor g' = (0 + 3)%nat.
Proof.
  apply (generate_expiry_date_future
    {| Datetime.year := 2024; Datetime.month := 1; Datetime.day := 1 |}
    (Random.replay [])).
  - reflexivity.
  - vm_compute. discriminate.
Defined.

(* ===================================================================== *)
(** * Further properties: generate_card *)
(* ===================================================================== *)

Section GenerateCardMore.

Import CardGenerator.

(** A completed card carries the expiry date that was generated and the
    CVV computed from the number and that date. *)
Lemma card_of_ok (now : Datetime.datetime) (brand_info : Brand.info)
    (full_card_number : string) (g g' : Random.generator) (card : card) :
  card_of now brand_info full_card_number g = (Ok card, g') ->
  generate_expiry_date now g = (Ok (expiryDate card), g')
  /\ generate_cvv full_card_number (expiryDate card)
       (Py.get (Brand.cvvLength brand_info) 3) = Ok (cvv card)
  /\ cardNumber card = full_card_number
  /\ cardNumberFormatted card
     = format_card_number (Py.get (Brand.length brand_info) 16)
         full_card_number
  /\ brand card = Py.get (Brand.brand brand_info) "Unknown"
  /\ bank card = Py.get (Brand.bank brand_info) "Unknown"
  /\ country card = Py.get (Brand.country brand_info) "US"
  /\ countryName card
     = Py.get (Brand.countryName brand_info) "United States".
Proof.
  unfold card_of. intros H.
  destruct (generate_expiry_date now g) as [[expiry_date|e] g1] eqn:E.
  - rewrite (bind_ok _ _ _ _ _ E), bind_lift in H.
    destruct (generate_cvv _ _ _) as [c|e] eqn:Ec; [|discriminate H].
    injection H as <- <-. cbn. by rewrite Ec.
  - rewrite (bind_raise _ _ _ _ _ E) in H. discriminate H.
Qed.

Lemma card_of_raises (now : Datetime.datetime) (brand_info : Brand.info)
    (full_card_number : string) (g g' : Random.generator) (e : exn) :
  Py.all_digits full_card_number = true ->
  (4 <= String.length full_card_number)%nat ->
  card_of now brand_info full_card_number g = (Raise e, g') ->
  e = OverflowError
  /\ exists years, 2 <= years <= 6
       /\ Datetime.add_days now (365 * years) = Raise OverflowError.
Proof.
  intros Hd Hl H.
  destruct (card_of_cases now brand_info full_card_number g Hd Hl)
    as (years & g2 & Hy & [[Ea Ec] | (later & expiry & cvv & _ & Ec)]);
    rewrite Ec in H; [|discriminate H].
  injection H as <- _. split; [done|]. by exists years.
Qed.

End GenerateCardMore.

(** X13.  The ways [generate_card] can fail, for a BIN of ASCII
    characters and a profile whose bank name is of ASCII characters.  When
    it raises, either the exception is [ValueError] and the BIN is empty or
    has a character that is not a decimal digit, or it is [OverflowError],
    the BIN is a non-empty string of digits, and a date 365 days times two
    to six from now does not exist.  So it raises neither [KeyError] nor
    [IndexError], and never exhausts the recursion. *)
Theorem generate_card_raises
    (depth : nat) (database : gmap string Brand.info)
    (now : Datetime.datetime) (bin_code : string) (g g' : Random.generator)
    (e : exn) :
  Py.isascii bin_code = true ->
  (forall brand_info,
     BINDatabase.detect_card_brand database bin_code = Ok brand_info ->
     Py.isascii (Py.get (Brand.bank brand_info) "Unknown") = true) ->
  CardGenerator.generate_card depth database now bin_code g = (Raise e, g') ->
  (e = ValueError /\ (bin_code = "" \/ Py.all_digits bin_code = false))
  \/ (e = OverflowError
      /\ bin_code <> "" /\ Py.all_digits bin_code = true
      /\ exists years, 2 <= years <= 6
           /\ Datetime.add_days now (365 * years) = Raise OverflowError).
Proof.
  intros _ _ H.
  destruct (generate_card_run database now bin_code g)
    as (brand_info & _ & [[Hbin [g1 E]] | (Hne & Hd & segment & check_digit
          & g1 & Hls & Hds & Hlc & Hdc & Ev & E)]).
  - left. rewrite E in H. injection H as <- _. done.
  - right. rewrite E in H.
    apply card_of_raises in H as [-> Hy].
    + done.
    + by rewrite !all_digits_app, Hd, Hds, Hdc.
    + apply full_number_length; [done | lia | done].
Qed.

Lemma generate_card_raises_witness :
  (ValueError = ValueError
   /\ ("45x211" = "" \/ Py.all_digits "45x211" = false))
  \/ (ValueError = OverflowError
      /\ "45x211" <> "" /\ Py.all_digits "45x211" = true
      /\ exists years, 2 <= years <= 6
           /\ Datetime.add_days
                {| Datetime.year := 2026; Datetime.month := 11;
                   Datetime.day := 3 |} (365 * years)
              = Raise OverflowError).
Proof.
  apply (generate_card_raises 0 ∅
    {| Datetime.year := 2026; Datetime.month := 11; Datetime.day := 3 |}
    "45x211" (Random.replay [])
    (snd (CardGenerator.generate_card 0 ∅
            {| Datetime.year := 2026; Datetime.month := 11; Datetime.day := 3 |}
            "45x211" (Random.replay [])))).
  - reflexivity.
  - intros brand_info H. vm_compute in H. injection H as <-. reflexivity.
  - vm_compute. reflexivity.
Defined.

(** X14.  What a returned card holds.  Its brand, bank, country and
    country name are those of the profile [detect_card_brand] finds for the
    BIN, with Unknown, Unknown, US and United States for the keys the
    profile lacks; its display string is the formatting of its own number;
    and its CVV is what [generate_cvv] computes from its own number and
    expiry date, so the CVV uses no draw. *)
Theorem generate_card_record
    (depth : nat) (database : gmap string Brand.info)
    (now : Datetime.datetime) (bin_code : string) (g g' : Random.generator)
    (card : CardGenerator.card) :
  CardGenerator.generate_card depth database now bin_code g = (Ok card, g') ->
  exists brand_info,
    BINDatabase.detect_card_brand database bin_code = Ok brand_info
    /\ CardGenerator.brand card = Py.get (Brand.brand brand_info) "Unknown"
    /\ CardGenerator.bank card = Py.get (Brand.bank brand_info) "Unknown"
    /\ CardGenerator.country card = Py.get (Brand.country brand_info) "US"
    /\ CardGenerator.countryName card
       = Py.get (Brand.countryName brand_info) "United States"
    /\ CardGenerator.cardNumberFormatted card
       = CardGenerator.format_card_number
           (Py.get (Brand.length brand_info) 16)
           (CardGenerator.cardNumber card)
    /\ CardGenerator.generate_cvv (CardGenerator.cardNumber card)
         (CardGenerator.expiryDate card)
         (Py.get (Brand.cvvLength brand_info) 3)
       = Ok (CardGenerator.cvv card).
Proof.
  intros H.
  destruct (generate_card_run database now bin_code g)
    as (brand_info & Eb & [[Hbin [g1 E]] | (Hne & Hd & segment & check_digit
          & g1 & Hls & Hds & Hlc & Hdc & Ev & E)]).
  - rewrite E in H. discriminate H.
  - rewrite E in H. apply card_of_ok in H
      as (_ & Hcvv & Hn & Hf & Hb & Hk & Hc & Hcn).
    exists brand_info. rewrite Hn. done.
Qed.

Lemma generate_card_record_witness :
  exists brand_info,
    BINDatabase.detect_card_brand ∅ "532959" = Ok brand_info
    /\ CardGenerator.generate_cvv "5329595900090723" "03/28"
         (Py.get (Brand.cvvLength brand_info) 3) = Ok "111".
Proof.
  destruct (generate_card_record 0 ∅
    {| Datetime.year := 2026; Datetime.month := 11; Datetime.day := 3 |}
    "532959"
    (Random.replay
       [450359962737049; 360287970189639; 360287970189639;
        8556839292003942; 450359962737049; 62; 0; 0; 0]%N)
    (snd (CardGenerator.generate_card 0 ∅
       {| Datetime.year := 2026; Datetime.month := 11; Datetime.day := 3 |}
       "532959"
       (Random.replay
          [450359962737049; 360287970189639; 360287970189639;
           8556839292003942; 450359962737049; 62; 0; 0; 0]%N)))
    {| CardGenerator.cardNumber := "5329595900090723";
       CardGenerator.cardNumberFormatted := "5329 5959 0009 0723";
       CardGenerator.expiryDate := "03/28";
       CardGenerator.cvv := "111";
       CardGenerator.brand := "Mastercard";
       CardGenerator.bank := "Unknown";
       CardGenerator.country := "US";
       CardGenerator.countryName := "United States" |})
    as (brand_info & Eb & _ & _ & _ & _ & _ & Hcvv).
  - vm_compute. reflexivity.
  - exists brand_info. split; [exact Eb | exact Hcvv].
Defined.

Section Defaults.

Import CardGenerator.

(** The CVV of a number that ends in four digits, for an expiry date as
    [generate_expiry_date] prints it. *)
Lemma generate_cvv_length (full_card_number : string) (month yy cvv_length : Z) :
  Py.all_digits full_card_number = true ->
  (4 <= String.length full_card_number)%nat ->
  1 <= month <= 12 -> 0 <= yy <= 99 ->
  cvv_length = 3 \/ cvv_length = 4 ->
  exists cvv,
    generate_cvv full_card_number
      (Py.format_02d month +:+ "/" +:+ Py.format_02d yy) cvv_length = Ok cvv
    /\ Py.len cvv = cvv_length /\ Py.all_digits cvv = true.
Proof.
  intros Hd Hl Hm Hy Hn.
  destruct (split_last 4 full_card_number Hl) as (p & q & -> & Hq).
  rewrite all_digits_app in Hd. apply andb_true_iff in Hd as [_ Hdq].
  destruct (int_all_digits q) as (a & Ea & _); [by destruct q | done |].
  destruct (format_02d_two_digits month ltac:(lia)) as (Hl1 & Hd1 & _).
  destruct (format_02d_two_digits yy Hy) as (Hl2 & Hd2 & _).
  destruct (int_all_digits (Py.format_02d month +:+ Py.format_02d yy))
    as (b & Eb & _).
  { destruct (Py.format_02d month); [done | by rewrite app_cons]. }
  { by rewrite all_digits_app, Hd1, Hd2. }
  rewrite (generate_cvv_value _ _ cvv_length a b)
    by (by rewrite ?from_last_4, ?remove_slash).
  eexists. split; [reflexivity|].
  destruct (cvv_value_range (((a + b) * 9301 + 49297) mod 233280) cvv_length)
    as [H3 H4].
  unfold Py.len. destruct Hn as [-> | ->].
  - destruct (three_digits _ (H3 eq_refl)) as (L & D & ->). split; [lia|done].
  - destruct (four_digits _ (H4 eq_refl)) as (L & D & ->). split; [lia|done].
Qed.

Lemma detect_card_brand_empty (bin_code : string) :
  BINDatabase.detect_card_brand ∅ bin_code
  = Ok (BINDatabase._detect_by_rules bin_code).
Proof. rewrite detect_card_brand_lookup. by rewrite !lookup_empty. Qed.

(** Strings with different first characters are not prefixes of one
    string. *)
Lemma startswith_first (c c' : ascii) (p s : string) :
  Py.startswith (String c "") s = true -> c <> c' ->
  Py.startswith (String c' p) s = false.
Proof.
  intros H Hne. apply startswith_not. intros rest ->.
  apply startswith_app in H as [r E]. rewrite !app_cons in E.
  injection E as E _. congruence.
Qed.

End Defaults.

(** X15.  Without a BIN table (the state after a failed load), a BIN of
    one to ten digits gets a card by the prefix rules alone: 15 digits and
    a four-digit CVV when it starts with 34 or 37, else 16 digits and a
    three-digit CVV; the brand is the one of the prefix, the bank is
    Unknown and the country is US, United States. *)
Theorem generate_card_without_table (depth : nat) (now : Datetime.datetime)
    (bin_code : string) (g : Random.generator) :
  bin_code <> "" -> Py.all_digits bin_code = true -> Py.len bin_code <= 10 ->
  Datetime.valid now = true ->
  Datetime.toordinal now + 365 * 6 <= Datetime._MAXORDINAL ->
  exists card g',
    CardGenerator.generate_card depth ∅ now bin_code g = (Ok card, g')
    /\ let amex := Py.startswith "34" bin_code || Py.startswith "37" bin_code in
       Py.len (CardGenerator.cardNumber card) = (if amex then 15 else 16)
       /\ Py.len (CardGenerator.cvv card) = (if amex then 4 else 3)
       /\ Py.all_digits (CardGenerator.cvv card) = true
       /\ CardGenerator.brand card
          = (if Py.startswith "4" bin_code then "Visa"
             else if Py.startswith "5" bin_code then "Mastercard"
             else if amex then "American Express" else "Unknown")
       /\ CardGenerator.bank card = "Unknown"
       /\ CardGenerator.country card = "US"
       /\ CardGenerator.countryName card = "United States".
Proof.
  intros Hne Hd Hlen Hv Hmax.
  destruct (generate_card_run ∅ now bin_code g)
    as (brand_info & Eb & [[[H|H] _] | (_ & _ & segment & check_digit & g1
          & Hls & Hds & Hlc & Hdc & Ev & E)]); [done | congruence |].
  rewrite detect_card_brand_empty in Eb. injection Eb as Eb.
  assert (Py.all_digits ((bin_code +:+ segment) +:+ check_digit) = true)
    as Hfull by (by rewrite !all_digits_app, Hd, Hds, Hdc).
  assert (4 <= String.length ((bin_code +:+ segment) +:+ check_digit))%nat
    as Hfl by (apply full_number_length; [done | lia | done]).
  destruct (generate_expiry_date_run now g1)
    as (years & month & g2 & Hy & Hm & Ee).
  destruct (add_days_cases now (365 * years)) as [Ea | [later Ea]].
  { by destruct (add_days_in_range now years Hv Hmax Hy). }
  rewrite Ea in Ee.
  assert (Py.get (Brand.cvvLength brand_info) 3 = 3
          \/ Py.get (Brand.cvvLength brand_info) 3 = 4) as Hcl.
  { rewrite <- Eb. unfold BINDatabase._detect_by_rules.
    repeat destruct (Py.startswith _ _); cbn; auto. }
  destruct (generate_cvv_length _ month (Datetime.year later mod 100)
              (Py.get (Brand.cvvLength brand_info) 3) Hfull Hfl Hm
              ltac:(lia) Hcl) as (cvv & Ec & Lc & Dc).
  eexists _, g2. split.
  { rewrite E. unfold card_of.
    rewrite (bind_ok _ _ _ _ _ Ee), bind_lift, Ec. reflexivity. }
  cbn [CardGenerator.cardNumber CardGenerator.cvv CardGenerator.brand
       CardGenerator.bank CardGenerator.country CardGenerator.countryName].
  cbv zeta. rewrite Lc. unfold Py.len in *. rewrite !length_app_string, Hls, Hlc.
  clear E Ee Ec Ev. revert Hls. rewrite <- Eb.
  unfold BINDatabase._detect_by_rules.
  destruct (Py.startswith "4" bin_code) eqn:S4.
  { rewrite !(startswith_first "4" _ _ bin_code S4) by done.
    cbn. intros _. repeat split; try done. lia. }
  destruct (Py.startswith "5" bin_code) eqn:S5.
  { rewrite !(startswith_first "5" _ _ bin_code S5) by done.
    cbn. intros _. repeat split; try done. lia. }
  destruct (Py.startswith "34" bin_code || Py.startswith "37" bin_code);
    cbn; intros _; repeat split; try done; lia.
Qed.

Lemma generate_card_without_table_witness :
  exists card g',
    CardGenerator.generate_card 0 ∅
      {| Datetime.year := 2026; Datetime.month := 11; Datetime.day := 3 |}
      "371234" (Random.replay [1; 2; 3; 4; 5; 6; 7; 8; 9]%N) = (Ok card, g')
    /\ Py.len (CardGenerator.cardNumber card) = 15
    /\ Py.len (CardGenerator.cvv card) = 4.
Proof.
  destruct (generate_card_without_table 0
    {| Datetime.year := 2026; Datetime.month := 11; Datetime.day := 3 |}
    "371234" (Random.replay [1; 2; 3; 4; 5; 6; 7; 8; 9]%N))
    as (card & g' & E & H1 & H2 & _).
  - discriminate.
  - reflexivity.
  - vm_compute. discriminate.
  - reflexivity.
  - vm_compute. discriminate.
  - exists card, g'. split; [exact E|]. split; [exact H1 | exact H2].
Defined.

(* ===================================================================== *)
(** * Further properties: PersonGenerator *)
(* ===================================================================== *)

Section Person.

Import PersonGenerator.

(** [random.choice] on a sequence that is not empty takes one draw and
    returns one of its elements. *)
Lemma choice_in {A : Type} (seq : list A) (g : Random.generator) :
  seq <> [] ->
  exists x, RandomSeq.choice seq g = (Ok x, snd (Random.raw g)) /\ In x seq.
Proof.
  intros Hne. destruct seq as [|x seq]; [done|].
  unfold RandomSeq.choice, Random.bind, Random.raw, Random.ret. cbn [snd].
  eexists. split; [reflexivity|]. apply nth_In.
  set (n := length (x :: seq)).
  assert (0 < n)%nat by (subst n; cbn; lia).
  set (k := Random.source g (Random.cursor g)). clearbody n k. lia.
Qed.

Lemma choice_empty {A : Type} (g : Random.generator) :
  RandomSeq.choice (@nil A) g = (Raise IndexError, g).
Proof. reflexivity. Qed.

Lemma cursor_raw (g : Random.generator) :
  Random.cursor (snd (Random.raw g)) = S (Random.cursor g).
Proof. reflexivity. Qed.

Lemma fallback_address_run (g : Random.generator) :
  exists a,
    _generate_fallback_address g
    = (Ok a, snd (Random.raw (snd (Random.raw (snd (Random.raw g))))))
    /\ fallback_address a.
Proof.
  unfold _generate_fallback_address.
  set (number := 100 + Z.of_N (Random.source g (Random.cursor g)) mod 9900).
  assert (Random.randint 100 9999 g = (Ok number, snd (Random.raw g))) as E1
    by reflexivity.
  rewrite (bind_ok _ _ _ _ _ E1).
  destruct (choice_in ["Main"; "Oak"; "Maple"; "Cedar"; "Elm"; "Washington"]
              (snd (Random.raw g))) as (street_name & E2 & H2); [done|].
  rewrite (bind_ok _ _ _ _ _ E2).
  destruct (choice_in ["St"; "Ave"; "Rd"; "Dr"; "Ln"]
              (snd (Random.raw (snd (Random.raw g))))) as (suffix & E3 & H3);
    [done|].
  rewrite (bind_ok _ _ _ _ _ E3).
  eexists. split; [reflexivity|].
  exists number, street_name, suffix. repeat split; try done; subst number; lia.
Qed.


End Person.

Section PersonRuns.

Lemma try_except_ok {A : Type} (body handler : Random.M A)
    (g : Random.generator) :
  (forall g0, exists a g', handler g0 = (Ok a, g')) ->
  exists a g', RandomSeq.try_except body handler g = (Ok a, g').
Proof.
  intros H. unfold RandomSeq.try_except.
  destruct (body g) as [[a|e] g1]; eauto.
Qed.

Lemma generate_name_ok (g : Random.generator) :
  exists name g', PersonGenerator.generate_name g = (Ok name, g').
Proof.
  unfold PersonGenerator.generate_name.
  destruct (choice_in ["male"; "female"] g) as (gender & E1 & _); [done|].
  rewrite (bind_ok _ _ _ _ _ E1).
  assert (exists first_name g2,
    (if String.eqb gender "male"
     then RandomSeq.choice PersonGenerator.FIRST_NAMES_MALE
     else RandomSeq.choice PersonGenerator.FIRST_NAMES_FEMALE)
      (snd (Random.raw g)) = (Ok first_name, g2)) as (first_name & g2 & E2).
  { destruct (String.eqb gender "male");
      [destruct (choice_in PersonGenerator.FIRST_NAMES_MALE
                   (snd (Random.raw g))) as (x & E & _)
      |destruct (choice_in PersonGenerator.FIRST_NAMES_FEMALE
                   (snd (Random.raw g))) as (x & E & _)]; eauto; done. }
  rewrite (bind_ok _ _ _ _ _ E2).
  destruct (choice_in PersonGenerator.LAST_NAMES g2) as (last_name & E3 & _);
    [done|].
  rewrite (bind_ok _ _ _ _ _ E3). eauto.
Qed.

Lemma generate_address_ok
    (address_database :
       gmap string (OrderedDict.t (OrderedDict.t (list Place.entry))))
    (g : Random.generator) :
  exists a g',
    PersonGenerator.generate_address address_database g = (Ok a, g').
Proof.
  apply try_except_ok. intros g0.
  destruct (fallback_address_run g0) as (a & E & _). eauto.
Qed.

End PersonRuns.

(** X16.  [generate_name] never raises: with three draws it returns a
    first name of one of the two tables, one space and a last name of the
    table. *)
Theorem generate_name_shape (g : Random.generator) :
  exists (first_name last_name : string) (g' : Random.generator),
    PersonGenerator.generate_name g
    = (Ok (first_name +:+ " " +:+ last_name), g')
    /\ In first_name (PersonGenerator.FIRST_NAMES_MALE
                      ++ PersonGenerator.FIRST_NAMES_FEMALE)%list
    /\ In last_name PersonGenerator.LAST_NAMES
    /\ Random.cursor g' = (Random.cursor g + 3)%nat.
Proof.
  unfold PersonGenerator.generate_name.
  destruct (choice_in ["male"; "female"] g) as (gender & E1 & H1); [done|].
  rewrite (bind_ok _ _ _ _ _ E1).
  set (g1 := snd (Random.raw g)) in *.
  assert (exists first_name,
    (if String.eqb gender "male"
     then RandomSeq.choice PersonGenerator.FIRST_NAMES_MALE
     else RandomSeq.choice PersonGenerator.FIRST_NAMES_FEMALE) g1
    = (Ok first_name, snd (Random.raw g1))
    /\ In first_name (PersonGenerator.FIRST_NAMES_MALE
                      ++ PersonGenerator.FIRST_NAMES_FEMALE)%list)
    as (first_name & E2 & H2).
  { destruct (String.eqb gender "male").
    - destruct (choice_in PersonGenerator.FIRST_NAMES_MALE g1)
        as (x & E & H); [done|].
      exists x. split; [done|]. apply in_or_app. by left.
    - destruct (choice_in PersonGenerator.FIRST_NAMES_FEMALE g1)
        as (x & E & H); [done|].
      exists x. split; [done|]. apply in_or_app. by right. }
  rewrite (bind_ok _ _ _ _ _ E2).
  destruct (choice_in PersonGenerator.LAST_NAMES (snd (Random.raw g1)))
    as (last_name & E3 & H3); [done|].
  rewrite (bind_ok _ _ _ _ _ E3).
  exists first_name, last_name, (snd (Random.raw (snd (Random.raw g1)))).
  repeat split; try done. cbn. lia.
Qed.


(** X18.  Without the key US in the table, or with no state under it
    (the table is empty when its file could not be read),
    [generate_address] is [_generate_fallback_address]: three draws, and
    an address marked as from the generator. *)
Theorem generate_address_no_table
    (address_database :
       gmap string (OrderedDict.t (OrderedDict.t (list Place.entry))))
    (g : Random.generator) :
  Py.get (address_database !! "US") [] = [] ->
  exists (a : PersonGenerator.address) (g' : Random.generator),
    PersonGenerator.generate_address address_database g = (Ok a, g')
    /\ PersonGenerator._generate_fallback_address g = (Ok a, g')
    /\ fallback_address a
    /\ Random.cursor g' = (Random.cursor g + 3)%nat.
Proof.
  intros H. unfold PersonGenerator.generate_address. rewrite H.
  destruct (fallback_address_run g) as (a & E & Ha).
  exists a. eexists. unfold RandomSeq.try_except, OrderedDict.keys.
  cbn [map]. rewrite E. repeat split; try done. cbn. lia.
Qed.

Lemma generate_address_no_table_witness :
  exists (a : PersonGenerator.address) (g' : Random.generator),
    PersonGenerator.generate_address ∅ (Random.replay [5; 6; 7]%N)
    = (Ok a, g')
    /\ PersonGenerator._generate_fallback_address (Random.replay [5; 6; 7]%N)
       = (Ok a, g')
    /\ fallback_address a
    /\ Random.cursor g' = (Random.cursor (Random.replay [5; 6; 7]%N) + 3)%nat.
Proof.
  apply (generate_address_no_table ∅ (Random.replay [5; 6; 7]%N)).
  reflexivity.
Defined.

(* ===================================================================== *)
(** * Further properties: generate_complete_info *)
(* ===================================================================== *)

Section Complete.

Import CompleteInfo.

Context (depth : nat) (database : gmap string Brand.info)
  (address_database :
     gmap string (OrderedDict.t (OrderedDict.t (list Place.entry))))
  (now_of : nat -> Datetime.datetime) (timestamp_of : nat -> string)
  (bin_code : string).

(** On a BIN of digits and a date whose expiry dates exist the card comes
    back, with a number that passes the validation and starts with the
    BIN. *)
Lemma generate_card_valid (now : Datetime.datetime) (g : Random.generator) :
  bin_code <> "" -> Py.all_digits bin_code = true ->
  Datetime.valid now = true ->
  Datetime.toordinal now + 365 * 6 <= Datetime._MAXORDINAL ->
  exists card g',
    CardGenerator.generate_card depth database now bin_code g = (Ok card, g')
    /\ LuhnValidator.validate (CardGenerator.cardNumber card) = Ok true
    /\ Py.startswith bin_code (CardGenerator.cardNumber card) = true.
Proof.
  intros Hne Hd Hv Hmax.
  destruct (generate_card_run database now bin_code g)
    as (brand_info & Eb & [[[H|H] _] | (_ & _ & segment & check_digit & g1
          & Hls & Hds & Hlc & Hdc & Ev & E)]); [done | congruence |].
  destruct (card_of_cases now brand_info
              ((bin_code +:+ segment) +:+ check_digit) g1)
    as (years & g2 & Hy & [[Ea _] | (later & expiry & cvv & _ & Ec)]).
  { by rewrite !all_digits_app, Hd, Hds, Hdc. }
  { apply full_number_length; [done | lia | done]. }
  { by destruct (add_days_in_range now years Hv Hmax Hy). }
  eexists _, g2. split; [by rewrite E, Ec|].
  cbn [CardGenerator.cardNumber]. split; [done|].
  apply startswith_app. exists (segment +:+ check_digit).
  by rewrite app_assoc_string.
Qed.

Hypothesis bin_not_empty : bin_code <> "".
Hypothesis bin_digits : Py.all_digits bin_code = true.
Hypothesis now_valid : forall i, Datetime.valid (now_of i) = true.
Hypothesis now_in_range :
  forall i, Datetime.toordinal (now_of i) + 365 * 6 <= Datetime._MAXORDINAL.

(** The loop appends one record for each index, in order. *)
Lemma records_run (indices : list nat) (results : list info)
    (g : Random.generator) :
  exists new g',
    records indices depth database address_database now_of timestamp_of
      bin_code results g = (Ok (results ++ new)%list, g')
    /\ length new = length indices
    /\ Forall (card_of_bin bin_code) new
    /\ map timestamp new = map timestamp_of indices.
Proof.
  revert results g. induction indices as [|i indices IH]; intros results g.
  - exists [], g. by rewrite app_nil_r.
  - cbn [records].
    destruct (generate_card_valid (now_of i) g bin_not_empty bin_digits
                (now_valid i) (now_in_range i)) as (card & g1 & E1 & Hv & Hp).
    rewrite (bind_ok _ _ _ _ _ E1).
    destruct (generate_name_ok g1) as (name & g2 & E2).
    rewrite (bind_ok _ _ _ _ _ E2).
    destruct (generate_address_ok address_database g2) as (a & g3 & E3).
    rewrite (bind_ok _ _ _ _ _ E3).
    set (r := {| name := name; card := card; address := a;
                 timestamp := timestamp_of i |}).
    destruct (IH (results ++ [r])%list g3) as (new & g' & E & Hl & Hf & Ht).
    exists (r :: new), g'. rewrite E, <- app_assoc. cbn [app length map].
    repeat split; [by rewrite Hl | | by rewrite Ht].
    constructor; [by split | done].
Qed.

End Complete.

(** X19.  For a non-empty BIN of digits and a clock whose expiry dates
    exist, [generate_complete_info] returns exactly [quantity] records,
    none when [quantity] is negative; every record carries a card whose
    number passes the Luhn validation and starts with the BIN, and the
    records stand in the order they were made. *)
Theorem generate_complete_info_records (depth : nat)
    (database : gmap string Brand.info)
    (address_database :
       gmap string (OrderedDict.t (OrderedDict.t (list Place.entry))))
    (now_of : nat -> Datetime.datetime) (timestamp_of : nat -> string)
    (bin_code : string) (quantity : Z) (g : Random.generator) :
  bin_code <> "" -> Py.all_digits bin_code = true ->
  (forall i, Datetime.valid (now_of i) = true) ->
  (forall i, Datetime.toordinal (now_of i) + 365 * 6
             <= Datetime._MAXORDINAL) ->
  exists results g',
    CompleteInfo.generate_complete_info depth database address_database
      now_of timestamp_of bin_code quantity g = (Ok results, g')
    /\ Z.of_nat (length results) = Z.max 0 quantity
    /\ Forall (card_of_bin bin_code) results
    /\ map CompleteInfo.timestamp results
       = map timestamp_of (seq 0 (Z.to_nat quantity)).
Proof.
  intros Hne Hd Hv Hmax. unfold CompleteInfo.generate_complete_info.
  destruct (records_run depth database address_database now_of timestamp_of
              bin_code Hne Hd Hv Hmax (seq 0 (Z.to_nat quantity)) [] g)
    as (new & g' & E & Hl & Hf & Ht).
  exists new, g'. split; [exact E|]. rewrite length_seq in Hl.
  split; [lia|]. done.
Qed.

Lemma generate_complete_info_records_witness :
  exists results g',
    CompleteInfo.generate_complete_info 0 ∅ ∅
      (fun _ => {| Datetime.year := 2026; Datetime.month := 11;
                   Datetime.day := 3 |})
      (fun _ => "2026-11-03 12:00:00") "532959" 2 (Random.replay [])
    = (Ok results, g')
    /\ Z.of_nat (length results) = Z.max 0 2
    /\ Forall (card_of_bin "532959") results
    /\ map CompleteInfo.timestamp results
       = map (fun _ => "2026-11-03 12:00:00") (seq 0 (Z.to_nat 2)).
Proof.
  apply (generate_complete_info_records 0 ∅ ∅
    (fun _ => {| Datetime.year := 2026; Datetime.month := 11;
                 Datetime.day := 3 |})
    (fun _ => "2026-11-03 12:00:00") "532959" 2 (Random.replay [])).
  - discriminate.
  - reflexivity.
  - intros _. reflexivity.
  - intros _. vm_compute. discriminate.
Defined.

(** X20.  The BIN is looked at only when a card is made.  With a quantity
    of zero or less [generate_complete_info] returns the empty list without
    a draw, whatever the BIN; with a quantity of one or more, an empty BIN,
    or a BIN of ASCII characters one of which is not a digit, makes the
    whole call raise [ValueError]. *)
Theorem generate_complete_info_bad_bin (depth : nat)
    (database : gmap string Brand.info)
    (address_database :
       gmap string (OrderedDict.t (OrderedDict.t (list Place.entry))))
    (now_of : nat -> Datetime.datetime) (timestamp_of : nat -> string)
    (bin_code : string) (quantity : Z) (g : Random.generator) :
  (quantity <= 0 ->
     CompleteInfo.generate_complete_info depth database address_database
       now_of timestamp_of bin_code quantity g = (Ok [], g))
  /\ (1 <= quantity ->
      bin_code = ""
      \/ (Py.isascii bin_code = true /\ Py.all_digits bin_code = false) ->
      exists g',
        CompleteInfo.generate_complete_info depth database address_database
          now_of timestamp_of bin_code quantity g = (Raise ValueError, g')).
Proof.
  unfold CompleteInfo.generate_complete_info. split.
  - intros H. replace (Z.to_nat quantity) with 0%nat by lia. reflexivity.
  - intros H Hbin.
    destruct (Z.to_nat quantity) as [|n] eqn:En; [lia|].
    cbn [seq CompleteInfo.records].
    destruct (generate_card_run database (now_of 0%nat) bin_code g)
      as (brand_info & _ & [[_ [g1 E]] | (Hne & Hd & _)]).
    + exists g1. by rewrite (bind_raise _ _ _ _ _ (E depth)).
    + destruct Hbin as [Hbin | [_ Hbin]]; congruence.
Qed.

Lemma generate_complete_info_bad_bin_witness :
  CompleteInfo.generate_complete_info 0 ∅ ∅
    (fun _ => {| Datetime.year := 2026; Datetime.month := 11;
                 Datetime.day := 3 |})
    (fun _ => "2026-11-03 12:00:00") "45x211" 0 (Random.replay [])
  = (Ok [], Random.replay [])
  /\ exists g',
       CompleteInfo.generate_complete_info 0 ∅ ∅
         (fun _ => {| Datetime.year := 2026; Datetime.month := 11;
                      Datetime.day := 3 |})
         (fun _ => "2026-11-03 12:00:00") "45x211" 3 (Random.replay [])
       = (Raise ValueError, g').
Proof.
  split.
  - apply (proj1 (generate_complete_info_bad_bin 0 ∅ ∅
      (fun _ => {| Datetime.year := 2026; Datetime.month := 11;
                   Datetime.day := 3 |})
      (fun _ => "2026-11-03 12:00:00") "45x211" 0 (Random.replay []))).
    lia.
  - apply (proj2 (generate_complete_info_bad_bin 0 ∅ ∅
      (fun _ => {| Datetime.year := 2026; Datetime.month := 11;
                   Datetime.day := 3 |})
      (fun _ => "2026-11-03 12:00:00") "45x211" 3 (Random.replay []))).
    + lia.
    + right. split; reflexivity.
Defined.

(* ===================================================================== *)
(** * Further properties: validate_card_entry and save_to_json *)
(* ===================================================================== *)

Section Debit.

Import DebitCards.

Lemma lower_upper_char (c : ascii) :
  PyStr.lower_char (PyStr.upper_char c) = PyStr.lower_char c.
Proof. destruct c as [[] [] [] [] [] [] [] []]; vm_compute; reflexivity. Qed.

Lemma lower_upper (s : string) : PyStr.lower (PyStr.upper s) = PyStr.lower s.
Proof.
  unfold PyStr.lower, PyStr.upper. rewrite chars_of_chars, map_map.
  f_equal. apply map_ext. intros c. apply lower_upper_char.
Qed.

Lemma lower_debit (s : string) :
  PyStr.upper s = "DEBIT" -> PyStr.lower s = "debit".
Proof. intros H. by rewrite <- lower_upper, H. Qed.

(** A string of spaces alone holds no word. *)
Lemma contains_spaces (word s : string) :
  Py.remove_char " " s = "" -> word <> "" ->
  Py.startswith " " word = false -> PyStr.contains word s = false.
Proof.
  intros H Hw Hs. unfold Py.remove_char in H.
  induction s as [|c s IH].
  - destruct word; [done | reflexivity].
  - change (Py.chars (String c s)) with (c :: Py.chars s) in H.
    cbn [List.filter] in H.
    destruct (Ascii.eqb_spec c " ") as [->|Hc]; cbn [negb] in H;
      [|discriminate H].
    cbn [PyStr.contains]. rewrite (IH H), orb_false_r.
    destruct word as [|w word]; [done|].
    unfold Py.startswith in Hs. cbn [String.prefix] in Hs |- *.
    destruct (ascii_dec " " w) as [<-|Hne].
    + by destruct word.
    + destruct (ascii_dec w " ") as [->|]; done.
Qed.

(** What [validate_card_entry] does with a debit row: the entry it builds
    and the two checks it makes on it. *)
Lemma validate_card_entry_run (row : CsvRow.t) (required_fields : gset string) :
  PyStr.upper (CsvRow.type row) = "DEBIT" ->
  exists entry,
    validate_card_entry row required_fields
    = (if negb (forallb
                  (fun field =>
                     match Entry.item entry field with
                     | Some v => Entry.truthy v
                     | None => false
                     end)
                  (elements required_fields))
       then None
       else if String.eqb (Entry.country entry) ""
               || negb (Py.len (Entry.country entry) =? 2)
       then None
       else Some entry)
    /\ Entry.type entry = "debit"
    /\ Entry.country entry = CsvRow.alpha_2 row
    /\ Entry.countryName entry = CsvRow.country row
    /\ Entry.brand entry <> ""
    /\ Entry.bank entry <> ""
    /\ (Entry.bank entry
        = if String.eqb (CsvRow.issuer row) "" then "Various"
          else CsvRow.issuer row)
    /\ ((Entry.scheme entry = "amex" /\ Entry.brand entry = "American Express"
         /\ Entry.length entry = 15 /\ Entry.cvvLength entry = 4)
        \/ (Entry.scheme entry = "dinersclub"
            /\ Entry.brand entry = "Diners Club"
            /\ Entry.length entry = 14 /\ Entry.cvvLength entry = 3)
        \/ (Entry.scheme entry <> "amex" /\ Entry.scheme entry <> "dinersclub"
            /\ Entry.length entry = 16 /\ Entry.cvvLength entry = 3))
    /\ (Entry.scheme entry = ""
        <-> CsvRow.brand row <> ""
            /\ Py.remove_char " " (PyStr.lower (CsvRow.brand row)) = "").
Proof.
  intros Hdebit. unfold validate_card_entry.
  rewrite Hdebit. cbn [String.eqb Ascii.eqb Bool.eqb negb].
  rewrite (lower_debit _ Hdebit).
  set (raw := if negb (String.eqb (CsvRow.brand row) "")
              then Py.remove_char " " (PyStr.lower (CsvRow.brand row))
              else "unknown").
  set (brand0 := if negb (String.eqb (CsvRow.brand row) "") then CsvRow.brand row
                 else "Unknown").
  set (bank0 := if negb (String.eqb (CsvRow.issuer row) "") then CsvRow.issuer row
                else "Various").
  assert (brand0 <> "") as Hbrand.
  { subst brand0. destruct (String.eqb_spec (CsvRow.brand row) ""); done. }
  assert (bank0 <> "") as Hbank.
  { subst bank0. destruct (String.eqb_spec (CsvRow.issuer row) ""); done. }
  assert (bank0 = if String.eqb (CsvRow.issuer row) "" then "Various"
                  else CsvRow.issuer row) as Hbank'.
  { subst bank0. by destruct (String.eqb (CsvRow.issuer row) ""). }
  cbn [Entry.scheme Entry.brand].
  assert (forall a b : Prop, ~ b -> ~ a -> (b <-> a)) as Hno by tauto.
  destruct (PyStr.contains "amex" raw || String.eqb raw "americanexpress")
    eqn:Eamex.
  { eexists. split; [reflexivity|]. cbn. repeat split; try done.
    - left. done.
    - apply Hno; [done|]. intros [Hb Hr]. subst raw.
      destruct (String.eqb_spec (CsvRow.brand row) ""); [done|].
      cbn [negb] in Eamex. rewrite Hr in Eamex. discriminate Eamex. }
  destruct (PyStr.contains "visa" raw) eqn:Evisa.
  { eexists. split; [reflexivity|]. cbn. repeat split; try done.
    - right. right. done.
    - apply Hno; [done|]. intros [Hb Hr]. subst raw.
      destruct (String.eqb_spec (CsvRow.brand row) ""); [done|].
      cbn [negb] in Evisa. rewrite Hr in Evisa. discriminate Evisa. }
  destruct (PyStr.contains "mastercard" raw || PyStr.contains "master" raw)
    eqn:Emaster.
  { eexists. split; [reflexivity|]. cbn. repeat split; try done.
    - right. right. done.
    - apply Hno; [done|]. intros [Hb Hr]. subst raw.
      destruct (String.eqb_spec (CsvRow.brand row) ""); [done|].
      cbn [negb] in Emaster. rewrite Hr in Emaster. discriminate Emaster. }
  destruct (PyStr.contains "discover" raw) eqn:Ediscover.
  { eexists. split; [reflexivity|]. cbn. repeat split; try done.
    - right. right. done.
    - apply Hno; [done|]. intros [Hb Hr]. subst raw.
      destruct (String.eqb_spec (CsvRow.brand row) ""); [done|].
      cbn [negb] in Ediscover. rewrite Hr in Ediscover. discriminate Ediscover. }
  destruct (PyStr.contains "jcb" raw) eqn:Ejcb.
  { eexists. split; [reflexivity|]. cbn. repeat split; try done.
    - right. right. done.
    - apply Hno; [done|]. intros [Hb Hr]. subst raw.
      destruct (String.eqb_spec (CsvRow.brand row) ""); [done|].
      cbn [negb] in Ejcb. rewrite Hr in Ejcb. discriminate Ejcb. }
  destruct (PyStr.contains "dinersclub" raw || PyStr.contains "diners" raw)
    eqn:Ediners.
  { eexists. split; [reflexivity|]. cbn. repeat split; try done.
    - right. left. done.
    - apply Hno; [done|]. intros [Hb Hr]. subst raw.
      destruct (String.eqb_spec (CsvRow.brand row) ""); [done|].
      cbn [negb] in Ediners. rewrite Hr in Ediners. discriminate Ediners. }
  assert (raw <> "amex") as Hna.
  { intros E. rewrite E in Eamex. discriminate Eamex. }
  assert (raw <> "dinersclub") as Hnd.
  { intros E. rewrite E in Ediners. discriminate Ediners. }
  destruct (PyStr.contains "private" (PyStr.lower raw)
            || PyStr.contains "label" (PyStr.lower brand0)) eqn:Eprivate.
  { eexists. split; [reflexivity|]. cbn. repeat split; try done.
    - right. right. done.
    - apply Hno; [done|]. intros [Hb Hr]. subst raw brand0.
      destruct (String.eqb_spec (CsvRow.brand row) ""); [done|].
      cbn [negb] in Eprivate. rewrite Hr in Eprivate.
      rewrite (contains_spaces "label" (PyStr.lower (CsvRow.brand row)))
        in Eprivate by done.
      discriminate Eprivate. }
  eexists. split; [reflexivity|]. cbn. repeat split; try done.
  - right. right. done.
  - intros E. subst raw.
    destruct (String.eqb_spec (CsvRow.brand row) ""); [|done].
    cbn [negb] in H. discriminate H.
  - subst raw.
    destruct (String.eqb_spec (CsvRow.brand row) ""); cbn [negb] in H;
      [discriminate H | exact H].
  - intros [Hb Hr]. subst raw.
    destruct (String.eqb_spec (CsvRow.brand row) ""); [done|]. exact Hr.
Qed.

Lemma item_keys (entry : Entry.t) (field : string) (v : Entry.value) :
  Entry.item entry field = Some v -> In field entry_keys.
Proof.
  unfold Entry.item, entry_keys.
  repeat match goal with
         | |- context [String.eqb field ?k] =>
             destruct (String.eqb_spec field k) as [->|?];
             [intros _; cbn; tauto|]
         end.
  discriminate.
Qed.

Lemma required_fields_present (entry : Entry.t)
    (required_fields : gset string) :
  forallb
    (fun field =>
       match Entry.item entry field with
       | Some v => Entry.truthy v
       | None => false
       end)
    (elements required_fields) = true
  <-> forall field, field ∈ required_fields ->
        exists v, Entry.item entry field = Some v /\ Entry.truthy v = true.
Proof.
  rewrite forallb_forall. split.
  - intros H field Hf. specialize (H field).
    destruct (Entry.item entry field) as [v|].
    + exists v. split; [done|]. apply H.
      by apply list_elem_of_In, elem_of_elements.
    + discriminate H. by apply list_elem_of_In, elem_of_elements.
  - intros H field Hf. apply list_elem_of_In, elem_of_elements in Hf.
    destruct (H field Hf) as (v & -> & Hv). exact Hv.
Qed.

Lemma not_debit (row : CsvRow.t) (required_fields : gset string) :
  PyStr.upper (CsvRow.type row) <> "DEBIT" ->
  validate_card_entry row required_fields = None.
Proof.
  intros H. unfold validate_card_entry.
  by destruct (String.eqb_spec (PyStr.upper (CsvRow.type row)) "DEBIT").
Qed.

Lemma len_2_not_empty (s : string) :
  Py.len s = 2 <-> String.eqb s "" || negb (Py.len s =? 2) = false.
Proof.
  unfold Py.len. destruct s as [|a [|b [|c s]]]; cbn [String.length]; split;
    try done; try lia.
  intros H. cbn [String.eqb orb] in H. apply negb_false_iff, Z.eqb_eq in H.
  lia.
Qed.

End Debit.

(** X21.  Among the rows whose type, brand and country code are of ASCII
    characters, those [validate_card_entry] accepts are exactly the debit
    rows (in any letter case) with a country code of two characters for
    which every required field is one of the eight keys of the entry and
    is not empty there.  A required field the entry does not have, as when
    the table's entries carry one more key, rejects every row; a missing
    brand or issuer never rejects a row, since Unknown and Various stand in
    for them. *)
Theorem validate_card_entry_accepts (row : CsvRow.t)
    (required_fields : gset string) :
  ascii_row row ->
  (exists entry,
     DebitCards.validate_card_entry row required_fields = Some entry)
  <-> accepted row required_fields.
Proof.
  intros _.
  destruct (String.eqb_spec (PyStr.upper (CsvRow.type row)) "DEBIT")
    as [Hdebit|Hdebit].
  2: { rewrite (not_debit _ _ Hdebit). split; [intros [e H]; discriminate H|].
       intros [H _]. done. }
  destruct (validate_card_entry_run row required_fields Hdebit)
    as (e & -> & Htype & Hcountry & Hname & Hbrand & Hbank & _ & Hlen & Hscheme).
  rewrite Hcountry. split.
  - intros [entry H].
    destruct (forallb _ _) eqn:Ereq; [|discriminate H]. cbn [negb] in H.
    destruct (_ || _) eqn:Ec; [discriminate H|]. clear H.
    pose proof (proj1 (required_fields_present e required_fields) Ereq)
      as Hreq. clear Ereq. rename Hreq into Ereq.
    apply len_2_not_empty in Ec.
    split; [done|]. split; [done|]. split; [|split].
    + intros field Hf. destruct (Ereq field Hf) as (v & Hv & _).
      by apply (item_keys e field v).
    + intros Hf. destruct (Ereq _ Hf) as (v & Hv & Ht).
      injection Hv as <-. rewrite <- Hname. cbn in Ht.
      by destruct (String.eqb_spec (Entry.countryName e) "").
    + intros Hf. destruct (Ereq _ Hf) as (v & Hv & Ht).
      injection Hv as <-. cbn in Ht.
      destruct (String.eqb_spec (CsvRow.brand row) "") as [|Hb]; [by left|].
      right. intros Hr.
      destruct (String.eqb_spec (Entry.scheme e) "") as [|Hs]; [done|].
      apply Hs, Hscheme. done.
  - intros (_ & Hl & Hkeys & Hcn & Hsc).
    assert (forallb
      (fun field =>
         match Entry.item e field with
         | Some v => Entry.truthy v
         | None => false
         end) (elements required_fields) = true) as ->.
    { apply required_fields_present. intros field Hf.
      pose proof (Hkeys field Hf) as Hin. unfold entry_keys in Hin.
      cbn [In] in Hin.
      destruct Hin as [<-|[<-|[<-|[<-|[<-|[<-|[<-|[<-|[]]]]]]]]];
        (eexists; split; [reflexivity|]); cbn [Entry.truthy].
      - destruct (String.eqb_spec (Entry.scheme e) "") as [Hs|]; [|done].
        apply Hscheme in Hs as [Hb Hr]. destruct (Hsc Hf); done.
      - by rewrite Htype.
      - by destruct (String.eqb_spec (Entry.brand e) "").
      - by destruct (String.eqb_spec (Entry.bank e) "").
      - rewrite Hcountry. apply len_2_not_empty in Hl.
        by apply orb_false_iff in Hl as [-> _].
      - rewrite Hname.
        by destruct (String.eqb_spec (CsvRow.country row) "") as [E|];
          [destruct (Hcn Hf E)|].
      - destruct Hlen as [(_ & _ & -> & _) | [(_ & _ & -> & _)
                                              | (_ & _ & -> & _)]]; done.
      - destruct Hlen as [(_ & _ & _ & ->) | [(_ & _ & _ & ->)
                                              | (_ & _ & _ & ->)]]; done. }
    cbn [negb]. apply len_2_not_empty in Hl. rewrite Hl. by exists e.
Qed.

Lemma validate_card_entry_accepts_witness :
  accepted
    {| CsvRow.bin := "411111"; CsvRow.brand := "VISA"; CsvRow.type := "debit";
       CsvRow.issuer := ""; CsvRow.alpha_2 := "US";
       CsvRow.country := "United States" |}
    (list_to_set ["scheme"; "type"; "brand"; "bank"; "country";
                  "countryName"; "length"; "cvvLength"]).
Proof.
  refine (proj1 (validate_card_entry_accepts
    {| CsvRow.bin := "411111"; CsvRow.brand := "VISA"; CsvRow.type := "debit";
       CsvRow.issuer := ""; CsvRow.alpha_2 := "US";
       CsvRow.country := "United States" |}
    (list_to_set ["scheme"; "type"; "brand"; "bank"; "country";
                  "countryName"; "length"; "cvvLength"]) _) _).
  - repeat split.
  - eexists. vm_compute. reflexivity.
Defined.

(** X22.  What an accepted entry holds, for a row whose type, brand and
    country code are of ASCII characters.  Its type is debit, in lower
    case; its country is the row's two-character code and its country name
    the row's; brand and bank are not empty, the bank being Various for a
    row without issuer; the number length and the CVV length are 15 and 4
    for the scheme amex, 14 and 3 for dinersclub, and 16 and 3 otherwise;
    and every required field has a value that is not empty. *)
Theorem validate_card_entry_entry (row : CsvRow.t)
    (required_fields : gset string) (entry : Entry.t) :
  ascii_row row ->
  DebitCards.validate_card_entry row required_fields = Some entry ->
  Entry.type entry = "debit"
  /\ Entry.country entry = CsvRow.alpha_2 row
  /\ Py.len (Entry.country entry) = 2
  /\ Entry.countryName entry = CsvRow.country row
  /\ Entry.brand entry <> ""
  /\ Entry.bank entry
     = (if String.eqb (CsvRow.issuer row) "" then "Various" else CsvRow.issuer row)
  /\ ((Entry.scheme entry = "amex" /\ Entry.brand entry = "American Express"
       /\ Entry.length entry = 15 /\ Entry.cvvLength entry = 4)
      \/ (Entry.scheme entry = "dinersclub"
          /\ Entry.brand entry = "Diners Club"
          /\ Entry.length entry = 14 /\ Entry.cvvLength entry = 3)
      \/ (Entry.scheme entry <> "amex" /\ Entry.scheme entry <> "dinersclub"
          /\ Entry.length entry = 16 /\ Entry.cvvLength entry = 3))
  /\ (forall field, field ∈ required_fields ->
        exists v, Entry.item entry field = Some v
                  /\ Entry.truthy v = true).
Proof.
  intros _ H.
  destruct (String.eqb_spec (PyStr.upper (CsvRow.type row)) "DEBIT")
    as [Hdebit|Hdebit]; [|by rewrite (not_debit _ _ Hdebit) in H].
  destruct (validate_card_entry_run row required_fields Hdebit)
    as (e & E & Htype & Hcountry & Hname & Hbrand & _ & Hbank & Hlen & _).
  rewrite E in H.
  destruct (forallb _ _) eqn:Ereq; [|discriminate H]. cbn [negb] in H.
  destruct (_ || _) eqn:Ec; [discriminate H|]. injection H as <-.
  pose proof (proj1 (required_fields_present e required_fields) Ereq)
    as Hreq.
  apply len_2_not_empty in Ec. rewrite Hcountry in Ec |- *.
  done.
Qed.

Lemma validate_card_entry_entry_witness :
  Entry.type
    {| Entry.scheme := "visa"; Entry.type := "debit";
       Entry.brand := "Visa"; Entry.bank := "Various";
       Entry.country := "US"; Entry.countryName := "United States";
       Entry.length := 16; Entry.cvvLength := 3 |} = "debit"
  /\ Entry.country
       {| Entry.scheme := "visa"; Entry.type := "debit";
          Entry.brand := "Visa"; Entry.bank := "Various";
          Entry.country := "US"; Entry.countryName := "United States";
          Entry.length := 16; Entry.cvvLength := 3 |} = "US".
Proof.
  destruct (validate_card_entry_entry
    {| CsvRow.bin := "411111"; CsvRow.brand := "VISA"; CsvRow.type := "debit";
       CsvRow.issuer := ""; CsvRow.alpha_2 := "US";
       CsvRow.country := "United States" |}
    (list_to_set ["scheme"; "type"; "brand"; "bank"; "country";
                  "countryName"; "length"; "cvvLength"])
    {| Entry.scheme := "visa"; Entry.type := "debit";
       Entry.brand := "Visa"; Entry.bank := "Various";
       Entry.country := "US"; Entry.countryName := "United States";
       Entry.length := 16; Entry.cvvLength := 3 |})
    as (H1 & H2 & _).
  - repeat split.
  - vm_compute. reflexivity.
  - split; [exact H1 | exact H2].
Defined.

Section SaveToJson.

Import DebitCards.

Lemma fill_bins_lookup (selected_cards : list selected)
    (bins : gmap string Entry.t) (bin_code : string) :
  fill_bins selected_cards bins !! bin_code
  = match last_entry bin_code selected_cards with
    | Some entry => Some entry
    | None => bins !! bin_code
    end.
Proof.
  revert bins. induction selected_cards as [|card rest IH]; intros bins.
  - reflexivity.
  - cbn [fill_bins last_entry]. rewrite IH.
    destruct (last_entry bin_code rest); [done|].
    destruct (String.eqb_spec (bin card) bin_code) as [<-|Hne].
    + by rewrite lookup_insert_eq.
    + by rewrite lookup_insert_ne.
Qed.

Lemma fill_bins_size (selected_cards : list selected)
    (bins : gmap string Entry.t) :
  (size (fill_bins selected_cards bins)
   <= size bins + length selected_cards)%nat
  /\ (size (fill_bins selected_cards bins)
      = (size bins + length selected_cards)%nat
      <-> NoDup (map bin selected_cards)
          /\ forall card, In card selected_cards -> bins !! bin card = None).
Proof.
  revert bins. induction selected_cards as [|card rest IH]; intros bins.
  - cbn. split; [lia|]. split; [intros _; split; [constructor | done] | lia].
  - cbn [fill_bins length map].
    destruct (IH (<[bin card := entry card]> bins)) as [Hle Heq].
    rewrite map_size_insert in Hle, Heq.
    destruct (bins !! bin card) as [e|] eqn:Eb; cbn [id] in Hle, Heq.
    + split; [lia|]. split; [lia|].
      intros [_ H]. specialize (H card (or_introl eq_refl)). congruence.
    + split; [lia|]. rewrite Nat.add_succ_r, Heq, NoDup_cons. split.
      * intros [Hnd Hnone]. split; [split; [|done]|].
        -- intros Hin. apply list_elem_of_In, in_map_iff in Hin
             as (card' & Hb & Hin).
           specialize (Hnone card' Hin). rewrite Hb in Hnone.
           by rewrite lookup_insert_eq in Hnone.
        -- intros card' [<-|Hin]; [done|].
           specialize (Hnone card' Hin).
           apply lookup_insert_None in Hnone as [Hnone _]. done.
      * intros [[Hni Hnd] Hnone]. split; [done|].
        intros card' Hin. apply lookup_insert_None. split.
        -- apply Hnone. by right.
        -- intros Hb. apply Hni, list_elem_of_In, in_map_iff.
           by exists card'.
Qed.

End SaveToJson.

(** X23.  [save_to_json] keeps one entry for each BIN: under a BIN the
    dictionary it writes holds the entry of the last selected card with
    that BIN, and nothing under a BIN no card has.  So it never holds more
    entries than cards were selected, and holds as many exactly when no BIN
    was selected twice: a card selected twice is written once. *)
Theorem save_to_json_last_wins (selected_cards : list DebitCards.selected) :
  (forall bin_code,
     DebitCards.save_to_json selected_cards !! bin_code
     = last_entry bin_code selected_cards)
  /\ (forall bin_code,
        is_Some (DebitCards.save_to_json selected_cards !! bin_code)
        <-> In bin_code (map DebitCards.bin selected_cards))
  /\ (size (DebitCards.save_to_json selected_cards)
      <= length selected_cards)%nat
  /\ (size (DebitCards.save_to_json selected_cards) = length selected_cards
      <-> NoDup (map DebitCards.bin selected_cards)).
Proof.
  unfold DebitCards.save_to_json.
  assert (forall bin_code,
            DebitCards.fill_bins selected_cards ∅ !! bin_code
            = last_entry bin_code selected_cards) as Hlookup.
  { intros bin_code. rewrite fill_bins_lookup, lookup_empty.
    by destruct (last_entry bin_code selected_cards). }
  split; [exact Hlookup|]. split.
  { intros bin_code. rewrite Hlookup. clear Hlookup.
    induction selected_cards as [|card rest IH]; cbn [last_entry map In].
    - split; [by intros [? ?] | done].
    - destruct (last_entry bin_code rest) as [e|].
      + split; [intros _; right; apply IH; eauto | eauto].
      + destruct (String.eqb_spec (DebitCards.bin card) bin_code) as [->|Hne].
        * split; [by left | eauto].
        * split; [by intros [? ?]|]. intros [H|H]; [done|].
          apply IH in H as [? H]. discriminate H. }
  destruct (fill_bins_size selected_cards ∅) as [Hle Heq].
  rewrite map_size_empty in Hle, Heq. cbn [Nat.add] in Hle, Heq.
  split; [exact Hle|]. rewrite Heq. split; [by intros [H _]|].
  intros H. split; [done|]. intros card _. apply lookup_empty.
Qed.

(* ===================================================================== *)
(** * Further properties: the reading loop of select_random_cards *)
(* ===================================================================== *)

Section Reading.

Import DebitCards.

Lemma accepted_country (row : CsvRow.t) (required_fields : gset string)
    (e : Entry.t) :
  validate_card_entry row required_fields = Some e ->
  Py.len (Entry.country e) = 2.
Proof.
  intros H.
  destruct (String.eqb_spec (PyStr.upper (CsvRow.type row)) "DEBIT")
    as [Hdebit|Hdebit]; [|by rewrite (not_debit _ _ Hdebit) in H].
  destruct (validate_card_entry_run row required_fields Hdebit)
    as (e' & E & _).
  rewrite E in H.
  destruct (forallb _ _); [|discriminate H]. cbn [negb] in H.
  destruct (_ || _) eqn:Ec; [discriminate H|]. injection H as <-.
  by apply len_2_not_empty.
Qed.

Lemma cards_of_country (country : string) (rows : list CsvRow.t)
    (required_fields : gset string) :
  Forall (fun card => Entry.country (entry card) = country
                      /\ Py.len country = 2
                      /\ exists row, In row rows
                           /\ bin card = CsvRow.bin row
                           /\ validate_card_entry row required_fields
                              = Some (entry card))
    (cards_of country rows required_fields).
Proof.
  induction rows as [|row rows IH]; [constructor|].
  assert (Forall (fun card => Entry.country (entry card) = country
                      /\ Py.len country = 2
                      /\ exists row', In row' (row :: rows)
                           /\ bin card = CsvRow.bin row'
                           /\ validate_card_entry row' required_fields
                              = Some (entry card))
            (cards_of country rows required_fields)) as IH'.
  { eapply Forall_impl; [exact IH|]. intros card (H1 & H2 & row' & H3 & H4).
    split; [done|]. split; [done|]. exists row'. split; [by right | done]. }
  cbn [cards_of].
  destruct (validate_card_entry row required_fields) as [e|] eqn:E; [|done].
  destruct (String.eqb_spec (Entry.country e) country) as [Hc|]; [|done].
  constructor; [|done]. cbn [entry bin]. split; [done|].
  split; [rewrite <- Hc; by apply (accepted_country row required_fields)|].
  exists row. split; [by left | done].
Qed.

Lemma read_rows_run (rows : list CsvRow.t) (required_fields : gset string)
    (state : reading) :
  total_processed (read_rows rows required_fields state)
  = total_processed state + Z.of_nat (length rows)
  /\ total_valid (read_rows rows required_fields state)
     = total_valid state + count_valid rows required_fields
  /\ forall country,
       Py.get (cards_by_country (read_rows rows required_fields state)
                 !! country) []
       = (Py.get (cards_by_country state !! country) []
          ++ cards_of country rows required_fields)%list
       /\ (cards_by_country (read_rows rows required_fields state) !! country
           = None
           <-> cards_by_country state !! country = None
               /\ cards_of country rows required_fields = []).
Proof.
  revert state. induction rows as [|row rows IH]; intros state.
  - cbn [read_rows length count_valid cards_of]. split; [lia|]. split; [lia|].
    intros country. rewrite app_nil_r. split; [done | tauto].
  - cbn [read_rows length count_valid cards_of].
    destruct (validate_card_entry row required_fields) as [e|] eqn:E.
    + destruct (IH {| cards_by_country :=
                        <[Entry.country e :=
                            (Py.get (cards_by_country state
                                       !! Entry.country e) []
                             ++ [{| bin := CsvRow.bin row; entry := e |}])%list]>
                          (cards_by_country state);
                      total_valid := total_valid state + 1;
                      total_processed := total_processed state + 1 |})
        as (H1 & H2 & H3).
      cbn [total_processed total_valid cards_by_country] in H1, H2, H3.
      split; [lia|]. split; [lia|]. intros country.
      destruct (H3 country) as [H4 H5]. rewrite H4, H5. clear H1 H2 H3 H4 H5.
      destruct (String.eqb_spec (Entry.country e) country) as [<-|Hne].
      * rewrite lookup_insert_eq. cbn [Py.get]. rewrite <- app_assoc.
        split; [done|]. split; [by intros [? _] | by intros [_ ?]].
      * rewrite lookup_insert_ne by done. done.
    + destruct (IH {| cards_by_country := cards_by_country state;
                      total_valid := total_valid state;
                      total_processed := total_processed state + 1 |})
        as (H1 & H2 & H3).
      cbn [total_processed total_valid cards_by_country] in H1, H2, H3.
      split; [lia|]. split; [lia|]. exact H3.
Qed.

End Reading.

(** X24.  The reading loop of [select_random_cards], started from no
    groups: it counts every row and every accepted row; the group of a
    country holds the cards of the accepted rows with that country code,
    in the order of the rows, each with the BIN of its row; no group is
    empty, and every group stands under a code of two characters. *)
Theorem read_rows_groups (rows : list CsvRow.t) (required_fields : gset string) :
  let state :=
    DebitCards.read_rows rows required_fields
      {| DebitCards.cards_by_country := ∅; DebitCards.total_valid := 0;
         DebitCards.total_processed := 0 |} in
  DebitCards.total_processed state = Z.of_nat (length rows)
  /\ DebitCards.total_valid state = count_valid rows required_fields
  /\ forall country,
       (DebitCards.cards_by_country state !! country
        = match cards_of country rows required_fields with
          | [] => None
          | group => Some group
          end)
       /\ Forall (fun card =>
                    Entry.country (DebitCards.entry card) = country
                    /\ Py.len country = 2
                    /\ exists row,
                         In row rows
                         /\ DebitCards.bin card = CsvRow.bin row
                         /\ DebitCards.validate_card_entry row required_fields
                            = Some (DebitCards.entry card))
            (cards_of country rows required_fields).
Proof.
  cbv zeta.
  destruct (read_rows_run rows required_fields
              {| DebitCards.cards_by_country := ∅;
                 DebitCards.total_valid := 0;
                 DebitCards.total_processed := 0 |}) as (H1 & H2 & H3).
  cbn [DebitCards.total_processed DebitCards.total_valid
       DebitCards.cards_by_country] in H1, H2, H3.
  split; [lia|]. split; [lia|]. intros country.
  split; [|apply cards_of_country].
  destruct (H3 country) as [H4 H5]. rewrite lookup_empty in H4, H5.
  cbn [Py.get app] in H4.
  destruct (DebitCards.cards_by_country _ !! country) as [group|] eqn:E.
  - cbn [Py.get] in H4. rewrite <- H4.
    destruct group; [|done]. symmetry in H4.
    assert (Some (@nil DebitCards.selected) = None) as Habs
      by (apply H5; done). discriminate Habs.
  - destruct H5 as [H5 _]. destruct (H5 eq_refl) as [_ ->]. done.
Qed.

(* ===================================================================== *)
(** * Further properties: the keys detect_card_brand reads *)
(* ===================================================================== *)

Section Keys.

Lemma upto_all (n : nat) (s : string) :
  (String.length s <= n)%nat -> Py.upto (Z.of_nat n) s = s.
Proof.
  intros H. rewrite upto_chars, firstn_all2, of_chars_chars; [done|].
  by rewrite chars_length.
Qed.

Lemma key_not_prefix (n : nat) (key bin_code : string) :
  n = 4%nat \/ n = 2%nat \/ n = 1%nat ->
  String.length key = 3%nat \/ (5 <= String.length key)%nat ->
  key <> bin_code -> key <> Py.upto (Z.of_nat n) bin_code.
Proof.
  intros Hn Hk Hne E.
  pose proof (upto_length n bin_code) as Hl. rewrite <- E in Hl.
  destruct (Nat.le_gt_cases (String.length bin_code) n) as [Hs|Hs].
  - rewrite (upto_all n bin_code Hs) in E. done.
  - lia.
Qed.

End Keys.

(** X25.  The table is read under the BIN itself and under its first four,
    two and one characters, and under nothing else.  So an entry whose key
    has three characters, or five or more, is found only by the BIN equal
    to its key: for every other BIN, also one that starts with the key, the
    result is the same with and without the entry. *)
Theorem detect_card_brand_unread_key (database : gmap string Brand.info)
    (key : string) (brand_info : Brand.info) (bin_code : string) :
  Py.len key = 3 \/ 5 <= Py.len key ->
  key <> bin_code ->
  BINDatabase.detect_card_brand (<[key := brand_info]> database) bin_code
  = BINDatabase.detect_card_brand database bin_code.
Proof.
  intros Hk Hne. unfold Py.len in Hk.
  assert (String.length key = 3%nat \/ (5 <= String.length key)%nat) as Hk'
    by lia.
  rewrite !detect_card_brand_lookup.
  rewrite (lookup_insert_ne _ key bin_code) by done.
  rewrite (lookup_insert_ne _ key (Py.upto 4 bin_code))
    by (apply (key_not_prefix 4); [tauto | done..]).
  rewrite (lookup_insert_ne _ key (Py.upto 2 bin_code))
    by (apply (key_not_prefix 2); [tauto | done..]).
  rewrite (lookup_insert_ne _ key (Py.upto 1 bin_code))
    by (apply (key_not_prefix 1); [tauto | done..]).
  reflexivity.
Qed.

Lemma detect_card_brand_unread_key_witness :
  BINDatabase.detect_card_brand
    (<["532959" := {| Brand.brand := Some "Mastercard";
                      Brand.length := Some 16; Brand.cvvLength := Some 3;
                      Brand.bank := Some "First Bank";
                      Brand.country := Some "US";
                      Brand.countryName := Some "United States" |}]> ∅)
    "53295912"
  = BINDatabase.detect_card_brand ∅ "53295912".
Proof.
  apply (detect_card_brand_unread_key ∅ "532959").
  - right. vm_compute. discriminate.
  - discriminate.
Defined.
